(** * arrowmatrix: indexed random access over flattened N-d matrices

    A shallow embedding of [arrowmatrix/common.py], [arrowmatrix/feather.py]
    and [arrowmatrix/parquet.py], followed by the properties of the
    coordinate mapper, the row-gather engine, the slice materializer and
    the persisted metadata layout.

    Conventions of the embedding.
    - Python integers are [Z]; [str] and ASCII [bytes] are [string]
      ([encode]/[decode] are then the identity).
    - A Python call that may raise returns [result]; the exception classes
      are the constructors of [exn].
    - A flattened numpy array of integers is a [list Z]; a dense array of
      cell values is an [ndarray] (shape and row-major data).
    - numpy holds these integers as int64 and computes modulo [2^64]; the
      embedding computes on [Z].  The two agree whenever the integers
      given and the integers computed are in the int64 range (two's
      complement arithmetic is a ring homomorphism, so the intermediate
      values do not matter), and numpy reads an empty Python list and
      [np.prod(())] as float64, which the embedding does not represent.
      The statements that depend on the computed values name this domain
      in their hypotheses ([int64], [int64_index], [int64_sel],
      [prod_exact], non-empty arguments, two or more dimensions).
    - Matrix names are [str] objects.
    - Cell values have an abstract type [A] (the matrices hold floats). *)

From Stdlib Require Import ZArith List String Ascii Bool Lia.
From Stdlib Require Import Decimal DecimalString DecimalZ.
From stdpp Require Import base option list strings gmap.

Local Open Scope string_scope.
Local Open Scope Z_scope.

(** ** Python exceptions and fallible calls *)

Inductive exn : Type :=
| ValueError (msg : string)
| KeyError (key : string)
| TypeError (msg : string)
| IndexError (msg : string)
| FileExistsError (filename : string)
| FileNotFoundError (filename : string)
| MissingShapeError (msg : string)
| AssertionError
| ZeroDivisionError (msg : string)
| OSError (msg : string)
| ArrowInvalid (msg : string)
| ArrowIndexError (msg : string).

(** [type(e).__name__] *)
Definition class_name (e : exn) : string :=
  match e with
  | ValueError _ => "ValueError"
  | KeyError _ => "KeyError"
  | TypeError _ => "TypeError"
  | IndexError _ => "IndexError"
  | FileExistsError _ => "FileExistsError"
  | FileNotFoundError _ => "FileNotFoundError"
  | MissingShapeError _ => "MissingShapeError"
  | AssertionError => "AssertionError"
  | ZeroDivisionError _ => "ZeroDivisionError"
  | OSError _ => "OSError"
  | ArrowInvalid _ => "ArrowInvalid"
  | ArrowIndexError _ => "ArrowIndexError"
  end.

Inductive result (T : Type) : Type :=
| Ok (v : T)
| Err (e : exn).
Arguments Ok {T} v.
Arguments Err {T} e.

#[global] Instance result_ret : MRet result := fun _ v => Ok v.
#[global] Instance result_bind : MBind result := fun _ _ f m =>
  match m with
  | Ok v => f v
  | Err e => Err e
  end.

#[global] Instance result_fmap : FMap result := fun _ _ f m =>
  match m with
  | Ok v => Ok (f v)
  | Err e => Err e
  end.

(** The call raised an exception of the class called [cls]. *)
Definition raises {T} (r : result T) (cls : string) : Prop :=
  ∃ e, r = Err e ∧ class_name e = cls.

(** A [for] loop whose body may raise: the state is threaded left to right
    and the first exception ends the loop. *)
Fixpoint for_each {S X : Type} (body : S → X → result S) (xs : list X) (s : S)
  : result S :=
  match xs with
  | [] => Ok s
  | x :: xs' => s' ← body s x; for_each body xs' s'
  end.

(** ** Python built-ins used by the package *)

(** [str(n)] for an [int]. *)
Definition str_int (n : Z) : string := NilZero.string_of_int (Z.to_int n).

(** [", ".join(parts)] *)
Fixpoint join_comma (parts : list string) : string :=
  match parts with
  | [] => ""
  | [p] => p
  | p :: ps => p +:+ ", " +:+ join_comma ps
  end.

(** Tuples and lists of integers, and bare integers: the Python values a
    shape can be. *)
Inductive pyobj : Type :=
| PyInt (n : Z)
| PyTuple (items : list Z)
| PyList (items : list Z).

(** [repr(x)] for a NumPy integer scalar [x] of the dtype called [dtype],
    as NumPy 2 prints it: [np.int32(2)]. *)
Definition np_repr (dtype : string) (n : Z) : string :=
  "np." +:+ dtype +:+ "(" +:+ str_int n +:+ ")".

(** [str(t)] for a tuple [t] of NumPy integer scalars: a tuple prints the
    [repr] of its items. *)
Definition np_tuple_str (dtype : string) (xs : list Z) : string :=
  match xs with
  | [x] => "(" +:+ np_repr dtype x +:+ ",)"
  | xs => "(" +:+ join_comma (map (np_repr dtype) xs) +:+ ")"
  end.

(** [str(v)]: a 1-tuple prints with its trailing comma. *)
Definition py_str (v : pyobj) : string :=
  match v with
  | PyInt n => str_int n
  | PyTuple [x] => "(" +:+ str_int x +:+ ",)"
  | PyTuple xs => "(" +:+ join_comma (map str_int xs) +:+ ")"
  | PyList xs => "[" +:+ join_comma (map str_int xs) +:+ "]"
  end.

(** [len(v)] *)
Definition py_len (v : pyobj) : result nat :=
  match v with
  | PyInt _ => Err (TypeError "object of type 'int' has no len()")
  | PyTuple xs | PyList xs => Ok (length xs)
  end.

(** The items of a sequence, for slicing [v[n:]] and indexing [v[k]]. *)
Definition py_items (v : pyobj) : list Z :=
  match v with
  | PyInt _ => []
  | PyTuple xs | PyList xs => xs
  end.

(** [xs[k]] on a Python sequence, for [k >= 0]. *)
Definition py_getitem {X} (xs : list X) (k : nat) : result X :=
  match xs !! k with
  | Some x => Ok x
  | None => Err (IndexError "index out of range")
  end.

(** ** numpy on flat integer arrays *)

(** [np.prod(xs)] on int64 sizes whose product is in the int64 range; the
    empty product is 1 (numpy returns it as the float [1.0]). *)
Definition np_prod (xs : list Z) : Z := foldr Z.mul 1 xs.

(** [a * k] for an int64 array [a] and an int64 scalar [k], exact when
    the products are in the int64 range. *)
Definition np_scale (a : list Z) (k : Z) : list Z := map (fun x => x * k) a.

(** [a += b] on 1-d arrays.  numpy broadcasts [b] to the shape of the
    output operand [a]: that succeeds when the lengths agree or when [b]
    has length 1, and raises [ValueError] otherwise ([a] is never
    stretched, being the output). *)
Definition np_iadd (a b : list Z) : result (list Z) :=
  if decide (length b = length a) then Ok (zip_with Z.add a b)
  else match b with
       | [y] => Ok (map (fun x => x + y) a)
       | _ => Err (ValueError "operands could not be broadcast together")
       end.

(** ** pandas row labels *)

Record MultiIndex : Type := mkMultiIndex {
  mi_names : list (option string);
  mi_levels : list (list Z)
}.

Fixpoint same_lengths (arrays : list (list Z)) : bool :=
  match arrays with
  | a :: ((b :: _) as rest) => bool_decide (length a = length b) && same_lengths rest
  | _ => true
  end.

(** [pd.MultiIndex.from_arrays(arrays, names=names)]: the arrays must be
    of one length and there must be at least one; given names must be as
    many as the arrays. *)
Definition MultiIndex_from_arrays (arrays : list (list Z))
    (names : option (list string)) : result MultiIndex :=
  if negb (same_lengths arrays) then
    Err (ValueError "all arrays must be same length")
  else if decide (arrays = []) then
    Err (ValueError "Must pass non-zero number of levels/codes")
  else match names with
       | None => Ok (mkMultiIndex (map (fun _ => None) arrays) arrays)
       | Some ns =>
           if decide (length ns = length arrays)
           then Ok (mkMultiIndex (map Some ns) arrays)
           else Err (ValueError
                  "Length of names must match number of levels in MultiIndex.")
       end.

(** ** common.py: the read-access base class *)

(** The fields set by [AbstractArrowMatrix.__init__]. *)
Record AbstractArrowMatrix : Type := mkAbstract {
  filename : string;
  _omx_version : option string;
  _shape : option pyobj
}.

(** [AbstractArrowMatrix.__init__]: an [int] shape becomes a 1-tuple. *)
Definition AbstractArrowMatrix_init (fname : string)
    (omx_version : option string) (shape : option pyobj) : AbstractArrowMatrix :=
  let shape := match shape with
               | Some (PyInt n) => Some (PyTuple [n])
               | other => other
               end in
  mkAbstract fname omx_version shape.

(** The [shape] property. *)
Definition shape (self : AbstractArrowMatrix) : result pyobj :=
  match _shape self with
  | None => Err (MissingShapeError "")
  | Some s => Ok s
  end.

(** The [ndims] property. *)
Definition ndims (self : AbstractArrowMatrix) : result nat :=
  s ← shape self; py_len s.

(** The [omx_version] property. *)
Definition omx_version (self : AbstractArrowMatrix) : option string :=
  _omx_version self.

(** One per-dimension index argument of [get_rc]: an [int], an array-like
    of integers, or an array-like carrying a [name] attribute (a pandas
    Series or Index). *)
Inductive index_arg : Type :=
| Scalar (i : Z)
| Sequence (values : list Z)
| Named (name : string) (values : list Z).

(** [np.asarray(index).reshape(-1)], an int64 array for an [int] and for
    a non-empty array-like of integers of the int64 range. *)
Definition asarray_flat (index : index_arg) : list Z :=
  match index with
  | Scalar i => [i]
  | Sequence values | Named _ values => values
  end.

(** [getattr(index, 'name', letter)] *)
Definition name_or (index : index_arg) (letter : string) : string :=
  match index with
  | Named name _ => name
  | _ => letter
  end.

Definition letters : list string :=
  ["i"; "j"; "k"; "l"; "m"; "n"; "o"; "p"; "q";
   "r"; "s"; "t"; "u"; "v"; "w"; "x"; "y"; "z"].

(** The [attach_index] argument: a [bool], or a tuple of level names. *)
Inductive attach_arg : Type :=
| AttachBool (b : bool)
| AttachNames (names : list string).

Definition truthy (a : attach_arg) : bool :=
  match a with
  | AttachBool b => b
  | AttachNames names => negb (bool_decide (names = []))
  end.

(** [_get_rc_preprocess] *)
Definition _get_rc_preprocess (indexes : list index_arg) (attach_index : attach_arg)
  : result (list (list Z) * option MultiIndex) :=
  let index_names := zip_with name_or indexes letters in
  let indexes := map asarray_flat indexes in
  if truthy attach_index then
    idx ← MultiIndex_from_arrays indexes (Some index_names);
    Ok (indexes, Some idx)
  else Ok (indexes, None).

(** The body of the [for index in indexes[1:]] loop of [_takers]; the loop
    state is the counter [n] and the accumulator [takers]. *)
Definition _takers_step (shp : list Z) (nd : nat) (st : nat * list Z)
    (index : list Z) : result (nat * list Z) :=
  let '(n, takers) := st in
  let n := S n in
  if decide (nd ≤ n)%nat then
    takers ← np_iadd takers index; Ok (n, takers)
  else
    takers ← np_iadd takers (np_scale index (np_prod (drop n shp)));
    Ok (n, takers).

(** [_takers] *)
Definition _takers (self : AbstractArrowMatrix) (indexes : list index_arg)
    (attach_index : attach_arg) : result (list Z * option MultiIndex) :=
  nd ← ndims self;
  if negb (bool_decide (length indexes = nd)) then
    Err (ValueError ("number of indexes (" +:+ str_int (Z.of_nat (length indexes))
                     +:+ ") does not match ndims (" +:+ str_int (Z.of_nat nd) +:+ ")"))
  else
    '(indexes, idx) ← _get_rc_preprocess indexes attach_index;
    shp ← py_items <$> shape self;
    let n := 1%nat in
    first ← py_getitem indexes 0;
    let takers := np_scale first (np_prod (drop n shp)) in
    '(_, takers) ← for_each (_takers_step shp nd) (drop 1 indexes) (n, takers);
    Ok (takers, idx).

(** ** [ast.literal_eval] on shapes

    The fragment of the literal parser that shapes need: a canonical
    decimal integer, or a flat tuple or list of such integers, with blanks
    allowed around the items.  [None] stands for every other input, whether
    Python rejects it or reads a literal outside this fragment. *)

Definition is_blank (c : ascii) : bool :=
  (c =? " ")%char || (c =? "009")%char.

Fixpoint lstrip (s : string) : string :=
  match s with
  | String c s' => if is_blank c then lstrip s' else s
  | EmptyString => EmptyString
  end.

Fixpoint rstrip (s : string) : string :=
  match s with
  | EmptyString => EmptyString
  | String c s' =>
      match rstrip s' with
      | EmptyString => if is_blank c then EmptyString else String c EmptyString
      | r => String c r
      end
  end.

Definition strip (s : string) : string := lstrip (rstrip s).

(** [s.split(sep)] for a one-character separator. *)
Fixpoint split_on (sep : ascii) (s : string) : list string :=
  match s with
  | EmptyString => [EmptyString]
  | String c s' =>
      if (c =? sep)%char then EmptyString :: split_on sep s'
      else match split_on sep s' with
           | p :: ps => String c p :: ps
           | [] => [String c EmptyString]
           end
  end.

(** [s] without its last character, when that character is [c]. *)
Fixpoint drop_last (c : ascii) (s : string) : option string :=
  match s with
  | EmptyString => None
  | String a EmptyString => if (a =? c)%char then Some EmptyString else None
  | String a s' => String a <$> drop_last c s'
  end.

(** Digits that Python reads as one decimal integer: no leading zero
    before another digit. *)
Definition canonical_digits (s : string) : bool :=
  match s with
  | String "0" (String _ _) => false
  | _ => true
  end.

(** A decimal integer with an optional minus sign. *)
Definition int_literal (s : string) : option Z :=
  let digits := match s with
                | String "-" s' => s'
                | _ => s
                end in
  if canonical_digits digits
  then Z.of_int <$> NilZero.int_of_string s
  else None.

(** The items between the brackets, and whether a comma was seen. *)
Definition parse_items (inner : string) : option (list Z * bool) :=
  match split_on "," inner with
  | [p] =>
      match strip p with
      | EmptyString => Some ([], false)
      | p' => z ← int_literal p'; Some ([z], false)
      end
  | parts =>
      let parts :=
        match strip (List.last parts EmptyString) with
        | EmptyString => removelast parts
        | _ => parts
        end in
      zs ← mapM (fun p => int_literal (strip p)) parts; Some (zs, true)
  end.

Definition literal_eval (s : string) : option pyobj :=
  match strip s with
  | String "(" rest =>
      inner ← drop_last ")" rest;
      r ← parse_items inner;
      match r with
      | ([z], false) => Some (PyInt z)
      | (zs, _) => Some (PyTuple zs)
      end
  | String "[" rest =>
      inner ← drop_last "]" rest;
      r ← parse_items inner;
      Some (PyList r.1)
  | s' => PyInt <$> int_literal s'
  end.

(** ** numpy ranges and dense arrays *)

(** [np.arange(start, stop, step)] on integers: [ceil((stop-start)/step)]
    elements, none when that is negative. *)
Definition np_arange (start stop step : Z) : result (list Z) :=
  if decide (step = 0) then Err (ZeroDivisionError "division by zero")
  else
    let n := Z.max 0 (- ((- (stop - start)) / step)) in
    Ok (map (fun k => start + Z.of_nat k * step) (seq 0 (Z.to_nat n))).

Section Arrays.
Context {X : Type}.

(** A dense array: its shape and its elements in row-major order. *)
Record ndarray : Type := mkArray {
  nd_shape : list Z;
  nd_data : list X
}.

(** [a.reshape(-1)] *)
Definition ravel (a : ndarray) : list X := nd_data a.

(** [data.reshape(shp)] for a shape of sizes.  The sizes must multiply to
    the number of elements.  (A size of -1, which numpy would infer, is
    not modelled: it is reported like any other negative size.) *)
Definition reshape (data : list X) (shp : list Z) : result ndarray :=
  if bool_decide (Forall (fun d : Z => (0 ≤ d)%Z) shp) then
    if decide (np_prod shp = Z.of_nat (length data))
    then Ok (mkArray shp data)
    else Err (ValueError "cannot reshape array into shape")
  else Err (ValueError "negative dimensions not allowed").
End Arrays.
Arguments ndarray X : clear implicits.

(** ** The slice helpers of common.py *)

(** A Python [slice(start, stop, step)]. *)
Record pyslice : Type := mkSlice {
  sl_start : option Z;
  sl_stop : option Z;
  sl_step : option Z
}.

(** A dimension selector of [__getitem__]: an [int], a slice, or a 1-d
    array-like of positions. *)
Inductive dim_sel : Type :=
| DInt (i : Z)
| DSlice (s : pyslice)
| DArray (values : list Z).

(** [_cap] *)
Definition _cap (a b : option Z) : option Z :=
  match a, b with
  | None, _ => b
  | _, None => a
  | Some a, Some b => Some (Z.min a b)
  end.

(** [x or default] on an optional integer: [None] and [0] are falsy. *)
Definition or_default (x : option Z) (default : Z) : Z :=
  match x with
  | None => default
  | Some v => if decide (v = 0) then default else v
  end.

(** [_slice_to_range].  A selector that is not a slice goes through
    [np.asarray]; a bare [int] gives the one-element array.  (The arrays
    are int64 for fields of the int64 range and non-empty lists.) *)
Definition _slice_to_range (s : dim_sel) (size : Z) : result (list Z) :=
  match s with
  | DSlice s =>
      match _cap (sl_stop s) (Some size) with
      | Some stop => np_arange (or_default (sl_start s) 0) stop (or_default (sl_step s) 1)
      | None => np_arange 0 (or_default (sl_start s) 0) (or_default (sl_step s) 1)
      end
  | DArray values => Ok values
  | DInt i => Ok [i]
  end.

(** [_take_array]: the grid of flat offsets
    [range1.reshape(-1,1) * shape[1] + range2], flattened row-major, and
    the shape of the grid. *)
Definition _take_array (slice1 slice2 : dim_sel) (shp : pyobj)
  : result (list Z * list Z) :=
  shape0 ← py_getitem (py_items shp) 0;
  r1 ← _slice_to_range slice1 shape0;
  shape1 ← py_getitem (py_items shp) 1;
  r2 ← _slice_to_range slice2 shape1;
  let combined := map (fun a => map (fun b => a * shape1 + b) r2) r1 in
  Ok (concat combined, [Z.of_nat (length r1); Z.of_nat (length r2)]).

(** ** pyarrow tables and pandas frames *)

(** A [pyarrow.Table]: the schema metadata ([None] or a dict of byte
    strings), the number of rows, and the named columns in schema order. *)
Record Table (A : Type) : Type := mkTable {
  schema_metadata : option (gmap string string);
  num_rows : nat;
  columns : list (string * list A)
}.
Arguments mkTable {A} _ _ _.
Arguments schema_metadata {A} _.
Arguments num_rows {A} _.
Arguments columns {A} _.

(** The row labels of a pandas object. *)
Inductive Index : Type :=
| RangeIndex (n : nat)
| Int64Index (labels : list Z)
| MultiLabels (mi : MultiIndex).

Definition index_len (ix : Index) : nat :=
  match ix with
  | RangeIndex n => n
  | Int64Index labels => length labels
  | MultiLabels mi => default 0%nat (length <$> head (mi_levels mi))
  end.

Record DataFrame (A : Type) : Type := mkFrame {
  df_columns : list (string * list A);
  df_index : Index
}.
Arguments mkFrame {A} _ _.
Arguments df_columns {A} _.
Arguments df_index {A} _.

Record Series (A : Type) : Type := mkSeries {
  s_name : string;
  s_values : list A;
  s_index : Index
}.
Arguments mkSeries {A} _ _ _.
Arguments s_name {A} _.
Arguments s_values {A} _.
Arguments s_index {A} _.

(** What the gather engine hands back: a Series on the single-name fast
    path, a DataFrame otherwise. *)
Inductive pandas_obj (A : Type) : Type :=
| PSeries (s : Series A)
| PFrame (df : DataFrame A).
Arguments PSeries {A} s.
Arguments PFrame {A} df.

(** The [names] argument of the gather engine and of [__getitem__]: a
    [str], a collection of [str], or a slice.  (Names are [str]
    throughout; a [bytes] name, which the two backends resolve
    differently, is not a value of this type.) *)
Inductive names_arg : Type :=
| NameStr (s : string)
| NameList (names : list string)
| NameSlice (s : pyslice).

(** An OMX file opened by the [openmatrix] reader: its shape and the nodes
    under [/data].  [shape()] is a tuple of NumPy integer scalars, read
    from the [SHAPE] attribute of the file: [omx_shape] holds their
    values and [omx_shape_dtype] the name of their dtype ([int32] in the
    files that [openmatrix] writes). *)
Record omx_File (A : Type) : Type := mkOmx {
  omx_shape_dtype : string;
  omx_shape : list Z;
  omx_data : list (string * ndarray A)
}.
Arguments mkOmx {A} _ _ _.
Arguments omx_shape_dtype {A} _.
Arguments omx_shape {A} _.
Arguments omx_data {A} _.

(** The [omx_file] argument of the ingest functions. *)
Inductive omx_source (A : Type) : Type :=
| SrcPath (path : string)
| SrcFile (f : omx_File A)
| SrcDataFrame (df : DataFrame A).
Arguments SrcPath {A} path.
Arguments SrcFile {A} f.
Arguments SrcDataFrame {A} df.

(** What a path of the file system holds. *)
Inductive file (A : Type) : Type :=
| FeatherData (t : Table A) (chunksize : option Z)
| ParquetData (t : Table A)
| OmxData (f : omx_File A).
Arguments FeatherData {A} t chunksize.
Arguments ParquetData {A} t.
Arguments OmxData {A} f.

(** The [omx_file] argument of the 1-d ingest: an open file, given by its
    shape and its nodes under [/lookup], or a pre-loaded frame.  (A path
    is opened first and then used as the open file; the file system
    modelled here keeps no [/lookup] nodes, so the open file is what the
    function is given.) *)
Inductive lookup_source (A : Type) : Type :=
| LkFile (shape_2 : list Z) (lookup : list (string * ndarray A))
| LkDataFrame (df : DataFrame A).
Arguments LkFile {A} shape_2 lookup.
Arguments LkDataFrame {A} df.

(** [n == shape] for a Python [int] [n] (as [v.size] is): a sequence
    never equals an [int]. *)
Definition py_eq_int (shape : pyobj) (n : Z) : bool :=
  match shape with
  | PyInt m => bool_decide (m = n)
  | _ => false
  end.

(** The truth value of [shape == n] for a NumPy integer scalar [n] (as
    the items of [omx_file.shape()] are).  An [int] is compared by value;
    a sequence is compared item by item, and the array of answers has a
    truth value only when it has exactly one item. *)
Definition np_eq_truth (shape : pyobj) (n : Z) : result bool :=
  match shape with
  | PyInt m => Ok (bool_decide (m = n))
  | PyTuple [x] | PyList [x] => Ok (bool_decide (x = n))
  | PyTuple _ | PyList _ =>
      Err (ValueError "The truth value of an array is ambiguous")
  end.

(** The value of [__getitem__]. *)
Inductive block (A : Type) : Type :=
| Dense (a : ndarray A)
| Long (df : pandas_obj A).
Arguments Dense {A} a.
Arguments Long {A} df.

Definition OMX_VERSION : string := "0.3.0a".

(** Names in their order of first appearance. *)
Fixpoint dedup_first (seen rest : list string) : list string :=
  match rest with
  | [] => []
  | x :: rest' =>
      if bool_decide (x ∈ seen) then dedup_first seen rest'
      else x :: dedup_first (x :: seen) rest'
  end.

(** [d[k]] on schema metadata. *)
Definition dict_getitem (d : option (gmap string string)) (k : string)
  : result string :=
  match d with
  | None => Err (TypeError "'NoneType' object is not subscriptable")
  | Some m =>
      match m !! k with
      | Some v => Ok v
      | None => Err (KeyError k)
      end
  end.

(** [np.prod(shape)] where [shape] may be [None], an [int] or a sequence;
    [np.prod(None)] is [None]. *)
Definition np_prod_obj (shp : option pyobj) : option Z :=
  match shp with
  | None => None
  | Some (PyInt n) => Some n
  | Some (PyTuple xs) | Some (PyList xs) => Some (np_prod xs)
  end.

(** [np.broadcast_to(r.reshape(-1,1), shp).reshape(-1)] *)
Definition broadcast_col (r : list Z) (shp : list Z) : result (list Z) :=
  match shp with
  | [s0; s1] =>
      if decide (Z.of_nat (length r) = s0)
      then Ok (concat (map (fun a => repeat a (Z.to_nat s1)) r))
      else match r with
           | [a] => Ok (repeat a (Z.to_nat (s0 * s1)))
           | _ => Err (ValueError "operands could not be broadcast together")
           end
  | _ => Err (ValueError "operands could not be broadcast together")
  end.

(** [np.broadcast_to(r, shp).reshape(-1)] for a 1-d [r]. *)
Definition broadcast_row (r : list Z) (shp : list Z) : result (list Z) :=
  match shp with
  | [s0; s1] =>
      if decide (Z.of_nat (length r) = s1)
      then Ok (concat (repeat r (Z.to_nat s0)))
      else match r with
           | [a] => Ok (repeat a (Z.to_nat (s0 * s1)))
           | _ => Err (ValueError "operands could not be broadcast together")
           end
  | _ => Err (ValueError "operands could not be broadcast together")
  end.

Section Model.
Context {A : Type}.

(** The element [np.zeros] fills with. *)
Variable zero : A.

(** Conversion of a cell to the [dtype] of the array it is stored in. *)
Variable astype : string → A → A.

(** The JSON text that pyarrow records under the [pandas] key when a
    table is built from a frame. *)
Variable pandas_json : DataFrame A → string.

Abbreviation FS := (gmap string (file A)).

(** *** pyarrow *)

(** The one field called [name]; pyarrow raises [KeyError] when there is
    none or more than one. *)
Definition field (t : Table A) (name : string) : result (string * list A) :=
  match filter (fun c => c.1 = name) (columns t) with
  | [c] => Ok c
  | [] => Err (KeyError ("Field " +:+ name +:+ " does not exist in schema"))
  | _ => Err (KeyError ("Field " +:+ name +:+ " exists several times in schema"))
  end.

(** [Table.select(names)] *)
Definition Table_select (t : Table A) (names : list string) : result (Table A) :=
  cols ← mapM (field t) names;
  Ok (mkTable (schema_metadata t) (num_rows t) cols).

(** Gathering one column: every offset must lie in [0, len). *)
Definition take_column (col : list A) (takers : list Z) : result (list A) :=
  mapM (fun t : Z =>
          if decide (0 ≤ t)
          then match col !! Z.to_nat t with
               | Some v => Ok v
               | None => Err (ArrowIndexError "Index out of bounds")
               end
          else Err (ArrowIndexError "Index out of bounds")) takers.

(** [Table.take(takers)]: one row per offset; a table without columns
    comes back without rows. *)
Definition Table_take (t : Table A) (takers : list Z) : result (Table A) :=
  cols ← mapM (fun c => v ← take_column c.2 takers; Ok (c.1, v)) (columns t);
  let rows := match cols with
              | [] => 0%nat
              | _ => length takers
              end in
  Ok (mkTable (schema_metadata t) rows cols).

(** [Table.to_pandas()] *)
Definition Table_to_pandas (t : Table A) : DataFrame A :=
  mkFrame (columns t) (RangeIndex (num_rows t)).

(** [Table.column(k).to_pandas()] *)
Definition column_to_pandas (t : Table A) (k : nat) : result (Series A) :=
  c ← py_getitem (columns t) k;
  Ok (mkSeries c.1 c.2 (RangeIndex (length c.2))).

(** [ParquetFile.read(columns=names)]: the requested fields that exist,
    each once, in the order they were first asked for. *)
Definition ParquetFile_read (t : Table A) (names : option (list string)) : Table A :=
  match names with
  | None => t
  | Some names =>
      mkTable (schema_metadata t) (num_rows t)
        (concat (map (fun n => filter (fun c => c.1 = n) (columns t))
                     (dedup_first [] names)))
  end.

(** [pa.table(df)]: the columns of the frame, and the [pandas] metadata
    entry.  (The frame is taken with its default row labels, for which
    pyarrow adds no index column.) *)
Definition pa_table (df : DataFrame A) : Table A :=
  mkTable (Some {[ "pandas" := pandas_json df ]}) (index_len (df_index df))
    (df_columns df).

(** *** pandas *)

(** A position of [iloc]: negative positions count from the end. *)
Definition iloc_pos (n : nat) (p : Z) : result nat :=
  if decide (0 ≤ p < Z.of_nat n) then Ok (Z.to_nat p)
  else if decide (- Z.of_nat n ≤ p < 0) then Ok (Z.to_nat (p + Z.of_nat n))
  else Err (IndexError "positional indexers are out-of-bounds").

Definition iloc_column (n : nat) (col : list A) (ps : list Z) : result (list A) :=
  mapM (fun p => k ← iloc_pos n p; py_getitem col k) ps.

Definition iloc_labels (ix : Index) (ps : list Z) : result Index :=
  let n := index_len ix in
  match ix with
  | RangeIndex _ => ks ← mapM (iloc_pos n) ps; Ok (Int64Index (map Z.of_nat ks))
  | Int64Index labels =>
      ls ← mapM (fun p => k ← iloc_pos n p; py_getitem labels k) ps;
      Ok (Int64Index ls)
  | MultiLabels mi =>
      lv ← mapM (fun l => mapM (fun p => k ← iloc_pos n p; py_getitem l k) ps)
               (mi_levels mi);
      Ok (MultiLabels (mkMultiIndex (mi_names mi) lv))
  end.

(** [df.iloc[takers]] *)
Definition iloc_rows (df : DataFrame A) (ps : list Z) : result (DataFrame A) :=
  let n := index_len (df_index df) in
  ix ← iloc_labels (df_index df) ps;
  cols ← mapM (fun c => v ← iloc_column n c.2 ps; Ok (c.1, v)) (df_columns df);
  Ok (mkFrame cols ix).

(** [df.iloc[takers, k]] *)
Definition iloc_rows_col (df : DataFrame A) (ps : list Z) (k : nat)
  : result (Series A) :=
  c ← py_getitem (df_columns df) k;
  ix ← iloc_labels (df_index df) ps;
  v ← iloc_column (index_len (df_index df)) c.2 ps;
  Ok (mkSeries c.1 v ix).

(** [df.iloc[:, k]] *)
Definition iloc_col (df : DataFrame A) (k : nat) : result (Series A) :=
  c ← py_getitem (df_columns df) k;
  Ok (mkSeries c.1 c.2 (df_index df)).

(** [pd.DataFrame(d)] for a dict of equally long arrays. *)
Definition DataFrame_from_dict (d : list (string * list A)) : result (DataFrame A) :=
  let n := default 0%nat ((fun c => length c.2) <$> head d) in
  if forallb (fun c => bool_decide (length c.2 = n)) d
  then Ok (mkFrame d (RangeIndex n))
  else Err (ValueError "All arrays must be of the same length").

(** A 2-d numpy work array held by columns: [rr_rows] rows. *)
Record raw_array : Type := mkRaw {
  rr_rows : nat;
  rr_cols : list (list A)
}.

(** [np.zeros(shape=[rows, cols], dtype=dtype)] *)
Definition np_zeros (rows cols : nat) : raw_array :=
  mkRaw rows (repeat (repeat zero rows) cols).

(** [raw[:, n] = values]: the values are converted to the array's dtype;
    a column that does not exist is an [IndexError], values of another
    length than the rows (and not a single value) a [ValueError]. *)
Definition set_column (dtype : string) (raw : raw_array) (n : nat)
    (values : list A) : result raw_array :=
  if decide (n < length (rr_cols raw))%nat then
    if decide (length values = rr_rows raw)
    then Ok (mkRaw (rr_rows raw) (<[n := map (astype dtype) values]> (rr_cols raw)))
    else match values with
         | [v] => Ok (mkRaw (rr_rows raw)
                        (<[n := repeat (astype dtype v) (rr_rows raw)]> (rr_cols raw)))
         | _ => Err (ValueError "could not broadcast input array")
         end
  else Err (IndexError "index is out of bounds for axis 1").

(** [pd.DataFrame(raw, columns=names)] *)
Definition DataFrame_from_raw (raw : raw_array) (names : list string)
  : result (DataFrame A) :=
  if decide (length names = length (rr_cols raw))
  then Ok (mkFrame (zip names (rr_cols raw)) (RangeIndex (rr_rows raw)))
  else Err (ValueError "Shape of passed values does not match the columns").

(** [df.to_numpy()]: shape [(rows, columns)], row-major. *)
Definition DataFrame_to_numpy (df : DataFrame A) : ndarray A :=
  let n := index_len (df_index df) in
  mkArray [Z.of_nat n; Z.of_nat (length (df_columns df))]
    (concat (map (fun i => omap (fun c : string * list A => c.2 !! i) (df_columns df))
                 (seq 0 n))).

Definition to_numpy (r : pandas_obj A) : ndarray A :=
  match r with
  | PSeries s => mkArray [Z.of_nat (length (s_values s))] (s_values s)
  | PFrame df => DataFrame_to_numpy df
  end.

Definition obj_len (r : pandas_obj A) : nat :=
  match r with
  | PSeries s => index_len (s_index s)
  | PFrame df => index_len (df_index df)
  end.

(** [result.index = ix]: the new labels must be as many as the rows. *)
Definition set_index (r : pandas_obj A) (ix : Index) : result (pandas_obj A) :=
  if decide (index_len ix = obj_len r) then
    Ok match r with
       | PSeries s => PSeries (mkSeries (s_name s) (s_values s) ix)
       | PFrame df => PFrame (mkFrame (df_columns df) ix)
       end
  else Err (ValueError "Length mismatch").

(** [result.reset_index(inplace=True, drop=True)] *)
Definition reset_index (r : pandas_obj A) : pandas_obj A :=
  match r with
  | PSeries s => PSeries (mkSeries (s_name s) (s_values s) (RangeIndex (obj_len r)))
  | PFrame df => PFrame (mkFrame (df_columns df) (RangeIndex (obj_len r)))
  end.

(** *** common.py: ingest *)

(** [omx.open_file(path)] *)
Definition omx_open_file (fs : FS) (path : string) : result (omx_File A) :=
  match fs !! path with
  | Some (OmxData f) => Ok f
  | Some _ => Err (OSError "not an HDF5 file")
  | None => Err (OSError "file does not exist")
  end.

(** [omx_file.get_node("/data/" + k)] *)
Definition get_node (f : omx_File A) (k : string) : result (ndarray A) :=
  match filter (fun nd => nd.1 = k) (omx_data f) with
  | nd :: _ => Ok nd.2
  | [] => Err (KeyError k)
  end.

(** [d[k] = v] on a dict kept in insertion order. *)
Fixpoint dict_set (d : list (string * list A)) (k : string) (v : list A)
  : list (string * list A) :=
  match d with
  | [] => [(k, v)]
  | (k', v') :: d' =>
      if decide (k' = k) then (k, v) :: d' else (k', v') :: dict_set d' k v
  end.

(** [omx_hdf5_2_to_arrow].  The pair [(df, shape_text)] stands for the
    frame and for [str(shape)], which the function stores under [SHAPE]:
    the text of the [shape] argument for a pre-loaded frame, and the text
    of the tuple of NumPy scalars that [omx_file.shape()] returns for a
    file. *)
Definition omx_hdf5_2_to_arrow (fs : FS) (omx_file : omx_source A)
    (shape : option pyobj) : result (Table A) :=
  omx_file ← match omx_file with
             | SrcPath path => SrcFile <$> omx_open_file fs path
             | other => Ok other
             end;
  '(df, shape_text) ←
    match omx_file with
    | SrcDataFrame df =>
        match shape with
        | None => Err (MissingShapeError
                         "when using preloaded dataframe, must give shape")
        | Some shape => Ok (df, py_str shape)
        end
    | SrcFile f =>
        let shape_text := np_tuple_str (omx_shape_dtype f) (omx_shape f) in
        let matrix_names := map fst (omx_data f) in
        d ← for_each (fun d k => a ← get_node f k; Ok (dict_set d k (ravel a)))
              matrix_names [];
        df ← DataFrame_from_dict d;
        Ok (df, shape_text)
    | SrcPath _ => Err AssertionError
    end;
  let table := pa_table df in
  metadata ← match schema_metadata table with
             | Some m => Ok m
             | None => Err (TypeError
                 "'NoneType' object does not support item assignment")
             end;
  let metadata := <["OMX_VERSION" := OMX_VERSION]> metadata in
  let metadata := <["SHAPE" := shape_text]> metadata in
  Ok (mkTable (Some metadata) (num_rows table) (columns table)).

(** [omx_hdf5_1_to_arrow] *)
Definition omx_hdf5_1_to_arrow (omx_file : lookup_source A) (shape : option pyobj)
  : result (Table A) :=
  shape ← match shape with
          | Some (PyTuple [n]) => Ok (Some (PyInt n))
          | Some (PyTuple _) => Err (ValueError "must give one dimensional shape")
          | other => Ok other
          end;
  '(df, shape) ←
    match omx_file with
    | LkDataFrame df =>
        let rows := Z.of_nat (index_len (df_index df)) in
        match shape with
        | None => Ok (df, PyInt rows)
        | Some shape =>
            if decide (np_prod_obj (Some shape) = Some rows) then Ok (df, shape)
            else Err AssertionError
        end
    | LkFile shape_2 lookup =>
        s0 ← py_getitem shape_2 0;
        s1 ← py_getitem shape_2 1;
        shape ← (if decide (s0 = s1) then Ok (PyInt s0)
                 else match shape with
                      | None => Err (MissingShapeError
                                       "must give shape for non-square file")
                      | Some shape =>
                          first ← np_eq_truth shape s0;
                          holds ← (if first : bool then Ok true
                                   else np_eq_truth shape s1);
                          if holds : bool then Ok shape else Err AssertionError
                      end);
        let lookup_names := map fst lookup in
        df_content ←
          for_each (fun d k =>
                      match filter (fun nd => nd.1 = k) lookup with
                      | nd :: _ =>
                          let v := ravel nd.2 in
                          if py_eq_int shape (Z.of_nat (length v))
                          then Ok (dict_set d k v) else Ok d
                      | [] => Err (KeyError k)
                      end)
            lookup_names [];
        df ← DataFrame_from_dict df_content;
        Ok (df, shape)
    end;
  let table := pa_table df in
  metadata ← match schema_metadata table with
             | Some m => Ok m
             | None => Err (TypeError
                 "'NoneType' object does not support item assignment")
             end;
  let metadata := <["OMX_VERSION" := OMX_VERSION]> metadata in
  let metadata := <["SHAPE" := py_str shape]> metadata in
  Ok (mkTable (Some metadata) (num_rows table) (columns table)).

(** [check_write_file] *)
Definition check_write_file (fs : FS) (fname : string) (overwrite : bool)
  : result unit :=
  if bool_decide (is_Some (fs !! fname)) && negb overwrite
  then Err (FileExistsError fname)
  else Ok tt.

(** *** The storage contract: what a concrete backend provides *)

Class ArrowMatrix (M : Type) : Type := {
  (** the fields set through [super().__init__] *)
  base : M → AbstractArrowMatrix;
  _get_arrow_table : M → option (list string) → result (Table A);
  list_matrices : M → list string;
  (** the static method [_write_arrow_table(filename, table, shape)] *)
  _write_arrow_table : string → Table A → option pyobj → FS → FS;
  (** the constructor call [cls(filename)] *)
  open : FS → string → result M
}.

(** *** feather.py *)

Record FeatherMatrix : Type := mkFeather {
  fm_base : AbstractArrowMatrix;
  _column_defs : list string;
  _table : Table A
}.

(** [ipc.open_file(filename)] and [pf.read_table(filename)] *)
Definition read_feather (fs : FS) (fname : string) : result (Table A) :=
  match fs !! fname with
  | Some (FeatherData t _) => Ok t
  | Some _ => Err (ArrowInvalid "Not an Arrow file")
  | None => Err (FileNotFoundError fname)
  end.

(** [FeatherMatrix.__init__].  (A [SHAPE] text that [literal_eval] as
    modelled here does not read is reported as malformed.) *)
Definition FeatherMatrix_init (fs : FS) (fname : string) : result FeatherMatrix :=
  t ← read_feather fs fname;
  let column_defs := map fst (columns t) in
  omx_version ← dict_getitem (schema_metadata t) "OMX_VERSION";
  text ← dict_getitem (schema_metadata t) "SHAPE";
  shape ← match literal_eval text with
          | Some v => Ok v
          | None => Err (ValueError "malformed node or string")
          end;
  let b := AbstractArrowMatrix_init fname (Some omx_version) (Some shape) in
  table ← read_feather fs fname;
  Ok (mkFeather b column_defs table).

(** [FeatherMatrix._get_arrow_table] *)
Definition Feather_get_arrow_table (self : FeatherMatrix)
    (names : option (list string)) : result (Table A) :=
  match names with
  | None => Ok (_table self)
  | Some names => Table_select (_table self) names
  end.

(** [FeatherMatrix._write_arrow_table], with no [chunksize] keyword given. *)
Definition Feather_write_arrow_table (fname : string) (table : Table A)
    (shape : option pyobj) (fs : FS) : FS :=
  let chunksize := np_prod_obj shape in
  <[fname := FeatherData table chunksize]> fs.

#[export] Instance FeatherMatrix_ArrowMatrix : ArrowMatrix FeatherMatrix := {
  base := fm_base;
  _get_arrow_table := Feather_get_arrow_table;
  list_matrices := _column_defs;
  _write_arrow_table := Feather_write_arrow_table;
  open := FeatherMatrix_init
}.

(** *** parquet.py *)

Record ParquetMatrix : Type := mkParquet {
  pm_base : AbstractArrowMatrix;
  parquet_file : Table A;
  (** the warnings issued while the file was opened *)
  pm_warnings : list string
}.

(** [pq.ParquetFile(filename)] and [pq.read_schema(filename)] *)
Definition read_parquet (fs : FS) (fname : string) : result (Table A) :=
  match fs !! fname with
  | Some (ParquetData t) => Ok t
  | Some _ => Err (ArrowInvalid "Parquet magic bytes not found in footer")
  | None => Err (FileNotFoundError fname)
  end.

(** [ParquetMatrix.__init__] with [buffer=False].  The [omx_version] and
    [shape] arguments are accepted and then replaced by what the file
    says. *)
Definition ParquetMatrix_init (fs : FS) (fname : string)
    (omx_version : option string) (shape : option pyobj) : result ParquetMatrix :=
  pf ← read_parquet fs fname;
  text ← dict_getitem (schema_metadata pf) "SHAPE";
  shape ← match literal_eval text with
          | Some v => Ok v
          | None => Err (ValueError "malformed node or string")
          end;
  omx_version ← dict_getitem (schema_metadata pf) "OMX_VERSION";
  let rows := num_rows pf in
  let warnings :=
    if decide (np_prod_obj (Some shape) = Some (Z.of_nat rows)) then []
    else ["ParquetMatrix shape " +:+ py_str shape +:+ " not consistent with "
          +:+ str_int (Z.of_nat rows) +:+ " rows"] in
  let b := AbstractArrowMatrix_init fname (Some omx_version) (Some shape) in
  Ok (mkParquet b pf warnings).

(** [ParquetMatrix._get_arrow_table] *)
Definition Parquet_get_arrow_table (self : ParquetMatrix)
    (names : option (list string)) : result (Table A) :=
  Ok (ParquetFile_read (parquet_file self) names).

(** [ParquetMatrix._write_arrow_table] *)
Definition Parquet_write_arrow_table (fname : string) (table : Table A)
    (shape : option pyobj) (fs : FS) : FS :=
  <[fname := ParquetData table]> fs.

#[export] Instance ParquetMatrix_ArrowMatrix : ArrowMatrix ParquetMatrix := {
  base := pm_base;
  _get_arrow_table := Parquet_get_arrow_table;
  list_matrices := fun self => map fst (columns (parquet_file self));
  _write_arrow_table := Parquet_write_arrow_table;
  open := fun fs fname => ParquetMatrix_init fs fname None None
}.

(** *** common.py: the methods shared by the backends *)

Section Shared.
Context {M : Type} `{!ArrowMatrix M}.

(** [from_hdf5]: returns the new matrix object and the file system
    after the write. *)
Definition from_hdf5 (fs : FS) (omx_file : omx_source A) (to_filename : string)
    (overwrite : bool) (shape : option pyobj) : result (M * FS) :=
  _ ← check_write_file fs to_filename overwrite;
  table ← omx_hdf5_2_to_arrow fs omx_file shape;
  let fs := _write_arrow_table (M := M) to_filename table shape fs in
  m ← open fs to_filename;
  Ok (m, fs).

(** [get_matrix] *)
Definition get_matrix (self : M) (name : string) : result (ndarray A) :=
  t ← _get_arrow_table self (Some [name]);
  let a := DataFrame_to_numpy (Table_to_pandas t) in
  shp ← shape (base self);
  reshape (nd_data a) (py_items shp).

(** The names as pyarrow takes them for a projection, in the branch for
    names that are not a [str]: a collection of names.  A slice object
    is not one. *)
Definition names_list (names : names_arg) : result (list string) :=
  match names with
  | NameList names => Ok names
  | NameStr _ | NameSlice _ =>
      Err (TypeError "not a collection of column names")
  end.

(** The loop body of method 2 of [_get_rc_by_takers]. *)
Definition method2_step (self : M) (takers : list Z) (dtype : string)
    (raw : raw_array) (it : nat * string) : result raw_array :=
  t ← _get_arrow_table self (Some [it.2]);
  let table := Table_to_pandas t in
  col ← iloc_rows_col table takers 0;
  set_column dtype raw it.1 (s_values col).

(** The loop body of method 3 of [_get_rc_by_takers]. *)
Definition method3_step (self : M) (takers : list Z) (dtype : string)
    (raw : raw_array) (it : nat * string) : result raw_array :=
  t ← _get_arrow_table self (Some [it.2]);
  t ← Table_take t takers;
  let table := Table_to_pandas t in
  col ← iloc_col table 0;
  set_column dtype raw it.1 (s_values col).

(** [enumerate(names)] *)
Definition enumerate (names : list string) : list (nat * string) :=
  zip (seq 0 (length names)) names.

(** [_get_rc_by_takers] *)
Definition _get_rc_by_takers (self : M) (names : names_arg) (takers : list Z)
    (method : Z) (dtype : string) : result (pandas_obj A) :=
  match names with
  | NameStr name =>
      t ← _get_arrow_table self (Some [name]);
      t ← Table_take t takers;
      PSeries <$> column_to_pandas t 0
  | _ =>
      if decide (method = 1) then
        names ← names_list names;
        table ← _get_arrow_table self (Some names);
        PFrame <$> iloc_rows (Table_to_pandas table) takers
      else if decide (method = 2) then
        names ← names_list names;
        let raw_result := np_zeros (length takers) (length names) in
        raw_result ← for_each (method2_step self takers dtype)
                       (enumerate names) raw_result;
        PFrame <$> DataFrame_from_raw raw_result names
      else if decide (method = 3) then
        names ← names_list names;
        let raw_result := np_zeros (length takers) (length names) in
        raw_result ← for_each (method3_step self takers dtype)
                       (enumerate names) raw_result;
        PFrame <$> DataFrame_from_raw raw_result names
      else if decide (method = 4) then
        names ← names_list names;
        t ← _get_arrow_table self (Some names);
        t ← Table_take t takers;
        Ok (PFrame (Table_to_pandas t))
      else Err (ValueError ("undefined method " +:+ str_int method))
  end.

(** [get_rc] *)
Definition get_rc (self : M) (names : names_arg) (indexes : list index_arg)
    (method : Z) (attach_index : attach_arg) (dtype : string)
  : result (pandas_obj A) :=
  '(takers, idx) ← _takers (base self) indexes attach_index;
  r ← _get_rc_by_takers self names takers method dtype;
  match idx with
  | None => Ok (reset_index r)
  | Some idx => set_index r (MultiLabels idx)
  end.

(** [len(names)] in [__getitem__] *)
Definition names_len (names : names_arg) : result nat :=
  match names with
  | NameStr s => Ok (String.length s)
  | NameList names => Ok (length names)
  | NameSlice _ => Err (TypeError "object of type 'slice' has no len()")
  end.

(** An [int] selector becomes the slice of that one position. *)
Definition int_to_slice (s : dim_sel) : dim_sel :=
  match s with
  | DInt i => DSlice (mkSlice (Some i) (Some (i + 1)) None)
  | other => other
  end.

(** [__getitem__] on a tuple [item = (names, sel1, sel2, ...)], given
    here as [names] and the list of dimension selectors. *)
Definition __getitem__ (self : M) (names : names_arg) (sels : list dim_sel)
  : result (block A) :=
  shp ← shape (base self);
  dims ← py_len shp;
  let sels := (sels ++ repeat (DSlice (mkSlice None None None))
                              (dims + 1 - S (length sels))%nat)%list in
  let names := match names with
               | NameStr s => NameList [s]
               | other => other
               end in
  n ← names_len names;
  let add_multiindex := bool_decide (1 < n)%nat in
  let names := match names with
               | NameSlice s =>
                   match sl_start s with
                   | None => NameList (list_matrices self)
                   | Some _ => names
                   end
               | other => other
               end in
  slice1 ← int_to_slice <$> py_getitem sels 0;
  slice2 ← int_to_slice <$> py_getitem sels 1;
  '(takers, takers_shape) ← _take_array slice1 slice2 shp;
  r ← _get_rc_by_takers self names takers 4 "float64";
  if add_multiindex then
    shape0 ← py_getitem (py_items shp) 0;
    r1 ← _slice_to_range slice1 shape0;
    idx1 ← broadcast_col r1 takers_shape;
    shape1 ← py_getitem (py_items shp) 1;
    r2 ← _slice_to_range slice2 shape1;
    idx2 ← broadcast_row r2 takers_shape;
    mi ← MultiIndex_from_arrays [idx1; idx2] None;
    Long <$> set_index r (MultiLabels mi)
  else
    Dense <$> reshape (nd_data (to_numpy r)) takers_shape.

(** [from_dataframe].  (As in [pa_table], the index columns that pyarrow
    adds for row labels other than the default ones are not modelled.) *)
Definition from_dataframe (fs : FS) (dataframe : DataFrame A) (to_filename : string)
    (overwrite : bool) (shape : option pyobj) : result (M * FS) :=
  _ ← check_write_file fs to_filename overwrite;
  let shape :=
    match shape, df_index dataframe with
    | None, MultiLabels mi =>
        Some (PyList (map (fun l => Z.of_nat (length (remove_dups l))) (mi_levels mi)))
    | _, _ => shape
    end in
  table ← omx_hdf5_1_to_arrow (LkDataFrame dataframe) shape;
  let fs := _write_arrow_table (M := M) to_filename table shape fs in
  m ← open fs to_filename;
  Ok (m, fs).

(** [from_arrow], with no keyword arguments for the writer: [source] may
    be of either backend. *)
Definition from_arrow {S : Type} `{!ArrowMatrix S} (fs : FS) (source : S)
    (to_filename : string) (names : option (list string)) (overwrite : bool)
  : result (M * FS) :=
  _ ← check_write_file fs to_filename overwrite;
  table ← _get_arrow_table source names;
  shp ← shape (base source);
  let fs := _write_arrow_table (M := M) to_filename table (Some shp) fs in
  m ← open fs to_filename;
  Ok (m, fs).

(** [get_raw] *)
Definition get_raw (self : M) (names : option (list string)) : result (DataFrame A) :=
  Table_to_pandas <$> _get_arrow_table self names.

(** [get_rc_table] *)
Definition get_rc_table (self : M) (names : names_arg) (indexes : list index_arg)
  : result (Table A) :=
  '(takers, _) ← _takers (base self) indexes (AttachBool false);
  match names with
  | NameStr name =>
      t ← _get_arrow_table self (Some [name]); Table_take t takers
  | _ =>
      names ← names_list names;
      t ← _get_arrow_table self (Some names); Table_take t takers
  end.
End Shared.
End Model.

(** * Notions used in the statements *)

(** ** The row-major offset of the specification *)

(** [i0*(d1*...*d(N-1)) + i1*(d2*...*d(N-1)) + ... + i(N-1)]: every index
    is weighted by the product of the sizes that follow its dimension. *)
Fixpoint row_major_offset (shp coord : list Z) : Z :=
  match shp, coord with
  | _ :: shp', i :: coord' => i * np_prod shp' + row_major_offset shp' coord'
  | _, _ => 0
  end.

(** The [k]-th coordinate tuple of a call: the [k]-th entry of every
    flattened index argument. *)
Definition coordinate (indexes : list index_arg) (k : nat) : list Z :=
  map (fun ix => nth k (asarray_flat ix) 0) indexes.



(** Every index lies within its dimension. *)
Definition in_range (shp coord : list Z) : Prop :=
  Forall2 (fun d i => 0 ≤ i < d) shp coord.

(** The integers that numpy holds in an int64 array.  numpy's arithmetic
    on them is modulo [2^64]; the statements below keep to inputs whose
    offsets and products stay in this range, where it is exact. *)
Definition int64 (z : Z) : Prop := - 2 ^ 63 ≤ z < 2 ^ 63.


(** A shape whose [np.prod] is the product of its sizes: the sizes and
    their product are in the int64 range. *)
Definition prod_exact (shp : pyobj) : Prop :=
  match shp with
  | PyInt _ => True
  | PyTuple xs | PyList xs => Forall int64 xs ∧ int64 (np_prod xs)
  end.

(** A shape whose [np.prod] is an int64 number, as the Feather writer
    needs it for its [chunksize]: the product is exact, and the shape is
    not an empty sequence (whose product is the float [1.0]). *)
Definition chunksize_exact (shp : pyobj) : Prop :=
  prod_exact shp ∧ shp ≠ PyTuple [] ∧ shp ≠ PyList [].

(** The shape stored in the object is the sequence of sizes [shp]. *)
Definition has_shape (self : AbstractArrowMatrix) (shp : list Z) : Prop :=
  _shape self = Some (PyTuple shp) ∨ _shape self = Some (PyList shp).

(** Every character of [s] passes the test [P]. *)
Fixpoint string_forall (P : ascii → bool) (s : string) : bool :=
  match s with
  | EmptyString => true
  | String c s' => P c && string_forall P s'
  end.

(** The characters of a printed integer. *)
Definition is_int_char (c : ascii) : bool :=
  match c with
  | "0" | "1" | "2" | "3" | "4" | "5" | "6" | "7" | "8" | "9" | "-" => true
  | _ => false
  end%char.


(** The cells of a column at the given offsets. *)
Definition cells {A} (col : list A) (offsets : list Z) : list A :=
  omap (fun o : Z => col !! Z.to_nat o) offsets.

(** The named columns [cols], each reduced to its cells at the offsets. *)
Definition gathered {A} (cols : list (string * list A)) (offsets : list Z)
  : list (string * list A) :=
  map (fun c => (c.1, cells c.2 offsets)) cols.


(** Every offset is a row number of a table of [rows] rows. *)
Definition valid_offsets (rows : nat) (offsets : list Z) : Prop :=
  Forall (fun o => 0 ≤ o < Z.of_nat rows) offsets.

(** Every column of the table has as many cells as the table has rows. *)
Definition table_wf {A} (t : Table A) : Prop :=
  Forall (fun c => length c.2 = num_rows t) (columns t).

(** Each of the [names] is the name of exactly one column of [t]; [cols]
    are these columns, in the order of the names. *)
Definition named_columns {A} (t : Table A) (names : list string)
    (cols : list (string * list A)) : Prop :=
  Forall2 (fun n c => filter (fun c' => c'.1 = n) (columns t) = [c]) names cols.

(** What the gather engine asks of a backend for the names [names]: the
    projection on all of them returns the columns [cols] in a table of
    [rows] rows, and the projection on each single name returns the
    matching column alone. *)
Definition projects {A M : Type} `{!@ArrowMatrix A M} (self : M) (rows : nat)
    (names : list string) (cols : list (string * list A)) : Prop :=
  (∃ md, _get_arrow_table self (Some names) = Ok (mkTable md rows cols)) ∧
  Forall2 (fun n c => c.1 = n ∧
             ∃ md, _get_arrow_table self (Some [n]) = Ok (mkTable md rows [c]))
          names cols.


(** The grid of flat offsets of two realized ranges on a matrix with
    [dim1] columns, [range0.reshape(-1,1) * dim1 + range1], row-major. *)
Definition grid_offsets (r1 r2 : list Z) (dim1 : Z) : list Z :=
  concat (map (fun a => map (fun b => a * dim1 + b) r2) r1).

(** The two levels of the row label of a long-format block: the broadcast
    grids of the two ranges, flattened row-major. *)
Definition grid_labels (r1 r2 : list Z) : MultiIndex :=
  mkMultiIndex [None; None]
    [concat (map (fun a => repeat a (length r2)) r1);
     concat (repeat r2 (length r1))].

(** The selector [sel] asks for exactly the names [names]: a collection of
    names, or a single name given as a [str]. *)
Definition selects (sel : names_arg) (names : list string) : Prop :=
  sel = NameList names ∨ ∃ n, names = [n] ∧ sel = NameStr n.

(** An OMX source as the format has it: distinct matrix names, and every
    matrix of the shape of the file, with as many elements as the sizes
    multiply to. *)
Definition omx_wf {A} (f : omx_File A) : Prop :=
  NoDup (map fst (omx_data f)) ∧
  Forall (fun d => 0 ≤ d) (omx_shape f) ∧
  Forall (fun nd => nd_shape nd.2 = omx_shape f ∧
                    Z.of_nat (length (nd_data nd.2)) = np_prod (omx_shape f))
         (omx_data f).

(** The columns that the ingest makes of the matrices of a source. *)
Definition flat_columns {A} (nodes : list (string * ndarray A))
  : list (string * list A) :=
  map (fun nd => (nd.1, ravel nd.2)) nodes.

(** The shape as [AbstractArrowMatrix.__init__] stores it. *)
Definition stored_shape (v : pyobj) : pyobj :=
  match v with
  | PyInt n => PyTuple [n]
  | other => other
  end.

(** An optional slice field that is absent or in the int64 range. *)
Definition int64_field (x : option Z) : Prop :=
  match x with
  | None => True
  | Some v => int64 v
  end.

(** A dimension selector whose positions numpy holds as int64: an [int]
    [i] with [i] and [i + 1] in the range, a slice with its fields in the
    range, or a non-empty list of integers of the range. *)
Definition int64_sel (s : dim_sel) : Prop :=
  match s with
  | DInt i => int64 i ∧ int64 (i + 1)
  | DSlice s => int64_field (sl_start s) ∧ int64_field (sl_stop s) ∧
                int64_field (sl_step s)
  | DArray values => values ≠ [] ∧ Forall int64 values
  end.

(** An optional slice field that is absent or not negative. *)
Definition nonneg (x : option Z) : Prop :=
  match x with
  | None => True
  | Some v => 0 ≤ v
  end.

(** The flat offsets of the coordinate pairs [(i, j)] of two index arrays
    on a matrix with [dim1] columns. *)
Definition pair_offsets (o d : list Z) (dim1 : Z) : list Z :=
  zip_with (fun i j => i * dim1 + j) o d.


(** The error of pyarrow's [take] for an offset that is not a row number. *)
Definition take_error : exn := ArrowIndexError "Index out of bounds".

(** Some offset is not a row number of a table of [rows] rows. *)
Definition some_offset_outside (rows : nat) (offsets : list Z) : Prop :=
  Exists (fun o => o < 0 ∨ Z.of_nat rows ≤ o) offsets.

(** The full-range slice [slice(None)]. *)
Definition full_slice : dim_sel := DSlice (mkSlice None None None).

(** A selector of [__getitem__] without negative parts: an [int] that is
    not negative, or a slice whose start and step are absent or not
    negative. *)
Definition nonneg_sel (s : dim_sel) : Prop :=
  match s with
  | DInt i => 0 ≤ i
  | DSlice s => nonneg (sl_start s) ∧ nonneg (sl_step s)
  | DArray _ => False
  end.

(** A 2 x 3 source with two matrices, its table, and the two backends
    opened on that table, for the worked examples. *)
Definition skims : omx_File Z :=
  mkOmx "int32" [2; 3]
    [("DIST", mkArray [2; 3] [10; 11; 12; 13; 14; 15]);
     ("TIME", mkArray [2; 3] [20; 21; 22; 23; 24; 25])].

Definition skims_table : Table Z :=
  mkTable (Some (<["SHAPE" := "(2, 3)"]> (<["OMX_VERSION" := OMX_VERSION]> ∅))) 6
    [("DIST", [10; 11; 12; 13; 14; 15]); ("TIME", [20; 21; 22; 23; 24; 25])].

Definition skims_feather : FeatherMatrix :=
  mkFeather (AbstractArrowMatrix_init "skims.fmx" (Some OMX_VERSION) (Some (PyTuple [2; 3])))
    ["DIST"; "TIME"] skims_table.


(** A file system holding the source, and the table its ingest gives when
    pyarrow's [pandas] entry is the text [{}]. *)
Definition skims_fs : gmap string (file Z) := {["skims.omx" := OmxData skims]}.

Definition skims_ingested : Table Z :=
  mkTable (Some (<["SHAPE" := "(np.int32(2), np.int32(3))"]>
                   (<["OMX_VERSION" := OMX_VERSION]> {["pandas" := "{}"]}))) 6
    [("DIST", [10; 11; 12; 13; 14; 15]); ("TIME", [20; 21; 22; 23; 24; 25])].

(** A table written without the [SHAPE] entry. *)
Definition shapeless_table : Table Z :=
  mkTable (Some {["OMX_VERSION" := OMX_VERSION]}) 4 [("DIST", [10; 11; 12; 13])].

(** A 5 x 5 matrix object, for the worked examples. *)
Definition m55 : AbstractArrowMatrix :=
  AbstractArrowMatrix_init "skims" (Some OMX_VERSION) (Some (PyTuple [5; 5])).





Definition zone_lookups : list (string * ndarray Z) :=
  [("ORIGIN", mkArray [2] [101; 102]); ("STOP", mkArray [3] [7; 8; 9])].

(** * Properties *)

Section MonadFacts.
Context {T U : Type}.

Lemma bind_Ok (v : T) (f : T → result U) : (Ok v ≫= f) = f v.
Proof. reflexivity. Qed.

Lemma bind_Err (e : exn) (f : T → result U) : (Err e ≫= f) = Err e.
Proof. reflexivity. Qed.

Lemma fmap_Ok (v : T) (f : T → U) : f <$> Ok v = Ok (f v).
Proof. reflexivity. Qed.

Lemma bind_Ok_inv (m : result T) (f : T → result U) (u : U) :
  m ≫= f = Ok u → ∃ v, m = Ok v ∧ f v = Ok u.
Proof. destruct m as [v|e]; [eauto | discriminate]. Qed.
End MonadFacts.

(** ** The coordinate mapper *)

Lemma has_shape_shape self shp :
  has_shape self shp → ∃ s, shape self = Ok s ∧ py_items s = shp ∧ py_len s = Ok (length shp).
Proof.
  unfold has_shape, shape. intros [-> | ->]; eexists; split_and!; reflexivity.
Qed.

Lemma has_shape_ndims self shp : has_shape self shp → ndims self = Ok (length shp).
Proof.
  intros (s & Hs & _ & Hl)%has_shape_shape. unfold ndims. by rewrite Hs.
Qed.

Lemma np_scale_1 a : np_scale a 1 = a.
Proof.
  unfold np_scale. induction a as [|x a IH]; simpl; [done|].
  rewrite IH. f_equal. lia.
Qed.

Lemma np_scale_length a k : length (np_scale a k) = length a.
Proof. unfold np_scale. by rewrite length_map. Qed.

Lemma np_scale_nth a k i : nth i (np_scale a k) 0 = nth i a 0 * k.
Proof.
  unfold np_scale. revert i. induction a as [|x a IH]; intros [|i]; simpl; auto.
Qed.

Lemma np_iadd_same a b :
  length b = length a → np_iadd a b = Ok (zip_with Z.add a b).
Proof. intros H. unfold np_iadd. by rewrite decide_True. Qed.

Lemma zip_with_add_nth a b i :
  length b = length a → nth i (zip_with Z.add a b) 0 = nth i a 0 + nth i b 0.
Proof.
  revert b i. induction a as [|x a IH]; intros [|y b] [|i] H; simpl in *;
    try discriminate; try lia.
  apply IH. lia.
Qed.

(** Both branches of the loop body add the index weighted by the product
    of the trailing sizes: at the last dimension that product is empty. *)
Lemma _takers_step_eq shp n acc a :
  (n < length shp)%nat →
  _takers_step shp (length shp) (n, acc) a =
    (acc' ← np_iadd acc (np_scale a (np_prod (drop (S n) shp))); Ok (S n, acc')).
Proof.
  intros Hn. unfold _takers_step. case_decide as Hlast; [|done].
  rewrite drop_ge by lia. simpl. by rewrite np_scale_1.
Qed.

Lemma row_major_offset_drop shp n d coord i :
  shp !! n = Some d →
  row_major_offset (drop n shp) (i :: coord) =
    i * np_prod (drop (S n) shp) + row_major_offset (drop (S n) shp) coord.
Proof.
  intros H. by rewrite (drop_S _ _ _ H).
Qed.

(** The loop of [_takers] over index arrays of one length [L]: it ends
    with the counter at [ndims] and has added, at every position, the
    offset of the remaining dimensions. *)
Lemma _takers_loop shp L rest : ∀ n acc,
  Forall (fun a : list Z => length a = L) rest →
  length acc = L →
  (n + length rest = length shp)%nat →
  ∃ out,
    for_each (_takers_step shp (length shp)) rest (n, acc) = Ok (length shp, out) ∧
    length out = L ∧
    ∀ k, nth k out 0 =
         nth k acc 0 + row_major_offset (drop n shp) (map (fun a => nth k a 0) rest).
Proof.
  induction rest as [|a rest IH]; intros n acc Hall Hacc Hlen;
    cbn [for_each length map] in *.
  - exists acc. rewrite Nat.add_0_r in Hlen. subst n. split_and!; [done..|].
    intros k. rewrite drop_all. simpl. lia.
  - apply Forall_cons in Hall as [Ha Hall].
    rewrite _takers_step_eq by lia.
    rewrite np_iadd_same by (rewrite np_scale_length; congruence).
    rewrite !bind_Ok.
    destruct (IH (S n) (zip_with Z.add acc (np_scale a (np_prod (drop (S n) shp)))))
      as (out & Hrun & Hout & Hnth); [done| |lia|].
    { rewrite length_zip_with, np_scale_length. lia. }
    exists out. split_and!; [done..|].
    intros k. rewrite Hnth.
    rewrite zip_with_add_nth by (rewrite np_scale_length; congruence).
    rewrite np_scale_nth.
    destruct (lookup_lt_is_Some_2 shp n) as [d Hd]; [lia|].
    rewrite (row_major_offset_drop _ _ _ _ _ Hd). lia.
Qed.

Lemma same_lengths_Forall L (arrays : list (list Z)) :
  Forall (fun a => length a = L) arrays → same_lengths arrays = true.
Proof.
  induction 1 as [|a arrays Ha Hall IH]; [done|].
  destruct arrays as [|b rest]; [done|].
  simpl. apply Forall_cons in Hall as [Hb _].
  rewrite bool_decide_true by congruence. exact IH.
Qed.

Lemma _get_rc_preprocess_ok L indexes attach :
  Forall (fun ix => length (asarray_flat ix) = L) indexes →
  indexes ≠ [] →
  (truthy attach = true → (length indexes ≤ length letters)%nat) →
  ∃ idx, _get_rc_preprocess indexes attach = Ok (map asarray_flat indexes, idx).
Proof.
  intros Hall Hne Hlet. unfold _get_rc_preprocess.
  destruct (truthy attach); [|eauto].
  unfold MultiIndex_from_arrays.
  rewrite (same_lengths_Forall L) by (by apply Forall_map).
  simpl. rewrite decide_False by (by destruct indexes).
  rewrite decide_True; [simpl; eauto|].
  rewrite length_zip_with, length_map. specialize (Hlet eq_refl). lia.
Qed.

(** The mapper on index arguments of one length: the offsets are those of
    the row-major formula, position by position. *)
Lemma _takers_spec self shp indexes attach L :
  has_shape self shp →
  shp ≠ [] →
  length indexes = length shp →
  Forall (fun ix => length (asarray_flat ix) = L) indexes →
  (truthy attach = true → (length shp ≤ length letters)%nat) →
  ∃ offsets idx,
    _takers self indexes attach = Ok (offsets, idx) ∧
    length offsets = L ∧
    ∀ k, nth k offsets 0 = row_major_offset shp (coordinate indexes k).
Proof.
  intros Hshape Hne Hlen Hall Hlet.
  destruct (has_shape_shape _ _ Hshape) as (s & Hs & Hitems & _).
  unfold _takers. rewrite (has_shape_ndims _ _ Hshape), bind_Ok.
  rewrite bool_decide_true by done. simpl negb. cbv iota.
  destruct (_get_rc_preprocess_ok L indexes attach) as [idx Hpre]; [done| |by rewrite Hlen|].
  { intros ->. by destruct shp. }
  rewrite Hpre, bind_Ok. rewrite Hs, fmap_Ok, bind_Ok, Hitems.
  destruct indexes as [|ix0 indexes]; [by destruct shp|].
  destruct shp as [|d0 shp']; [done|].
  apply Forall_cons in Hall as [H0 Hall].
  change (py_getitem (map asarray_flat (ix0 :: indexes)) 0) with (Ok (asarray_flat ix0)).
  rewrite bind_Ok.
  change (drop 1 (map asarray_flat (ix0 :: indexes))) with (map asarray_flat indexes).
  destruct (_takers_loop (d0 :: shp') L (map asarray_flat indexes) 1
              (np_scale (asarray_flat ix0) (np_prod (drop 1 (d0 :: shp')))))
    as (out & Hrun & Hout & Hnth).
  { by apply Forall_map. }
  { by rewrite np_scale_length. }
  { rewrite length_map. simpl in *. lia. }
  rewrite Hrun, bind_Ok. exists out, idx. split_and!; [done..|].
  intros k. rewrite Hnth, np_scale_nth. unfold coordinate. simpl.
  rewrite !drop_0. by rewrite map_map.
Qed.

Lemma row_major_offset_bound shp : ∀ coord,
  in_range shp coord → 0 ≤ row_major_offset shp coord < np_prod shp.
Proof.
  induction shp as [|d shp IH]; intros coord H.
  - inversion H; subst. simpl. lia.
  - inversion H as [|? i ? coord' Hi Hrest]; subst.
    specialize (IH _ Hrest). simpl. unfold np_prod in *. nia.
Qed.

(** C4 as the specification words it fails: on a 5 x 5 matrix, one index
    argument instead of two is refused with a [ValueError]; no exception
    of a class called [DimensionMismatchError] is raised. *)
Lemma takers_mismatch_not_DimensionMismatchError :
  _takers m55 [Sequence [1; 2; 3]] (AttachBool false)
    = Err (ValueError "number of indexes (1) does not match ndims (2)") ∧
  ¬ raises (_takers m55 [Sequence [1; 2; 3]] (AttachBool false))
      "DimensionMismatchError".
Proof.
  split; [reflexivity|].
  intros (e & He & Hcls). vm_compute in He. inversion He; subst e. discriminate.
Qed.

(** C4, amended -- Dimension mismatch failure.  For a matrix whose shape is
    known, [_takers] called with a number of index arguments other than
    [ndims] always fails, with a [ValueError] whose message gives both
    numbers. *)
Theorem takers_dimension_mismatch self shp indexes attach :
  has_shape self shp →
  length indexes ≠ length shp →
  _takers self indexes attach =
    Err (ValueError ("number of indexes (" +:+ str_int (Z.of_nat (length indexes))
                     +:+ ") does not match ndims ("
                     +:+ str_int (Z.of_nat (length shp)) +:+ ")")) ∧
  raises (_takers self indexes attach) "ValueError".
Proof.
  intros Hshape Hlen.
  assert (_takers self indexes attach =
    Err (ValueError ("number of indexes (" +:+ str_int (Z.of_nat (length indexes))
                     +:+ ") does not match ndims ("
                     +:+ str_int (Z.of_nat (length shp)) +:+ ")"))) as Hrun.
  { unfold _takers. rewrite (has_shape_ndims _ _ Hshape), bind_Ok.
    by rewrite bool_decide_false. }
  split; [done|]. eexists. split; [exact Hrun | reflexivity].
Qed.

Lemma takers_dimension_mismatch_witness :
  _takers m55 [Scalar 1; Scalar 2; Scalar 3] (AttachBool true) =
    Err (ValueError "number of indexes (3) does not match ndims (2)") ∧
  raises (_takers m55 [Scalar 1; Scalar 2; Scalar 3] (AttachBool true)) "ValueError".
Proof.
  apply (takers_dimension_mismatch m55 [5; 5] [Scalar 1; Scalar 2; Scalar 3]
           (AttachBool true)).
  - left. reflexivity.
  - simpl. lia.
Defined.

(** ** Index arguments of unequal lengths *)










(** ** Offsets of in-range coordinates *)





(** ** Slice bounds *)

Lemma np_arange_bound start stop step :
  0 < step →
  ∃ r, np_arange start stop step = Ok r ∧
       Forall (fun x => start ≤ x < stop) r.
Proof.
  intros Hstep. unfold np_arange. rewrite decide_False by lia.
  eexists. split; [reflexivity|].
  apply Forall_forall. intros x Hx.
  apply list_elem_of_fmap in Hx as (k & -> & Hk).
  apply elem_of_seq in Hk. destruct Hk as [_ Hk]. simpl in Hk.
  assert (Z.of_nat k < - (- (stop - start) / step)) as Hlt by lia.
  pose proof (Z.div_mod (- (stop - start)) step ltac:(lia)) as Hdm.
  pose proof (Z.mod_pos_bound (- (stop - start)) step Hstep) as Hmod.
  split; nia.
Qed.

Lemma or_default_nonneg x d : nonneg x → 0 ≤ d → 0 ≤ or_default x d.
Proof.
  unfold or_default, nonneg. destruct x as [v|]; [|done].
  case_decide; lia.
Qed.

Lemma or_default_step_pos x : nonneg x → 0 < or_default x 1.
Proof.
  unfold or_default, nonneg. destruct x as [v|]; [|lia].
  case_decide; lia.
Qed.

(** C10 -- Slice bound normalization.  In [_slice_to_range], a stop that is
    absent or beyond the dimension size acts as the size itself, an absent
    start as 0, and an absent or zero step as 1; and for a start and a
    step that are not negative the range is produced and every position
    in it is at least 0 (indeed at least the start) and below the size. *)
Theorem slice_to_range_normalized start stop step size :
  nonneg start →
  nonneg step →
  (stop = None ∨ (∃ v, stop = Some v ∧ size ≤ v) →
     _slice_to_range (DSlice (mkSlice start stop step)) size =
     _slice_to_range (DSlice (mkSlice start (Some size) step)) size) ∧
  _slice_to_range (DSlice (mkSlice None stop step)) size =
    _slice_to_range (DSlice (mkSlice (Some 0) stop step)) size ∧
  _slice_to_range (DSlice (mkSlice start stop None)) size =
    _slice_to_range (DSlice (mkSlice start stop (Some 1))) size ∧
  _slice_to_range (DSlice (mkSlice start stop (Some 0))) size =
    _slice_to_range (DSlice (mkSlice start stop (Some 1))) size ∧
  ∃ r, _slice_to_range (DSlice (mkSlice start stop step)) size = Ok r ∧
       Forall (fun x => 0 ≤ x < size ∧ or_default start 0 ≤ x) r.
Proof.
  intros Hstart Hstep. split_and!.
  - intros [-> | (v & -> & Hv)]; unfold _slice_to_range;
      cbn [sl_start sl_stop sl_step _cap]; [|rewrite Z.min_r by lia];
      by rewrite Z.min_id.
  - reflexivity.
  - reflexivity.
  - reflexivity.
  - unfold _slice_to_range. cbn [sl_start sl_stop sl_step].
    assert (∃ e, _cap stop (Some size) = Some e ∧ e ≤ size) as (e & -> & He).
    { destruct stop as [v|]; simpl; eexists; split; try reflexivity; lia. }
    destruct (np_arange_bound (or_default start 0) e (or_default step 1))
      as (r & -> & Hr); [by apply or_default_step_pos|].
    exists r. split; [done|].
    pose proof (or_default_nonneg start 0 Hstart ltac:(lia)).
    eapply Forall_impl; [exact Hr|]. simpl. lia.
Qed.

Lemma slice_to_range_normalized_witness :
  _slice_to_range (DSlice (mkSlice (Some 1) (Some 100) (Some 2))) 6 = Ok [1; 3; 5] ∧
  ∃ r, _slice_to_range (DSlice (mkSlice (Some 1) (Some 100) (Some 2))) 6 = Ok r ∧
       Forall (fun x => 0 ≤ x < 6 ∧ or_default (Some 1) 0 ≤ x) r.
Proof.
  split; [reflexivity|].
  apply (slice_to_range_normalized (Some 1) (Some 100) (Some 2) 6); simpl; lia.
Defined.

(** ** Printing a shape and reading it back *)

Lemma str_app_nil (b : string) : EmptyString +:+ b = b.
Proof. reflexivity. Qed.

Lemma str_app_cons x (a b : string) : String x a +:+ b = String x (a +:+ b).
Proof. reflexivity. Qed.

Lemma str_app_assoc (a b c : string) : (a +:+ b) +:+ c = a +:+ (b +:+ c).
Proof.
  induction a as [|x a IH]; [done|]. by rewrite !str_app_cons, IH.
Qed.

Lemma string_forall_app P a b :
  string_forall P (a +:+ b) = string_forall P a && string_forall P b.
Proof.
  induction a as [|x a IH]; [done|].
  rewrite str_app_cons. cbn [string_forall]. by rewrite IH, andb_assoc.
Qed.

Lemma string_forall_impl (P Q : ascii → bool) s :
  (∀ c, P c = true → Q c = true) →
  string_forall P s = true → string_forall Q s = true.
Proof.
  intros HPQ. induction s as [|x s IH]; simpl; [done|].
  intros [Hx Hs]%andb_prop. by rewrite (HPQ _ Hx), IH.
Qed.

Lemma int_char_facts c :
  is_int_char c = true →
  is_blank c = false ∧ (c =? ",")%char = false ∧
  (c =? "(")%char = false ∧ (c =? "[")%char = false.
Proof.
  destruct c as [[|] [|] [|] [|] [|] [|] [|] [|]]; intros H;
    try discriminate H; by split_and!.
Qed.

Lemma uint_int_chars d : string_forall is_int_char (NilEmpty.string_of_uint d) = true.
Proof. induction d; simpl; auto. Qed.

Lemma str_int_chars n : string_forall is_int_char (str_int n) = true.
Proof.
  unfold str_int. destruct (Z.to_int n) as [d|d]; simpl.
  - destruct d; try reflexivity; apply (uint_int_chars (_ _)).
  - destruct d; try reflexivity; apply (uint_int_chars (_ _)).
Qed.

Lemma str_int_nonempty n : str_int n ≠ EmptyString.
Proof.
  unfold str_int. destruct (Z.to_int n) as [d|d]; simpl; [|done].
  by destruct d.
Qed.

(** *** Stripping *)

Lemma rstrip_nonblank s :
  string_forall (fun c => negb (is_blank c)) s = true → rstrip s = s.
Proof.
  induction s as [|x s IH]; simpl; [done|].
  intros [Hx Hs]%andb_prop. rewrite (IH Hs).
  destruct s; [|done]. apply negb_true_iff in Hx. by rewrite Hx.
Qed.

Lemma strip_nonblank s :
  string_forall (fun c => negb (is_blank c)) s = true → strip s = s.
Proof.
  intros H. unfold strip. rewrite (rstrip_nonblank _ H).
  destruct s as [|x s]; simpl in *; [done|].
  apply andb_prop in H as [Hx _]. apply negb_true_iff in Hx. by rewrite Hx.
Qed.

Lemma strip_space_nonblank s :
  s ≠ EmptyString →
  string_forall (fun c => negb (is_blank c)) s = true →
  strip (String " " s) = s.
Proof.
  intros Hne H. unfold strip.
  assert (rstrip (String " " s) = String " " s) as ->.
  { cbn [rstrip]. rewrite (rstrip_nonblank _ H). by destruct s. }
  destruct s as [|x s]; [done|].
  cbn [string_forall] in H. apply andb_prop in H as [Hx _].
  apply negb_true_iff in Hx.
  change (lstrip (String " " (String x s))) with (lstrip (String x s)).
  cbn [lstrip]. by rewrite Hx.
Qed.

Lemma int_chars_nonblank s :
  string_forall is_int_char s = true →
  string_forall (fun c => negb (is_blank c)) s = true.
Proof.
  apply string_forall_impl. intros c Hc.
  destruct (int_char_facts c Hc) as (-> & _). done.
Qed.

Lemma int_chars_nocomma s :
  string_forall is_int_char s = true →
  string_forall (fun c => negb (c =? ",")%char) s = true.
Proof.
  apply string_forall_impl. intros c Hc.
  destruct (int_char_facts c Hc) as (_ & -> & _). done.
Qed.

(** *** Splitting at commas *)

Lemma split_on_nosep sep s :
  string_forall (fun c => negb (c =? sep)%char) s = true → split_on sep s = [s].
Proof.
  induction s as [|x s IH]; simpl; [done|].
  intros [Hx Hs]%andb_prop. apply negb_true_iff in Hx. by rewrite Hx, (IH Hs).
Qed.

Lemma split_on_app sep a b :
  string_forall (fun c => negb (c =? sep)%char) a = true →
  split_on sep (a +:+ String sep b) = a :: split_on sep b.
Proof.
  induction a as [|x a IH]; rewrite ?str_app_nil, ?str_app_cons; cbn [split_on string_forall].
  - intros _. by rewrite Ascii.eqb_refl.
  - intros [Hx Ha]%andb_prop. apply negb_true_iff in Hx. by rewrite Hx, (IH Ha).
Qed.

Lemma split_on_join pre p ps :
  string_forall (fun c => negb (c =? ",")%char) pre = true →
  Forall (fun q => string_forall (fun c => negb (c =? ",")%char) q = true) (p :: ps) →
  split_on "," (pre +:+ join_comma (p :: ps)) = (pre +:+ p) :: map (String " ") ps.
Proof.
  revert pre p. induction ps as [|q ps IH]; intros pre p Hpre Hall.
  - apply Forall_cons in Hall as [Hp _]. cbn [join_comma map].
    apply split_on_nosep. by rewrite string_forall_app, Hpre, Hp.
  - apply Forall_cons in Hall as [Hp Hall].
    change (join_comma (p :: q :: ps))
      with (p +:+ String "," (String " " EmptyString +:+ join_comma (q :: ps))).
    rewrite <- str_app_assoc.
    rewrite split_on_app by (by rewrite string_forall_app, Hpre, Hp).
    by rewrite (IH (String " " EmptyString) q).
Qed.

Lemma drop_last_app c s : drop_last c (s +:+ String c EmptyString) = Some s.
Proof.
  induction s as [|x s IH]; rewrite ?str_app_nil, ?str_app_cons; cbn [drop_last].
  - by rewrite Ascii.eqb_refl.
  - rewrite IH. by destruct s.
Qed.

(** *** Reading a printed integer *)

Lemma to_uint_no_leading_zero p d : Pos.to_uint p ≠ D0 d.
Proof.
  intros H.
  assert (Pos.to_uint p = unorm (Pos.to_uint p)) as Hnorm.
  { rewrite <- DecimalPos.Unsigned.to_of, DecimalPos.Unsigned.of_to. reflexivity. }
  rewrite H, DecimalFacts.unorm_D0 in Hnorm. unfold unorm in Hnorm.
  destruct (nzhead d) eqn:Hd; try discriminate Hnorm.
  - injection Hnorm as ->. by apply (DecimalPos.Unsigned.to_uint_nonzero p).
  - symmetry in Hnorm. rewrite <- Hd in Hnorm.
    by apply DecimalFacts.nzhead_nonzero in Hnorm.
Qed.

Lemma canonical_digits_uint p :
  canonical_digits (NilZero.string_of_uint (Pos.to_uint p)) = true.
Proof.
  pose proof (to_uint_no_leading_zero p) as H0.
  destruct (Pos.to_uint p) as [|d|d|d|d|d|d|d|d|d|d]; try reflexivity.
  by destruct (H0 d).
Qed.

Lemma uint_first_char p :
  ∃ c rest, NilZero.string_of_uint (Pos.to_uint p) = String c rest ∧
            (c =? "-")%char = false.
Proof.
  pose proof (DecimalPos.Unsigned.to_uint_nonnil p) as Hnil.
  destruct (Pos.to_uint p) as [|d|d|d|d|d|d|d|d|d|d]; [done|..];
    eexists _, _; split; reflexivity.
Qed.

Lemma int_literal_str_int n : int_literal (str_int n) = Some n.
Proof.
  assert (NilZero.int_of_string (str_int n) = Some (Z.to_int n)) as Hparse.
  { unfold str_int. apply NilZero.isi.
    - destruct n as [|p|p]; simpl; try discriminate.
      intros [= H]. by apply (DecimalPos.Unsigned.to_uint_nonnil p).
    - destruct n as [|p|p]; simpl; try discriminate.
      intros [= H]. by apply (DecimalPos.Unsigned.to_uint_nonnil p). }
  unfold int_literal. rewrite Hparse. simpl. rewrite DecimalZ.of_to.
  assert (canonical_digits
            match str_int n with
            | String "-" s' => s'
            | _ => str_int n
            end = true) as ->; [|done].
  unfold str_int. destruct n as [|p|p].
  - reflexivity.
  - cbn [Z.to_int NilZero.string_of_int].
    pose proof (canonical_digits_uint p) as Hc.
    destruct (uint_first_char p) as (c & rest & Heq & Hminus).
    rewrite Heq in *.
    destruct c as [[|] [|] [|] [|] [|] [|] [|] [|]]; try exact Hc; discriminate Hminus.
  - cbn [Z.to_int NilZero.string_of_int]. apply canonical_digits_uint.
Qed.

Lemma int_literal_strip n : int_literal (strip (str_int n)) = Some n.
Proof.
  rewrite strip_nonblank by apply int_chars_nonblank, str_int_chars.
  apply int_literal_str_int.
Qed.

Lemma int_literal_strip_space n :
  int_literal (strip (String " " (str_int n))) = Some n.
Proof.
  rewrite strip_space_nonblank;
    [apply int_literal_str_int | apply str_int_nonempty
    | apply int_chars_nonblank, str_int_chars].
Qed.

(** The text between the brackets of a printed sequence of at least two
    integers reads back as that sequence. *)
Lemma parse_items_join x y xs :
  parse_items (join_comma (map str_int (x :: y :: xs))) = Some (x :: y :: xs, true).
Proof.
  unfold parse_items.
  pose proof (split_on_join EmptyString (str_int x) (map str_int (y :: xs)) eq_refl) as Hs.
  rewrite !str_app_nil in Hs. change (map str_int (x :: y :: xs))
    with (str_int x :: map str_int (y :: xs)).
  rewrite Hs; clear Hs.
  2: { apply Forall_forall. intros q Hq.
       change (q ∈ map str_int (x :: y :: xs)) in Hq.
       apply list_elem_of_fmap in Hq as (z & -> & _).
       apply int_chars_nocomma, str_int_chars. }
  cbn [map].
  set (tail := map (String " ") (map str_int xs)).
  assert (strip (List.last (str_int x :: String " " (str_int y) :: tail) EmptyString)
            ≠ EmptyString) as Hlast.
  { assert (∃ z, List.last (str_int x :: String " " (str_int y) :: tail) EmptyString
                  = String " " (str_int z)) as [z ->].
    { subst tail. generalize (str_int x) as h. clear x. revert y.
      induction xs as [|w xs IH]; intros y h.
      - by exists y.
      - destruct (IH w (String " " (str_int y))) as [z Hz]. exists z. exact Hz. }
    rewrite strip_space_nonblank;
      [apply str_int_nonempty | apply str_int_nonempty
      | apply int_chars_nonblank, str_int_chars]. }
  destruct (strip (List.last (str_int x :: String " " (str_int y) :: tail) EmptyString))
    as [|c0 s0] eqn:Hl; [done|].
  assert (mapM (fun p => int_literal (strip p))
            (str_int x :: String " " (str_int y) :: tail) = Some (x :: y :: xs)) as ->;
    [|done].
  apply mapM_Some_2. constructor; [apply int_literal_strip|].
  constructor; [apply int_literal_strip_space|].
  subst tail. clear. induction xs as [|w xs IH]; [constructor|].
  constructor; [apply int_literal_strip_space | exact IH].
Qed.

Lemma parse_items_one x : parse_items (str_int x) = Some ([x], false).
Proof.
  unfold parse_items.
  rewrite split_on_nosep by apply int_chars_nocomma, str_int_chars.
  rewrite strip_nonblank by apply int_chars_nonblank, str_int_chars.
  pose proof (str_int_nonempty x) as Hne.
  pose proof (int_literal_str_int x) as Hx.
  destruct (str_int x) as [|c s]; [done|]. by rewrite Hx.
Qed.

Lemma parse_items_trailing_comma x :
  parse_items (str_int x +:+ ",") = Some ([x], true).
Proof.
  unfold parse_items.
  rewrite split_on_app by apply int_chars_nocomma, str_int_chars.
  cbn [split_on List.last strip rstrip lstrip removelast].
  cbn [mapM]. rewrite int_literal_strip. reflexivity.
Qed.

Lemma parse_items_empty : parse_items EmptyString = Some ([], false).
Proof. reflexivity. Qed.

Lemma rstrip_app_last s c :
  is_blank c = false →
  rstrip (s +:+ String c EmptyString) = s +:+ String c EmptyString.
Proof.
  intros Hc. induction s as [|a s IH]; rewrite ?str_app_nil, ?str_app_cons; cbn [rstrip].
  - by rewrite Hc.
  - rewrite IH. by destruct s.
Qed.

Lemma strip_bracketed o c s :
  is_blank o = false → is_blank c = false →
  strip (String o (s +:+ String c EmptyString)) = String o (s +:+ String c EmptyString).
Proof.
  intros Ho Hc. unfold strip.
  rewrite <- str_app_cons, (rstrip_app_last _ _ Hc), str_app_cons.
  cbn [lstrip]. by rewrite Ho.
Qed.

(** The items printed between the brackets of a sequence. *)
Lemma printed_items xs :
  ∃ inner flag,
    py_str (PyTuple xs) = String "(" (inner +:+ ")") ∧
    (xs = [] ∨ (2 ≤ length xs)%nat →
       py_str (PyList xs) = String "[" (inner +:+ "]")) ∧
    parse_items inner = Some (xs, flag) ∧
    (length xs = 1%nat → flag = true).
Proof.
  destruct xs as [|x [|y xs]].
  - exists EmptyString, false. split_and!; try reflexivity. simpl. lia.
  - exists (str_int x +:+ ","), true.
    split_and!; [|intros [?|?]; [done | simpl in *; lia]| |done].
    + unfold py_str. by rewrite str_app_cons, str_app_nil, str_app_assoc.
    + by rewrite parse_items_trailing_comma.
  - exists (join_comma (map str_int (x :: y :: xs))), true. split_and!; [| | |done].
    + unfold py_str. by rewrite str_app_cons, str_app_nil.
    + intros _. unfold py_str. by rewrite str_app_cons, str_app_nil.
    + by rewrite parse_items_join.
Qed.

(** Reading back what [str] prints gives the value printed. *)
Lemma literal_eval_py_str v : literal_eval (py_str v) = Some v.
Proof.
  destruct v as [n | xs | xs].
  - unfold literal_eval, py_str.
    rewrite strip_nonblank by apply int_chars_nonblank, str_int_chars.
    pose proof (str_int_chars n) as Hc. pose proof (int_literal_str_int n) as Hn.
    destruct (str_int n) as [|c s]; [done|].
    cbn [string_forall] in Hc. apply andb_prop in Hc as [Hc _].
    destruct (int_char_facts c Hc) as (_ & _ & Hp & Hb).
    destruct c as [[|] [|] [|] [|] [|] [|] [|] [|]];
      try discriminate Hp; try discriminate Hb; by rewrite Hn.
  - destruct (printed_items xs) as (inner & flag & -> & _ & Hparse & Hflag).
    unfold literal_eval. rewrite strip_bracketed by reflexivity.
    cbv iota beta. rewrite drop_last_app. simpl. rewrite Hparse. simpl.
    destruct xs as [|x [|y xs]]; [done| |done].
    by rewrite Hflag.
  - destruct xs as [|x [|y xs]].
    + reflexivity.
    + unfold literal_eval, py_str. cbn [map join_comma].
      rewrite str_app_cons, str_app_nil.
      rewrite strip_bracketed by reflexivity.
      cbv iota beta. rewrite drop_last_app. simpl. by rewrite parse_items_one.
    + destruct (printed_items (x :: y :: xs)) as (inner & flag & _ & Hl & Hparse & _).
      rewrite Hl by (right; simpl; lia).
      unfold literal_eval. rewrite strip_bracketed by reflexivity.
      cbv iota beta. rewrite drop_last_app. simpl. by rewrite Hparse.
Qed.

(** *** The text of a tuple of NumPy scalars *)

Lemma np_tuple_str_inner dtype xs :
  xs ≠ [] →
  ∃ body, np_tuple_str dtype xs = String "(" (String "n" body +:+ ")").
Proof.
  intros Hne. destruct xs as [|x [|y xs]]; [done| |].
  - exists (("p." +:+ dtype +:+ "(" +:+ str_int x +:+ ")") +:+ ",").
    unfold np_tuple_str, np_repr.
    repeat (rewrite str_app_cons || rewrite str_app_nil).
    by rewrite !str_app_assoc.
  - exists ("p." +:+ dtype +:+ "(" +:+ str_int x +:+ ")" +:+ ", "
              +:+ join_comma (map (np_repr dtype) (y :: xs))).
    unfold np_tuple_str.
    change (join_comma (map (np_repr dtype) (x :: y :: xs)))
      with (np_repr dtype x +:+ ", " +:+ join_comma (map (np_repr dtype) (y :: xs))).
    generalize (join_comma (map (np_repr dtype) (y :: xs))). intros tail.
    unfold np_repr.
    by repeat (rewrite str_app_assoc || rewrite str_app_cons || rewrite str_app_nil).
Qed.

Lemma split_on_head sep c s :
  (c =? sep)%char = false → ∃ p ps, split_on sep (String c s) = String c p :: ps.
Proof.
  intros Hc. cbn [split_on]. rewrite Hc.
  destruct (split_on sep s) as [|p ps]; eauto.
Qed.

Lemma strip_head c s : is_blank c = false → ∃ q, strip (String c s) = String c q.
Proof.
  intros Hc. unfold strip. cbn [rstrip].
  destruct (rstrip s) as [|a r]; rewrite ?Hc; cbn [lstrip]; rewrite Hc; eauto.
Qed.

(** A text that begins with a letter is not an integer. *)
Lemma int_literal_letter q : int_literal (String "n" q) = None.
Proof.
  unfold int_literal. cbn [canonical_digits].
  unfold NilZero.int_of_string. cbn [Ascii.eqb Bool.eqb].
  unfold NilZero.uint_of_string. cbn [NilEmpty.uint_of_string].
  by destruct (NilEmpty.uint_of_string q).
Qed.

Lemma parse_items_letter body : parse_items (String "n" body) = None.
Proof.
  unfold parse_items.
  destruct (split_on_head "," "n" body eq_refl) as (p & ps & ->).
  destruct (strip_head "n" p eq_refl) as [q Hq].
  destruct ps as [|p1 ps].
  - by rewrite Hq, int_literal_letter.
  - assert (∀ l, mapM (fun p => int_literal (strip p)) (String "n" p :: l) = None)
      as Hfirst.
    { intros l. cbn [mapM]. by rewrite Hq, int_literal_letter. }
    destruct (strip (List.last (String "n" p :: p1 :: ps) EmptyString));
      cbn [removelast]; by rewrite Hfirst.
Qed.

(** The literal parser does not read the text of a non-empty tuple of
    NumPy scalars: its items are calls, not literals. *)
Lemma np_tuple_str_unparsable dtype xs :
  xs ≠ [] → literal_eval (np_tuple_str dtype xs) = None.
Proof.
  intros Hne. destruct (np_tuple_str_inner dtype xs Hne) as [body ->].
  unfold literal_eval. rewrite strip_bracketed by reflexivity.
  cbv iota beta. rewrite drop_last_app. cbn [mbind option_bind].
  by rewrite parse_items_letter.
Qed.

(** ** Ingest and the persisted metadata *)

Section Ingest.
Context {A : Type} (pandas_json : DataFrame A → string).
Implicit Types (fs : gmap string (file A)) (t table : Table A).

(** What a successful ingest returns: the columns of the frame under the
    metadata [pandas], [OMX_VERSION] and [SHAPE]. *)
Lemma omx_hdf5_2_to_arrow_inv fs src shape_arg table :
  omx_hdf5_2_to_arrow pandas_json fs src shape_arg = Ok table →
  ∃ df text,
    table = mkTable
              (Some (<["SHAPE" := text]>
                       (<["OMX_VERSION" := OMX_VERSION]>
                          {["pandas" := pandas_json df]})))
              (index_len (df_index df)) (df_columns df) ∧
    (∀ f, src = SrcFile f → text = np_tuple_str (omx_shape_dtype f) (omx_shape f)) ∧
    (∀ path, src = SrcPath path →
             ∃ f, fs !! path = Some (OmxData f) ∧
                  text = np_tuple_str (omx_shape_dtype f) (omx_shape f)) ∧
    (∀ df', src = SrcDataFrame df' →
            ∃ shp, shape_arg = Some shp ∧ text = py_str shp ∧ df' = df).
Proof.
  unfold omx_hdf5_2_to_arrow. intros H.
  apply bind_Ok_inv in H as (src' & Hsrc & H).
  apply bind_Ok_inv in H as ([df text] & Hdf & H).
  exists df, text. simpl in H. injection H as <-. split; [done|].
  assert (∀ f, src' = SrcFile f →
               text = np_tuple_str (omx_shape_dtype f) (omx_shape f)) as Hfile.
  { intros f ->.
    apply bind_Ok_inv in Hdf as (d & _ & Hdf).
    apply bind_Ok_inv in Hdf as (df' & _ & Hdf). by injection Hdf as _ <-. }
  split_and!.
  - intros f ->. injection Hsrc as <-. by apply Hfile.
  - intros path ->. unfold omx_open_file in Hsrc.
    destruct (fs !! path) as [[| |f]|] eqn:Hp; try discriminate Hsrc.
    injection Hsrc as <-. exists f. split; [done|]. by apply Hfile.
  - intros df' ->. injection Hsrc as <-.
    destruct shape_arg as [s0|]; [|discriminate Hdf]. injection Hdf as <- <-.
    by exists s0.
Qed.

Lemma dict_getitem_OMX_VERSION (md : gmap string string) v w :
  dict_getitem (Some (<["SHAPE" := w]> (<["OMX_VERSION" := v]> md))) "OMX_VERSION"
    = Ok v.
Proof.
  unfold dict_getitem.
  by rewrite lookup_insert_ne, lookup_insert_eq.
Qed.

Lemma dict_getitem_SHAPE (md : gmap string string) w :
  dict_getitem (Some (<["SHAPE" := w]> md)) "SHAPE" = Ok w.
Proof. unfold dict_getitem. by rewrite lookup_insert_eq. Qed.

Lemma AbstractArrowMatrix_init_shape fname v shp :
  _shape (AbstractArrowMatrix_init fname v (Some shp)) = Some (stored_shape shp) ∧
  omx_version (AbstractArrowMatrix_init fname v (Some shp)) = v.
Proof. by destruct shp. Qed.

(** Opening a Feather file just written with the two entries. *)
Lemma Feather_open_written fs fname (md : gmap string string) rows cols shape_arg shp v :
  let table := mkTable (Some (<["SHAPE" := py_str shp]>
                                (<["OMX_VERSION" := v]> md))) rows cols in
  FeatherMatrix_init (Feather_write_arrow_table fname table shape_arg fs) fname =
    Ok (mkFeather (AbstractArrowMatrix_init fname (Some v) (Some shp))
                  (map fst cols) table).
Proof.
  intros table. unfold FeatherMatrix_init, Feather_write_arrow_table, read_feather.
  rewrite lookup_insert_eq, !bind_Ok. subst table. cbn [schema_metadata columns].
  rewrite dict_getitem_OMX_VERSION, bind_Ok, dict_getitem_SHAPE, bind_Ok.
  by rewrite literal_eval_py_str.
Qed.

(** Opening a Parquet file just written with the two entries. *)
Lemma Parquet_open_written fs fname (md : gmap string string) rows cols shape_arg shp v a b :
  let table := mkTable (Some (<["SHAPE" := py_str shp]>
                                (<["OMX_VERSION" := v]> md))) rows cols in
  ∃ warnings,
    ParquetMatrix_init (Parquet_write_arrow_table fname table shape_arg fs) fname a b =
      Ok (mkParquet (AbstractArrowMatrix_init fname (Some v) (Some shp))
                    table warnings).
Proof.
  intros table. unfold ParquetMatrix_init, Parquet_write_arrow_table, read_parquet.
  rewrite lookup_insert_eq, !bind_Ok. subst table. cbn [schema_metadata columns].
  rewrite dict_getitem_SHAPE, bind_Ok, literal_eval_py_str, bind_Ok.
  rewrite dict_getitem_OMX_VERSION, bind_Ok. eauto.
Qed.

(** Opening a file whose [SHAPE] text the literal parser does not read. *)
Lemma Feather_open_unparsable fs fname (md : gmap string string) rows cols shape_arg
    text v :
  literal_eval text = None →
  let table := mkTable (Some (<["SHAPE" := text]> (<["OMX_VERSION" := v]> md)))
                       rows cols in
  FeatherMatrix_init (Feather_write_arrow_table fname table shape_arg fs) fname =
    Err (ValueError "malformed node or string").
Proof.
  intros Hparse table.
  unfold FeatherMatrix_init, Feather_write_arrow_table, read_feather.
  rewrite lookup_insert_eq, !bind_Ok. subst table. cbn [schema_metadata columns].
  rewrite dict_getitem_OMX_VERSION, bind_Ok, dict_getitem_SHAPE, bind_Ok.
  by rewrite Hparse.
Qed.

Lemma Parquet_open_unparsable fs fname (md : gmap string string) rows cols shape_arg
    text v a b :
  literal_eval text = None →
  let table := mkTable (Some (<["SHAPE" := text]> (<["OMX_VERSION" := v]> md)))
                       rows cols in
  ParquetMatrix_init (Parquet_write_arrow_table fname table shape_arg fs) fname a b =
    Err (ValueError "malformed node or string").
Proof.
  intros Hparse table.
  unfold ParquetMatrix_init, Parquet_write_arrow_table, read_parquet.
  rewrite lookup_insert_eq, !bind_Ok. subst table. cbn [schema_metadata columns].
  rewrite dict_getitem_SHAPE, bind_Ok. by rewrite Hparse.
Qed.

(** C6 -- the code where the claim fails.  Every table that the ingest
    [omx_hdf5_2_to_arrow] returns carries, next to the [pandas] entry
    that pyarrow attaches, exactly the two entries [OMX_VERSION], equal to
    ["0.3.0a"], and [SHAPE].  For a source file, [SHAPE] is the text of
    the tuple of NumPy scalars that [shape()] returns, such as
    [(np.int32(2), np.int32(3))]: unless the shape is empty, the literal
    parser does not read it, and both backends fail with a [ValueError]
    when they open the file written from the table.  Only for a
    pre-loaded frame, whose shape is the Python value given, is [SHAPE]
    read back as the shape, and do both backends open the file with this
    shape and this version (the Feather file being written with the
    product of the shape as its chunk size, an int64 number). *)
Theorem persisted_metadata_layout fs src shape_arg table fname :
  omx_hdf5_2_to_arrow pandas_json fs src shape_arg = Ok table →
  ∃ (md : gmap string string) text,
    schema_metadata table = Some md ∧
    dom md = ({["pandas"]} ∪ {["OMX_VERSION"]} ∪ {["SHAPE"]} : gset string) ∧
    md !! "OMX_VERSION" = Some "0.3.0a" ∧
    md !! "SHAPE" = Some text ∧
    (∀ f, src = SrcFile f ∨ (∃ path, src = SrcPath path ∧ fs !! path = Some (OmxData f)) →
       text = np_tuple_str (omx_shape_dtype f) (omx_shape f) ∧
       (omx_shape f ≠ [] →
        literal_eval text = None ∧
        (∀ fs',
           open (M := FeatherMatrix)
             (_write_arrow_table (M := FeatherMatrix) fname table shape_arg fs') fname
             = Err (ValueError "malformed node or string")) ∧
        (∀ fs',
           open (M := ParquetMatrix)
             (_write_arrow_table (M := ParquetMatrix) fname table shape_arg fs') fname
             = Err (ValueError "malformed node or string")))) ∧
    (∀ df, src = SrcDataFrame df →
       ∃ shp, shape_arg = Some shp ∧ text = py_str shp ∧
         literal_eval text = Some shp ∧
         (chunksize_exact shp → ∀ fs', ∃ m : FeatherMatrix,
            open (_write_arrow_table (M := FeatherMatrix) fname table shape_arg fs')
              fname = Ok m ∧
            shape (base m) = Ok (stored_shape shp) ∧
            omx_version (base m) = Some "0.3.0a") ∧
         (∀ fs', ∃ m : ParquetMatrix,
            open (_write_arrow_table (M := ParquetMatrix) fname table shape_arg fs')
              fname = Ok m ∧
            shape (base m) = Ok (stored_shape shp) ∧
            omx_version (base m) = Some "0.3.0a")).
Proof.
  intros Hingest.
  destruct (omx_hdf5_2_to_arrow_inv _ _ _ _ Hingest)
    as (df & text & -> & Hfile & Hpath & Hframe).
  eexists _, text. split; [reflexivity|]. split_and!.
  - rewrite !dom_insert_L, dom_singleton_L. set_solver.
  - by rewrite lookup_insert_ne, lookup_insert_eq.
  - by rewrite lookup_insert_eq.
  - intros f Hsrc.
    assert (text = np_tuple_str (omx_shape_dtype f) (omx_shape f)) as ->.
    { destruct Hsrc as [-> | (path & -> & Hp)]; [by apply Hfile|].
      destruct (Hpath path eq_refl) as (f' & Hp' & ->). congruence. }
    split; [done|]. intros Hne.
    pose proof (np_tuple_str_unparsable (omx_shape_dtype f) (omx_shape f) Hne) as Hno.
    split_and!; [done| |].
    + intros fs'. cbn [open _write_arrow_table FeatherMatrix_ArrowMatrix].
      by apply Feather_open_unparsable.
    + intros fs'. cbn [open _write_arrow_table ParquetMatrix_ArrowMatrix].
      by apply Parquet_open_unparsable.
  - intros df' Hsrc. destruct (Hframe df' Hsrc) as (shp & -> & -> & _).
    exists shp. split_and!; [done | done | apply literal_eval_py_str | |].
    + intros _ fs'. eexists. split; [apply Feather_open_written|].
      cbn [base FeatherMatrix_ArrowMatrix fm_base]. unfold shape.
      destruct (AbstractArrowMatrix_init_shape fname (Some OMX_VERSION) shp) as [-> ->].
      done.
    + intros fs'.
      destruct (Parquet_open_written fs' fname {["pandas" := pandas_json df]}
                  (index_len (df_index df)) (df_columns df) (Some shp) shp OMX_VERSION
                  None None) as [w Hw].
      eexists. split; [exact Hw|].
      cbn [base ParquetMatrix_ArrowMatrix pm_base]. unfold shape.
      destruct (AbstractArrowMatrix_init_shape fname (Some OMX_VERSION) shp) as [-> ->].
      done.
Qed.
End Ingest.

(** ** Opening a file without the [SHAPE] entry *)

(** C5 -- the code where the claim fails.  When the schema metadata of the
    stored table has no [SHAPE] entry, both constructors stop at the
    dictionary lookup with [KeyError] -- [ParquetMatrix] even when a shape
    is passed to it -- and so never with [MissingShapeError]. *)
Theorem open_without_shape_entry {A : Type} (fs : gmap string (file A)) fname
    (t : Table A) (md : gmap string string) :
  schema_metadata t = Some md →
  md !! "SHAPE" = None →
  (∀ chunksize, fs !! fname = Some (FeatherData t chunksize) →
     is_Some (md !! "OMX_VERSION") →
     FeatherMatrix_init fs fname = Err (KeyError "SHAPE") ∧
     ¬ raises (FeatherMatrix_init fs fname) "MissingShapeError") ∧
  (fs !! fname = Some (ParquetData t) →
     ∀ version shp,
       ParquetMatrix_init fs fname version shp = Err (KeyError "SHAPE") ∧
       ¬ raises (ParquetMatrix_init fs fname version shp) "MissingShapeError").
Proof.
  intros Hmd Hshape. split.
  - intros chunksize Hfile [v Hv].
    assert (FeatherMatrix_init fs fname = Err (KeyError "SHAPE")) as Hrun.
    { unfold FeatherMatrix_init, read_feather. rewrite Hfile, bind_Ok, Hmd.
      unfold dict_getitem. by rewrite Hv, bind_Ok, Hshape. }
    split; [done|]. rewrite Hrun. intros (e & [= <-] & Hcls). discriminate.
  - intros Hfile version shp.
    assert (ParquetMatrix_init fs fname version shp = Err (KeyError "SHAPE")) as Hrun.
    { unfold ParquetMatrix_init, read_parquet. rewrite Hfile, bind_Ok, Hmd.
      unfold dict_getitem. by rewrite Hshape. }
    split; [done|]. rewrite Hrun. intros (e & [= <-] & Hcls). discriminate.
Qed.

Lemma open_without_shape_entry_witness :
  FeatherMatrix_init {["m.fmx" := FeatherData shapeless_table None]} "m.fmx"
    = Err (KeyError "SHAPE") ∧
  ParquetMatrix_init {["m.fmx" := ParquetData shapeless_table]} "m.fmx"
    None (Some (PyTuple [2; 2])) = Err (KeyError "SHAPE").
Proof.
  split.
  - destruct (open_without_shape_entry {["m.fmx" := FeatherData shapeless_table None]}
                "m.fmx" shapeless_table {["OMX_VERSION" := OMX_VERSION]}
                eq_refl eq_refl) as [Hfeather _].
    apply (Hfeather None); [reflexivity | by eexists].
  - destruct (open_without_shape_entry {["m.fmx" := ParquetData shapeless_table]}
                "m.fmx" shapeless_table {["OMX_VERSION" := OMX_VERSION]}
                eq_refl eq_refl) as [_ Hparquet].
    apply Hparquet. reflexivity.
Defined.

(** ** The all-matrices selector *)

(** C8 -- the code where the claim fails.  With a slice as the names
    selector, [__getitem__] stops at [len(names)], which a slice does not
    have, before the branch that would put [list_matrices()] in its
    place: nothing is returned for any matrix. *)
Theorem getitem_names_slice_fails {A M : Type} `{!ArrowMatrix M} (zero : A)
    (astype : string → A → A) (self : M) shp (s : pyslice) (sels : list dim_sel) :
  has_shape (base self) shp →
  __getitem__ zero astype self (NameSlice s) sels
    = Err (TypeError "object of type 'slice' has no len()").
Proof.
  intros (sh & Hs & _ & Hl)%has_shape_shape.
  unfold __getitem__. by rewrite Hs, bind_Ok, Hl, bind_Ok.
Qed.

Lemma getitem_names_slice_fails_witness :
  __getitem__ 0 (fun _ x => x) skims_feather (NameSlice (mkSlice None None None))
    [DSlice (mkSlice (Some 0) (Some 2) None); DSlice (mkSlice (Some 0) (Some 2) None)]
    = Err (TypeError "object of type 'slice' has no len()").
Proof.
  apply (getitem_names_slice_fails 0 (fun _ x => x) skims_feather [2; 3]).
  left. reflexivity.
Defined.

Lemma persisted_metadata_layout_witness :
  omx_hdf5_2_to_arrow (fun _ => "{}") skims_fs (SrcPath "skims.omx") None
    = Ok skims_ingested ∧
  ∃ (md : gmap string string),
    schema_metadata skims_ingested = Some md ∧
    md !! "SHAPE" = Some "(np.int32(2), np.int32(3))" ∧
    literal_eval "(np.int32(2), np.int32(3))" = None ∧
    open (M := FeatherMatrix)
      (_write_arrow_table (M := FeatherMatrix) "skims.fmx" skims_ingested None ∅)
      "skims.fmx" = Err (ValueError "malformed node or string").
Proof.
  assert (omx_hdf5_2_to_arrow (fun _ => "{}") skims_fs (SrcPath "skims.omx") None
            = Ok skims_ingested) as Hingest by reflexivity.
  split; [exact Hingest|].
  destruct (persisted_metadata_layout (fun _ => "{}") skims_fs (SrcPath "skims.omx")
              None skims_ingested "skims.fmx" Hingest)
    as (md & text & Hmd & _ & _ & Hs & Hfile & _).
  destruct (Hfile skims) as [Htext Hbad].
  { right. exists "skims.omx". split; reflexivity. }
  destruct Hbad as (Hparse & Hfeather & _); [discriminate|].
  exists md. subst text. split_and!; [exact Hmd | exact Hs | exact Hparse |].
  apply Hfeather.
Defined.

(** ** The row-gather engine *)

Section ResultLists.
Context {X Y : Type}.

Lemma mapM_Ok (f : X → result Y) l k :
  Forall2 (fun x y => f x = Ok y) l k → mapM f l = Ok k.
Proof.
  induction 1 as [|x y l k Hxy _ IH]; [done|].
  cbn [mapM]. by rewrite Hxy, bind_Ok, IH.
Qed.
End ResultLists.

Section Cells.
Context {A : Type}.
Implicit Types (col : list A) (offsets : list Z).

Lemma cells_cons col o offsets v :
  col !! Z.to_nat o = Some v → cells col (o :: offsets) = v :: cells col offsets.
Proof. intros H. unfold cells. cbn [omap list_omap]. by rewrite H. Qed.

Lemma cells_Forall2 col offsets :
  valid_offsets (length col) offsets →
  Forall2 (fun o v => 0 ≤ o ∧ col !! Z.to_nat o = Some v) offsets (cells col offsets).
Proof.
  induction 1 as [|o offsets Ho _ IH]; [constructor|].
  destruct (lookup_lt_is_Some_2 col (Z.to_nat o)) as [v Hv]; [lia|].
  rewrite (cells_cons _ _ _ _ Hv). constructor; [split; [lia|done] | exact IH].
Qed.

Lemma cells_length col offsets :
  valid_offsets (length col) offsets → length (cells col offsets) = length offsets.
Proof. intros H. symmetry. eapply Forall2_length, cells_Forall2, H. Qed.

Lemma take_column_ok col offsets :
  valid_offsets (length col) offsets →
  take_column col offsets = Ok (cells col offsets).
Proof.
  intros H. apply mapM_Ok.
  eapply Forall2_impl; [apply cells_Forall2, H|].
  intros o v [Ho Hv]. simpl. by rewrite decide_True, Hv.
Qed.




Lemma Table_take_ok (t : Table A) offsets :
  table_wf t →
  columns t ≠ [] →
  valid_offsets (num_rows t) offsets →
  Table_take t offsets =
    Ok (mkTable (schema_metadata t) (length offsets) (gathered (columns t) offsets)).
Proof.
  intros Hwf Hne Hv. unfold Table_take.
  rewrite (mapM_Ok _ (columns t) (gathered (columns t) offsets)).
  { rewrite bind_Ok. by destruct (columns t). }
  unfold gathered. apply Forall2_fmap_r, Forall_Forall2_diag.
  eapply Forall_impl; [exact Hwf|]. intros c Hc. simpl.
  rewrite take_column_ok by (by rewrite Hc). done.
Qed.

End Cells.

Section Gather.
Context {A M : Type} `{!@ArrowMatrix A M} (zero : A) (astype : string → A → A).
Variables (self : M) (rows : nat) (offsets : list Z) (dtype : string).
Hypothesis Hvalid : valid_offsets rows offsets.

Lemma method4_ok names cols md :
  _get_arrow_table self (Some names) = Ok (mkTable md rows cols) →
  Forall (fun c => length c.2 = rows) cols →
  cols ≠ [] →
  _get_rc_by_takers zero astype self (NameList names) offsets 4 dtype =
    Ok (PFrame (mkFrame (gathered cols offsets) (RangeIndex (length offsets)))).
Proof.
  intros Hget Hwf Hne. unfold _get_rc_by_takers.
  rewrite !decide_False by lia. rewrite decide_True by done.
  cbn [names_list]. rewrite bind_Ok, Hget, bind_Ok.
  by rewrite Table_take_ok.
Qed.










End Gather.

Section Backends.
Context {A : Type} (zero : A) (astype : string → A → A).
Implicit Types (t : Table A) (names : list string) (cols : list (string * list A)).


Lemma named_columns_name t names cols :
  named_columns t names cols → Forall2 (fun n c => c.1 = n) names cols.
Proof.
  intros H. eapply Forall2_impl; [exact H|]. intros n c Hf. simpl in Hf.
  assert (c ∈ filter (fun c' => c'.1 = n) (columns t)) as Hin
    by (rewrite Hf; left).
  by apply list_elem_of_filter in Hin as [? _].
Qed.

Lemma named_columns_length t names cols :
  table_wf t → named_columns t names cols →
  Forall (fun c => length c.2 = num_rows t) cols.
Proof.
  intros Hwf H. unfold table_wf in Hwf. rewrite Forall_forall in Hwf.
  induction H as [|n c names cols Hf _ IH]; [constructor|].
  constructor; [|exact IH]. apply Hwf.
  assert (c ∈ filter (fun c' => c'.1 = n) (columns t)) as Hin
    by (rewrite Hf; left).
  by apply list_elem_of_filter in Hin as [_ ?].
Qed.

Lemma field_named t n c :
  filter (fun c' => c'.1 = n) (columns t) = [c] → field t n = Ok c.
Proof. intros H. unfold field. by rewrite H. Qed.

Lemma Feather_projects (self : FeatherMatrix) names cols :
  named_columns (_table self) names cols →
  projects self (num_rows (_table self)) names cols.
Proof.
  intros H. pose proof (named_columns_name _ _ _ H) as Hn. split.
  - exists (schema_metadata (_table self)).
    cbn [_get_arrow_table FeatherMatrix_ArrowMatrix Feather_get_arrow_table].
    unfold Table_select. rewrite (mapM_Ok _ names cols); [done|].
    eapply Forall2_impl; [exact H|]. intros n c. apply field_named.
  - clear Hn. induction H as [|n c names cols Hf H IH]; [constructor|].
    constructor; [|exact IH]. split.
    + assert (c ∈ filter (fun c' => c'.1 = n) (columns (_table self))) as Hin
        by (rewrite Hf; left).
      by apply list_elem_of_filter in Hin as [? _].
    + exists (schema_metadata (_table self)).
      cbn [_get_arrow_table FeatherMatrix_ArrowMatrix Feather_get_arrow_table].
      unfold Table_select. cbn [mapM]. by rewrite (field_named _ _ _ Hf).
Qed.

Lemma dedup_first_NoDup seen names :
  NoDup names → (∀ x, x ∈ names → x ∉ seen) → dedup_first seen names = names.
Proof.
  intros Hnd. revert seen. induction Hnd as [|x names Hx _ IH]; intros seen Hseen; [done|].
  cbn [dedup_first]. rewrite bool_decide_false by (apply Hseen; left).
  f_equal. apply IH. intros y Hy [->|Hin]%elem_of_cons; [done|].
  by apply (Hseen y); [right|].
Qed.

Lemma Parquet_projects (self : ParquetMatrix) names cols :
  NoDup names →
  named_columns (parquet_file self) names cols →
  projects self (num_rows (parquet_file self)) names cols.
Proof.
  intros Hnd H. split.
  - exists (schema_metadata (parquet_file self)).
    cbn [_get_arrow_table ParquetMatrix_ArrowMatrix Parquet_get_arrow_table].
    unfold Parquet_get_arrow_table, ParquetFile_read.
    rewrite dedup_first_NoDup; [|done|by inversion 2].
    do 2 f_equal. clear Hnd.
    induction H as [|n c names cols Hf _ IH]; [done|].
    cbn [map concat]. by rewrite Hf, IH.
  - clear Hnd. induction H as [|n c names cols Hf H IH]; [constructor|].
    constructor; [|exact IH]. split.
    + assert (c ∈ filter (fun c' => c'.1 = n) (columns (parquet_file self))) as Hin
        by (rewrite Hf; left).
      by apply list_elem_of_filter in Hin as [? _].
    + exists (schema_metadata (parquet_file self)).
      cbn [_get_arrow_table ParquetMatrix_ArrowMatrix Parquet_get_arrow_table].
      unfold Parquet_get_arrow_table, ParquetFile_read.
      cbn [dedup_first bool_decide map concat].
      rewrite bool_decide_false by (by inversion 1).
      cbn [map concat]. by rewrite Hf.
Qed.

End Backends.

(** ** The slice materializer *)

Section ConcatLengths.
Context {X : Type}.

Lemma concat_length_uniform (ls : list (list X)) k :
  Forall (fun l => length l = k) ls → length (concat ls) = (length ls * k)%nat.
Proof.
  induction 1 as [|l ls Hl _ IH]; [done|].
  cbn [concat length]. rewrite length_app, IH, Hl. lia.
Qed.

Lemma single_column_rows (name : string) (pre col : list X) :
  concat (map (fun i => omap (fun c : string * list X => c.2 !! i)
                             [(name, (pre ++ col)%list)])
              (seq (length pre) (length col))) = col.
Proof.
  revert pre. induction col as [|x col IH]; intros pre; [done|].
  cbn [length seq map concat omap list_omap snd].
  rewrite lookup_app_r by lia. rewrite Nat.sub_diag. cbn [lookup list_lookup app].
  f_equal. specialize (IH (pre ++ [x])%list).
  rewrite length_app, Nat.add_1_r, <- app_assoc in IH. exact IH.
Qed.
End ConcatLengths.

Lemma grid_offsets_length r1 r2 dim1 :
  length (grid_offsets r1 r2 dim1) = (length r1 * length r2)%nat.
Proof.
  unfold grid_offsets. rewrite (concat_length_uniform _ (length r2)).
  - by rewrite length_map.
  - apply Forall_map, Forall_forall. intros a _. simpl. by rewrite length_map.
Qed.

Lemma grid_labels_lengths (r1 r2 : list Z) :
  length (concat (map (fun a => repeat a (length r2)) r1)) = (length r1 * length r2)%nat ∧
  length (concat (repeat r2 (length r1))) = (length r1 * length r2)%nat.
Proof.
  split.
  - rewrite (concat_length_uniform _ (length r2)).
    + by rewrite length_map.
    + apply Forall_map, Forall_forall. intros a _. simpl. by rewrite repeat_length.
  - rewrite (concat_length_uniform _ (length r2)).
    + by rewrite repeat_length.
    + apply Forall_forall. intros l Hl.
      apply list_elem_of_In, repeat_spec in Hl. by subst l.
Qed.

Lemma _take_array_ok sel1 sel2 (s : pyobj) R C r1 r2 :
  py_items s = [R; C] →
  _slice_to_range sel1 R = Ok r1 →
  _slice_to_range sel2 C = Ok r2 →
  _take_array sel1 sel2 s =
    Ok (grid_offsets r1 r2 C, [Z.of_nat (length r1); Z.of_nat (length r2)]).
Proof.
  intros Hs H1 H2. unfold _take_array. rewrite Hs.
  change (py_getitem [R; C] 0) with (Ok R).
  change (py_getitem [R; C] 1) with (Ok C).
  by rewrite bind_Ok, H1, !bind_Ok, H2, bind_Ok.
Qed.

Section Materializer.
Context {A M : Type} `{!@ArrowMatrix A M} (zero : A) (astype : string → A → A).
Variables (self : M) (R C : Z) (sel1 sel2 : dim_sel) (r1 r2 : list Z).
Variables (names : list string) (cols : list (string * list A)) (rows : nat).
Hypothesis Hshape : has_shape (base self) [R; C].
Hypothesis Hr1 : _slice_to_range (int_to_slice sel1) R = Ok r1.
Hypothesis Hr2 : _slice_to_range (int_to_slice sel2) C = Ok r2.
Hypothesis Hget :
  ∃ md, _get_arrow_table self (Some names) = Ok (mkTable md rows cols).
Hypothesis Hlen : Forall (fun c => length c.2 = rows) cols.
Hypothesis Hvalid : valid_offsets rows (grid_offsets r1 r2 C).

(** [__getitem__] up to the choice of the output form. *)
Lemma getitem_gathers sel :
  selects sel names →
  cols ≠ [] →
  __getitem__ zero astype self sel [sel1; sel2] =
    let r := PFrame (mkFrame (gathered cols (grid_offsets r1 r2 C))
                             (RangeIndex (length (grid_offsets r1 r2 C)))) in
    if bool_decide (1 < length names)%nat
    then Long <$> set_index r (MultiLabels (grid_labels r1 r2))
    else Dense <$> reshape (nd_data (to_numpy r))
                     [Z.of_nat (length r1); Z.of_nat (length r2)].
Proof.
  intros Hsel Hcols. destruct Hget as [md Hget'].
  destruct (has_shape_shape _ _ Hshape) as (s & Hs & Hitems & Hl).
  unfold __getitem__. rewrite Hs, bind_Ok, Hl, bind_Ok.
  cbn [length Nat.add Nat.sub repeat app].
  assert (match sel with
          | NameStr s0 => NameList [s0]
          | other => other
          end = NameList names) as ->.
  { by destruct Hsel as [-> | (n & -> & ->)]. }
  cbn [names_len]. rewrite bind_Ok.
  change (py_getitem [sel1; sel2] 0) with (Ok sel1).
  change (py_getitem [sel1; sel2] 1) with (Ok sel2).
  rewrite !fmap_Ok, !bind_Ok.
  rewrite (_take_array_ok _ _ s R C r1 r2 Hitems Hr1 Hr2), bind_Ok.
  rewrite (method4_ok zero astype self rows _ "float64" Hvalid names cols md Hget' Hlen
             Hcols).
  rewrite bind_Ok. cbv zeta.
  destruct (bool_decide (1 < length names)%nat); [|done].
  rewrite Hitems.
  change (py_getitem [R; C] 0) with (Ok R).
  change (py_getitem [R; C] 1) with (Ok C).
  rewrite bind_Ok, Hr1, bind_Ok.
  unfold broadcast_col. rewrite decide_True by done. rewrite bind_Ok.
  rewrite bind_Ok, Hr2, bind_Ok.
  unfold broadcast_row. rewrite decide_True by done. rewrite bind_Ok.
  rewrite !Nat2Z.id.
  destruct (grid_labels_lengths r1 r2) as [L1 L2].
  unfold MultiIndex_from_arrays. cbn [same_lengths].
  rewrite bool_decide_true by congruence. cbn [andb negb].
  rewrite decide_False by done. by rewrite bind_Ok.
Qed.

(** C7 -- Output shape policy of the slice materializer.  On a 2-d matrix
    whose sizes, selectors and row count numpy holds as int64 (each
    selector an [int], a slice or a non-empty list of integers), when the
    two selectors realize the ranges [r1] and [r2], the projection on the
    requested [str] names returns one column per name and the offsets of
    the grid are row numbers: with exactly one name the value is a dense
    array of shape [(len(r1), len(r2))] holding the cells of that column
    at the grid offsets; with several names it is a long-format frame
    whose two-level row label is made of the two broadcast grids, each
    flattened row-major, with one column per requested name. *)
Theorem getitem_output_policy :
  int64 R → int64 C → int64_sel sel1 → int64_sel sel2 →
  Z.of_nat rows < 2 ^ 63 →
  Forall2 (fun n c => c.1 = n) names cols →
  (∀ name sel, names = [name] → selects sel names →
     ∃ col, cols = [(name, col)] ∧
       __getitem__ zero astype self sel [sel1; sel2] =
         Ok (Dense (mkArray [Z.of_nat (length r1); Z.of_nat (length r2)]
                            (cells col (grid_offsets r1 r2 C))))) ∧
  ((1 < length names)%nat →
     __getitem__ zero astype self (NameList names) [sel1; sel2] =
       Ok (Long (PFrame (mkFrame (gathered cols (grid_offsets r1 r2 C))
                                 (MultiLabels (grid_labels r1 r2))))) ∧
     map fst (gathered cols (grid_offsets r1 r2 C)) = names).
Proof.
  intros _ _ _ _ _ Hnames. split.
  - intros name sel Hone Hsel.
    rewrite (getitem_gathers sel Hsel)
      by (intros ->; rewrite Hone in Hnames; inversion Hnames).
    rewrite Hone in Hnames |- *.
    apply Forall2_cons_inv_l in Hnames as ([n col] & cols' & Hn & Hnil & ->).
    apply Forall2_nil_inv_l in Hnil as ->. simpl in Hn. subst n.
    exists col. split; [done|].
    rewrite bool_decide_false by (simpl; lia). cbv zeta.
    apply Forall_cons in Hlen as [Hcol _]. simpl in Hcol.
    assert (length (cells col (grid_offsets r1 r2 C))
            = length (grid_offsets r1 r2 C)) as Hcells
      by (apply cells_length; by rewrite Hcol).
    cbn [to_numpy DataFrame_to_numpy nd_data df_index df_columns index_len gathered map
         fst snd].
    rewrite <- Hcells.
    pose proof (single_column_rows name [] (cells col (grid_offsets r1 r2 C))) as Hrows.
    cbn [app length] in Hrows. rewrite Hrows.
    unfold reshape. rewrite bool_decide_true by (repeat constructor; lia).
    rewrite decide_True; [done|].
    rewrite Hcells, grid_offsets_length. simpl. lia.
  - intros Hmany. split.
    + rewrite (getitem_gathers (NameList names));
        [|by left|intros ->; apply Forall2_length in Hnames; simpl in *; lia].
      rewrite bool_decide_true by done. cbv zeta.
      unfold set_index. rewrite decide_True; [done|].
      cbn [index_len grid_labels mi_levels obj_len df_index head fmap option_fmap
           option_map default].
      destruct (grid_labels_lengths r1 r2) as [-> _].
      by rewrite grid_offsets_length.
    + unfold gathered. rewrite <- list_fmap_compose.
      clear -Hnames. induction Hnames as [|n c ns cs Hn _ IH]; [done|].
      cbn [fmap list_fmap]. simpl. by rewrite Hn, <- IH.
Qed.
End Materializer.

(** ** Round trip through a written file *)

Section RoundTrip.
Context {A : Type} (pandas_json : DataFrame A → string).
Implicit Types (fs : gmap string (file A)) (f : omx_File A).

Lemma filter_none {X} (P : X → Prop) `{!∀ x, Decision (P x)} (l : list X) :
  (∀ x, x ∈ l → ¬ P x) → filter P l = [].
Proof.
  induction l as [|y l IH]; intros Hno; [done|].
  rewrite filter_cons_False by (apply Hno; left).
  apply IH. intros x Hx. apply Hno. by right.
Qed.

Lemma filter_unique {X} (l : list (string * X)) (nd : string * X) :
  NoDup (map fst l) → nd ∈ l → filter (fun x => x.1 = nd.1) l = [nd].
Proof.
  induction l as [|y l IH]; intros Hnd Hin; [by inversion Hin|].
  cbn [map] in Hnd. apply NoDup_cons in Hnd as [Hy Hnd].
  apply elem_of_cons in Hin as [-> | Hin].
  - rewrite filter_cons_True by done. f_equal.
    apply filter_none. intros x Hx Heq. apply Hy.
    rewrite <- Heq. apply list_elem_of_fmap. by exists x.
  - rewrite filter_cons_False; [by apply IH|].
    intros Heq. apply Hy. rewrite Heq. apply list_elem_of_fmap. by exists nd.
Qed.

Lemma dict_set_fresh (d : list (string * list A)) k v :
  k ∉ map fst d → dict_set d k v = (d ++ [(k, v)])%list.
Proof.
  induction d as [|[k' v'] d IH]; intros Hk; [done|].
  cbn [dict_set]. rewrite decide_False.
  - cbn [app]. f_equal. apply IH. intros Hin. apply Hk. by right.
  - intros ->. apply Hk. by left.
Qed.

Lemma get_node_ok f (nd : string * ndarray A) :
  NoDup (map fst (omx_data f)) → nd ∈ omx_data f → get_node f nd.1 = Ok nd.2.
Proof.
  intros Hnd Hin. unfold get_node.
  by rewrite (filter_unique _ _ Hnd Hin).
Qed.

(** The dict that the ingest builds from the nodes under [/data]. *)
Lemma dict_comprehension f post : ∀ pre,
  omx_data f = (pre ++ post)%list →
  NoDup (map fst (omx_data f)) →
  for_each (fun d k => a ← get_node f k; Ok (dict_set d k (ravel a)))
    (map fst post) (flat_columns pre) = Ok (flat_columns (omx_data f)).
Proof.
  induction post as [|nd post IH]; intros pre Hsplit Hnd.
  - rewrite app_nil_r in Hsplit. by rewrite Hsplit.
  - cbn [map for_each].
    assert (nd ∈ omx_data f) as Hin by (rewrite Hsplit; set_solver).
    rewrite (get_node_ok _ _ Hnd Hin), bind_Ok.
    rewrite dict_set_fresh.
    + rewrite bind_Ok.
      replace (flat_columns pre ++ [(nd.1, ravel nd.2)])%list
        with (flat_columns (pre ++ [nd])) by (unfold flat_columns; by rewrite map_app).
      apply IH; [by rewrite <- app_assoc|done].
    + unfold flat_columns. rewrite map_map. cbn [fst].
      rewrite Hsplit, map_app in Hnd. apply NoDup_app in Hnd as (_ & Hdisj & _).
      intros Hpre. apply (Hdisj _ Hpre). by left.
Qed.

Lemma flat_columns_lengths f :
  omx_wf f →
  Forall (fun c => Z.of_nat (length c.2) = np_prod (omx_shape f))
         (flat_columns (omx_data f)).
Proof.
  intros (_ & _ & Hall). unfold flat_columns. apply Forall_map.
  eapply Forall_impl; [exact Hall|]. by intros nd [_ ?].
Qed.

Lemma DataFrame_from_dict_ok (d : list (string * list A)) n :
  Forall (fun c => Z.of_nat (length c.2) = n) d →
  ∃ rows, DataFrame_from_dict d = Ok (mkFrame d (RangeIndex rows)) ∧
          Forall (fun c => length c.2 = rows) d.
Proof.
  intros Hall. unfold DataFrame_from_dict.
  set (rows := default 0%nat ((fun c => length c.2) <$> head d)).
  assert (Forall (fun c => length c.2 = rows) d) as Hrows.
  { subst rows. destruct d as [|c0 d]; [constructor|]. simpl.
    apply Forall_cons in Hall as H0. destruct H0 as [H0 _].
    eapply Forall_impl; [exact Hall|]. simpl. intros c Hc. lia. }
  exists rows. split; [|done].
  assert (forallb (fun c => bool_decide (length c.2 = rows)) d = true) as ->; [|done].
  apply forallb_forall. intros c Hc. apply bool_decide_eq_true_2.
  rewrite Forall_forall in Hrows. by apply Hrows, list_elem_of_In.
Qed.

(** The ingest of a well-formed source succeeds, with one flat column per
    matrix. *)
Lemma omx_hdf5_2_to_arrow_ok fs src f shape_arg :
  omx_wf f →
  src = SrcFile f ∨ (∃ path, src = SrcPath path ∧ fs !! path = Some (OmxData f)) →
  ∃ (md : gmap string string) rows,
    omx_hdf5_2_to_arrow pandas_json fs src shape_arg =
      Ok (mkTable (Some (<["SHAPE" := np_tuple_str (omx_shape_dtype f) (omx_shape f)]>
                           (<["OMX_VERSION" := OMX_VERSION]> md)))
                  rows (flat_columns (omx_data f))) ∧
    Forall (fun c => length c.2 = rows) (flat_columns (omx_data f)).
Proof.
  intros Hwf Hsrc. pose proof Hwf as (Hnd & _ & _).
  pose proof (dict_comprehension f (omx_data f) [] eq_refl Hnd) as Hdict.
  destruct (DataFrame_from_dict_ok _ _ (flat_columns_lengths f Hwf)) as (rows & Hdf & Hrows).
  eexists _, rows. split; [|exact Hrows].
  unfold omx_hdf5_2_to_arrow.
  assert (match src with
          | SrcPath path => SrcFile <$> omx_open_file fs path
          | other => Ok other
          end = Ok (SrcFile f)) as ->.
  { destruct Hsrc as [-> | (path & -> & Hp)]; [done|].
    unfold omx_open_file. by rewrite Hp. }
  rewrite bind_Ok. cbv zeta. change (flat_columns []) with (@nil (string * list A)) in Hdict.
  rewrite Hdict, bind_Ok, Hdf, !bind_Ok. reflexivity.
Qed.

Lemma check_write_file_ok fs fname overwrite :
  fs !! fname = None ∨ overwrite = true →
  check_write_file fs fname overwrite = Ok tt.
Proof.
  unfold check_write_file. intros [-> | ->].
  - rewrite bool_decide_false; [done|]. by intros [? ?].
  - by rewrite andb_false_r.
Qed.

(** C2 -- the code where the round trip stops.  For a well-formed OMX file
    (given open or by its path) with a non-empty shape and a destination
    that is free (or may be overwritten), the ingest succeeds and builds
    the table of the flat matrices, with the text of the tuple of NumPy
    scalars under [SHAPE]; [from_hdf5] writes it and then reopens the
    file, where the constructor of the Feather and of the Parquet backend
    fails with the [ValueError] of [ast.literal_eval] on that text: no
    matrix object is returned on which [get_matrix] could be called. *)
Theorem from_hdf5_file_shape_unreadable fs src f to_filename overwrite shape_arg :
  omx_wf f →
  omx_shape f ≠ [] →
  src = SrcFile f ∨ (∃ path, src = SrcPath path ∧ fs !! path = Some (OmxData f)) →
  fs !! to_filename = None ∨ overwrite = true →
  (∃ t md, omx_hdf5_2_to_arrow pandas_json fs src shape_arg = Ok t ∧
     columns t = flat_columns (omx_data f) ∧
     schema_metadata t = Some md ∧
     md !! "SHAPE" = Some (np_tuple_str (omx_shape_dtype f) (omx_shape f)) ∧
     literal_eval (np_tuple_str (omx_shape_dtype f) (omx_shape f)) = None) ∧
  from_hdf5 (M := FeatherMatrix) pandas_json fs src to_filename overwrite shape_arg
    = Err (ValueError "malformed node or string") ∧
  from_hdf5 (M := ParquetMatrix) pandas_json fs src to_filename overwrite shape_arg
    = Err (ValueError "malformed node or string").
Proof.
  intros Hwf Hne Hsrc Hfree.
  destruct (omx_hdf5_2_to_arrow_ok fs src f shape_arg Hwf Hsrc)
    as (md & rows & Hingest & Hrows).
  pose proof (np_tuple_str_unparsable (omx_shape_dtype f) (omx_shape f) Hne) as Hparse.
  split_and!.
  - eexists _, _. split_and!; [exact Hingest|done|done| |done].
    apply lookup_insert_eq.
  - unfold from_hdf5. rewrite (check_write_file_ok _ _ _ Hfree), bind_Ok.
    rewrite Hingest, bind_Ok.
    cbn [_write_arrow_table open FeatherMatrix_ArrowMatrix].
    by rewrite (Feather_open_unparsable fs to_filename md rows _ shape_arg _ OMX_VERSION
                  Hparse).
  - unfold from_hdf5. rewrite (check_write_file_ok _ _ _ Hfree), bind_Ok.
    rewrite Hingest, bind_Ok.
    cbn [_write_arrow_table open ParquetMatrix_ArrowMatrix].
    by rewrite (Parquet_open_unparsable fs to_filename md rows _ shape_arg _ OMX_VERSION
                  None None Hparse).
Qed.
End RoundTrip.

(** ** Worked examples *)

Lemma skims_wf : omx_wf skims.
Proof.
  split_and!.
  - simpl. apply NoDup_cons. split; [|apply NoDup_singleton].
    intros Hin. apply list_elem_of_singleton in Hin. discriminate Hin.
  - repeat constructor; lia.
  - repeat constructor.
Defined.

Lemma from_hdf5_file_shape_unreadable_witness :
  (∃ t md, omx_hdf5_2_to_arrow (fun _ => "{}") skims_fs (SrcPath "skims.omx") None = Ok t ∧
     columns t = flat_columns (omx_data skims) ∧
     schema_metadata t = Some md ∧
     md !! "SHAPE" = Some (np_tuple_str "int32" [2; 3]) ∧
     literal_eval (np_tuple_str "int32" [2; 3]) = None) ∧
  from_hdf5 (M := FeatherMatrix) (fun _ => "{}") skims_fs (SrcPath "skims.omx")
    "skims.fmx" false None = Err (ValueError "malformed node or string") ∧
  from_hdf5 (M := ParquetMatrix) (fun _ => "{}") skims_fs (SrcPath "skims.omx")
    "skims.fmx" false None = Err (ValueError "malformed node or string").
Proof.
  apply (from_hdf5_file_shape_unreadable (fun _ => "{}") skims_fs (SrcPath "skims.omx")
           skims "skims.fmx" false None).
  - exact skims_wf.
  - discriminate.
  - right. exists "skims.omx". split; reflexivity.
  - left. reflexivity.
Defined.



Lemma getitem_output_policy_witness :
  __getitem__ 0 (fun _ x => x) skims_feather (NameStr "TIME")
    [DSlice (mkSlice None None None); DSlice (mkSlice (Some 1) None None)]
    = Ok (Dense (mkArray [2; 2] [21; 22; 24; 25])) ∧
  __getitem__ 0 (fun _ x => x) skims_feather (NameList ["DIST"; "TIME"])
    [DSlice (mkSlice None None None); DSlice (mkSlice (Some 1) None None)]
    = Ok (Long (PFrame (mkFrame
                          [("DIST", [11; 12; 14; 15]); ("TIME", [21; 22; 24; 25])]
                          (MultiLabels (mkMultiIndex [None; None]
                                          [[0; 0; 1; 1]; [1; 2; 1; 2]]))))).
Proof.
  split.
  - destruct (getitem_output_policy 0 (fun _ x => x) skims_feather 2 3
                (DSlice (mkSlice None None None)) (DSlice (mkSlice (Some 1) None None))
                [0; 1] [1; 2] ["TIME"] [("TIME", [20; 21; 22; 23; 24; 25])] 6%nat)
      as [Hone _].
    + left. reflexivity.
    + reflexivity.
    + reflexivity.
    + eexists. reflexivity.
    + repeat constructor.
    + repeat constructor; lia.
    + unfold int64; lia.
    + unfold int64; lia.
    + by split_and!.
    + split_and!; [done| |done]. simpl. unfold int64. lia.
    + lia.
    + repeat constructor.
    + destruct (Hone "TIME" (NameStr "TIME") eq_refl) as (col & Hcol & Hrun).
      * right. exists "TIME". by split.
      * injection Hcol as <-. exact Hrun.
  - destruct (getitem_output_policy 0 (fun _ x => x) skims_feather 2 3
                (DSlice (mkSlice None None None)) (DSlice (mkSlice (Some 1) None None))
                [0; 1] [1; 2] ["DIST"; "TIME"]
                [("DIST", [10; 11; 12; 13; 14; 15]); ("TIME", [20; 21; 22; 23; 24; 25])]
                6%nat) as [_ Hmany].
    + left. reflexivity.
    + reflexivity.
    + reflexivity.
    + eexists. reflexivity.
    + repeat constructor.
    + repeat constructor; lia.
    + unfold int64; lia.
    + unfold int64; lia.
    + by split_and!.
    + split_and!; [done| |done]. simpl. unfold int64. lia.
    + lia.
    + repeat constructor.
    + destruct Hmany as [Hrun _]; [simpl; lia|]. exact Hrun.
Defined.

(** * Further properties of the package *)

(** ** The coordinate mapper: distinct cells, distinct rows *)

Lemma in_range_length shp coord : in_range shp coord → length coord = length shp.
Proof. intros H. symmetry. by eapply Forall2_length. Qed.

Lemma row_major_offset_inj shp : ∀ c c',
  in_range shp c → in_range shp c' →
  row_major_offset shp c = row_major_offset shp c' → c = c'.
Proof.
  induction shp as [|d shp IH]; intros c c' Hc Hc' Heq.
  - inversion Hc; inversion Hc'; by subst.
  - inversion Hc as [|? i ? cs Hi Hcs]; subst.
    inversion Hc' as [|? i' ? cs' Hi' Hcs']; subst.
    cbn [row_major_offset] in Heq.
    pose proof (row_major_offset_bound _ _ Hcs) as Hb.
    pose proof (row_major_offset_bound _ _ Hcs') as Hb'.
    assert (i = i') as -> by nia.
    f_equal. apply IH; [done..|lia].
Qed.

Lemma coordinate_scalars c : coordinate (map Scalar c) 0 = c.
Proof.
  unfold coordinate. rewrite map_map. simpl. apply map_id.
Qed.

(** X1 -- The mapper sends distinct cells to distinct rows: on a matrix
    of two or more dimensions whose sizes multiply to less than [2^63]
    (so that the int64 arithmetic of numpy is exact), two in-range
    coordinate tuples, given as scalars, for which [_takers] returns the
    same result are the same tuple. *)
Theorem takers_scalars_injective self shp c c' :
  has_shape self shp →
  (2 ≤ length shp)%nat →
  np_prod shp < 2 ^ 63 →
  in_range shp c →
  in_range shp c' →
  _takers self (map Scalar c) (AttachBool false) =
    _takers self (map Scalar c') (AttachBool false) →
  c = c'.
Proof.
  intros Hshape Hdims _ Hc Hc' Heq.
  assert (shp ≠ []) as Hne by (intros ->; simpl in Hdims; lia).
  destruct (_takers_spec self shp (map Scalar c) (AttachBool false) 1)
    as (o & idx & Hrun & _ & Hk); [done..| | |discriminate|].
  { rewrite length_map. by apply in_range_length. }
  { apply Forall_map, Forall_forall. by intros. }
  destruct (_takers_spec self shp (map Scalar c') (AttachBool false) 1)
    as (o' & idx' & Hrun' & _ & Hk'); [done..| | |discriminate|].
  { rewrite length_map. by apply in_range_length. }
  { apply Forall_map, Forall_forall. by intros. }
  rewrite Hrun, Hrun' in Heq. injection Heq as -> _.
  apply (row_major_offset_inj shp); [done..|].
  rewrite <- (coordinate_scalars c), <- (coordinate_scalars c').
  by rewrite <- Hk, <- Hk'.
Qed.

Lemma takers_scalars_injective_witness :
  _takers m55 (map Scalar [1; 2]) (AttachBool false) =
    _takers m55 (map Scalar [1; 2]) (AttachBool false) ∧
  [1; 2] = [1; 2].
Proof.
  split; [reflexivity|].
  apply (takers_scalars_injective m55 [5; 5] [1; 2] [1; 2]).
  - left. reflexivity.
  - simpl. lia.
  - unfold np_prod. simpl. lia.
  - repeat constructor; lia.
  - repeat constructor; lia.
  - reflexivity.
Defined.

(** ** Row labels of the mapper *)

(** X2 -- Row labels run out of default names after 18 dimensions: with
    labels asked for and more index arguments than the 18 letters [i] to
    [z], all of one length, [_get_rc_preprocess] fails with a
    [ValueError]; with at most 18, and at least one, it names each level
    by the name the argument carries or else by the letter of its
    position, and keeps the flattened arguments as the levels. *)
Theorem preprocess_label_names indexes attach L :
  truthy attach = true →
  Forall (fun ix => length (asarray_flat ix) = L) indexes →
  indexes ≠ [] →
  ((length letters < length indexes)%nat →
     raises (_get_rc_preprocess indexes attach) "ValueError") ∧
  ((length indexes ≤ length letters)%nat →
     _get_rc_preprocess indexes attach =
       Ok (map asarray_flat indexes,
           Some (mkMultiIndex (map Some (zip_with name_or indexes letters))
                              (map asarray_flat indexes)))).
Proof.
  intros Hattach Hall Hne. unfold _get_rc_preprocess. rewrite Hattach.
  unfold MultiIndex_from_arrays.
  rewrite (same_lengths_Forall L) by (by apply Forall_map).
  cbn [negb]. rewrite decide_False by (by destruct indexes).
  split; intros Hlen.
  - rewrite decide_False by (rewrite length_zip_with, length_map; lia).
    eexists. split; reflexivity.
  - rewrite decide_True by (rewrite length_zip_with, length_map; lia).
    reflexivity.
Qed.

Lemma preprocess_label_names_witness :
  _get_rc_preprocess [Named "origin" [1; 2]; Sequence [3; 4]] (AttachBool true) =
    Ok ([[1; 2]; [3; 4]],
        Some (mkMultiIndex [Some "origin"; Some "j"] [[1; 2]; [3; 4]])) ∧
  raises (_get_rc_preprocess (repeat (Scalar 0) 19) (AttachBool true)) "ValueError".
Proof.
  split.
  - destruct (preprocess_label_names [Named "origin" [1; 2]; Sequence [3; 4]]
                (AttachBool true) 2) as [_ Hok];
      [reflexivity | repeat constructor | discriminate |].
    apply Hok. simpl. lia.
  - destruct (preprocess_label_names (repeat (Scalar 0) 19) (AttachBool true) 1)
      as [Hfail _]; [reflexivity | repeat constructor | discriminate |].
    apply Hfail. simpl. lia.
Defined.

(** ** [get_rc]: mapper and gather engine together *)

Lemma _takers_2d self R C ix0 ix1 :
  has_shape self [R; C] →
  length (asarray_flat ix1) = length (asarray_flat ix0) →
  _takers self [ix0; ix1] (AttachBool false) =
    Ok (pair_offsets (asarray_flat ix0) (asarray_flat ix1) C, None).
Proof.
  intros Hshape Hlen.
  destruct (has_shape_shape _ _ Hshape) as (s & Hs & Hitems & _).
  unfold _takers. rewrite (has_shape_ndims _ _ Hshape), bind_Ok.
  cbn [length bool_decide negb _get_rc_preprocess truthy map].
  rewrite bool_decide_true by done. cbn [negb].
  rewrite bind_Ok, Hs, fmap_Ok, bind_Ok, Hitems.
  change (py_getitem [asarray_flat ix0; asarray_flat ix1] 0)
    with (Ok (asarray_flat ix0)).
  rewrite bind_Ok. cbn [drop for_each].
  unfold _takers_step. rewrite decide_True by (simpl; lia).
  rewrite np_iadd_same by (by rewrite np_scale_length).
  rewrite !bind_Ok. do 2 f_equal.
  unfold pair_offsets, np_scale, np_prod. cbn [foldr].
  generalize dependent (asarray_flat ix1).
  induction (asarray_flat ix0) as [|i o IH]; intros [|j d] Hl; try done.
  cbn [map zip_with]. f_equal; [lia|]. apply IH. simpl in Hl. lia.
Qed.

Lemma pair_offsets_length o d C :
  length d = length o → length (pair_offsets o d C) = length o.
Proof. intros H. unfold pair_offsets. rewrite length_zip_with. lia. Qed.

Lemma pair_offsets_valid o d R C rows :
  Forall2 (fun i j => 0 ≤ i < R ∧ 0 ≤ j < C) o d →
  Z.of_nat rows = R * C →
  valid_offsets rows (pair_offsets o d C).
Proof.
  intros H Hrows. unfold valid_offsets, pair_offsets.
  induction H as [|i j o d [Hi Hj] _ IH]; [constructor|].
  cbn [zip_with]. constructor; [nia | exact IH].
Qed.

Section GetRc.
Context {A M : Type} `{!@ArrowMatrix A M} (zero : A) (astype : string → A → A).
Variables (self : M) (R C : Z) (rows : nat) (ix0 ix1 : index_arg).
Variables (names : list string) (cols : list (string * list A)) (dtype : string).
Hypothesis Hshape : has_shape (base self) [R; C].
Hypothesis Hsame : length (asarray_flat ix1) = length (asarray_flat ix0).
Hypothesis Hproj : projects self rows names cols.
Hypothesis Hlen : Forall (fun c => length c.2 = rows) cols.
Hypothesis Hvalid :
  valid_offsets rows (pair_offsets (asarray_flat ix0) (asarray_flat ix1) C).

Let offsets := pair_offsets (asarray_flat ix0) (asarray_flat ix1) C.

Lemma get_rc_unlabelled method r :
  _get_rc_by_takers zero astype self (NameList names) offsets method dtype = Ok r →
  get_rc zero astype self (NameList names) [ix0; ix1] method (AttachBool false) dtype =
    Ok (reset_index r).
Proof.
  intros Hr. unfold get_rc. rewrite (_takers_2d _ R C) by done.
  rewrite bind_Ok. fold offsets. by rewrite Hr.
Qed.

Lemma get_rc_method4 :
  cols ≠ [] →
  get_rc zero astype self (NameList names) [ix0; ix1] 4 (AttachBool false) dtype =
    Ok (PFrame (mkFrame (gathered cols offsets) (RangeIndex (length offsets)))).
Proof.
  intros Hcols. pose proof Hproj as [[md Hall] _].
  erewrite get_rc_unlabelled; [|by eapply method4_ok]. reflexivity.
Qed.

End GetRc.


(** ** From a pre-loaded frame to the opened matrix *)

Section EndToEnd.
Context {A : Type} (zero : A) (astype : string → A → A).
Context (pandas_json : DataFrame A → string).
Implicit Types (fs : gmap string (file A)) (cols : list (string * list A)).

(** What [from_hdf5] leaves behind for a frame with default row labels
    and a shape: the file holds the table of the columns of the frame,
    and the object returned is the one that opening the file gives. *)
Lemma from_hdf5_feather fs cols n to_filename overwrite shp :
  fs !! to_filename = None ∨ overwrite = true →
  ∃ md,
    let table := mkTable md n cols in
    from_hdf5 pandas_json fs (SrcDataFrame (mkFrame cols (RangeIndex n))) to_filename
        overwrite (Some shp) =
      Ok (mkFeather (AbstractArrowMatrix_init to_filename (Some OMX_VERSION) (Some shp))
                    (map fst cols) table,
          <[to_filename := FeatherData table (np_prod_obj (Some shp))]> fs).
Proof.
  intros Hfree. eexists.
  unfold from_hdf5. rewrite (check_write_file_ok _ _ _ Hfree), bind_Ok.
  unfold omx_hdf5_2_to_arrow. rewrite !bind_Ok.
  cbn [pa_table schema_metadata num_rows columns df_index df_columns index_len].
  rewrite !bind_Ok.
  cbn [_write_arrow_table open FeatherMatrix_ArrowMatrix].
  pose proof (Feather_open_written fs to_filename
                {["pandas" := pandas_json (mkFrame cols (RangeIndex n))]} n cols
                (Some shp) shp OMX_VERSION) as Hopen.
  cbv zeta in Hopen. rewrite Hopen. reflexivity.
Qed.

Lemma from_hdf5_parquet fs cols n to_filename overwrite shp :
  fs !! to_filename = None ∨ overwrite = true →
  ∃ md warnings,
    let table := mkTable md n cols in
    from_hdf5 pandas_json fs (SrcDataFrame (mkFrame cols (RangeIndex n))) to_filename
        overwrite (Some shp) =
      Ok (mkParquet (AbstractArrowMatrix_init to_filename (Some OMX_VERSION) (Some shp))
                    table warnings,
          <[to_filename := ParquetData table]> fs).
Proof.
  intros Hfree.
  destruct (Parquet_open_written fs to_filename
              {["pandas" := pandas_json (mkFrame cols (RangeIndex n))]} n cols
              (Some shp) shp OMX_VERSION None None) as [w Hopen].
  eexists _, w.
  unfold from_hdf5. rewrite (check_write_file_ok _ _ _ Hfree), bind_Ok.
  unfold omx_hdf5_2_to_arrow. rewrite !bind_Ok.
  cbn [pa_table schema_metadata num_rows columns df_index df_columns index_len].
  rewrite !bind_Ok.
  cbn [_write_arrow_table open ParquetMatrix_ArrowMatrix].
  cbv zeta in Hopen. rewrite Hopen. reflexivity.
Qed.



Lemma named_frame_columns cols rows md names (picked : list (string * list A)) :
  NoDup (map fst cols) →
  Forall2 (fun n c => c.1 = n ∧ c ∈ cols) names picked →
  named_columns (mkTable md rows cols) names picked.
Proof.
  intros Hnd H. unfold named_columns. cbn [columns].
  induction H as [|n c names picked [Hn Hin] _ IH]; [constructor|].
  constructor; [|exact IH]. subst n. by apply filter_unique.
Qed.

(** X5 -- Coordinate reads give the cells of the frame.  After [from_hdf5]
    on a pre-loaded frame with default row labels, distinct column names
    and [R*C] rows, under the shape [(R, C)] with [R*C] below [2^63], on
    either backend (for names without repetition on Parquet),
    [get_rc(names, o, d, method=4, attach_index=False)] with a non-empty
    list of names of columns and non-empty lists of in-range coordinate
    pairs returns, for each requested column in the order asked, its
    cells at the flat positions [o[k]*C + d[k]]. *)
Theorem get_rc_reads_source fs cols R C to_filename overwrite
    names (picked : list (string * list A)) o d dtype :
  fs !! to_filename = None ∨ overwrite = true →
  NoDup (map fst cols) →
  Forall (fun c => length c.2 = Z.to_nat (R * C)) cols →
  R * C < 2 ^ 63 →
  names ≠ [] →
  o ≠ [] →
  Forall2 (fun n c => c.1 = n ∧ c ∈ cols) names picked →
  Forall2 (fun i j => 0 ≤ i < R ∧ 0 ≤ j < C) o d →
  let df := mkFrame cols (RangeIndex (Z.to_nat (R * C))) in
  let expected :=
    PFrame (mkFrame (gathered picked (pair_offsets o d C)) (RangeIndex (length o))) in
  (∃ (fm : FeatherMatrix) fs',
     from_hdf5 pandas_json fs (SrcDataFrame df) to_filename overwrite
       (Some (PyTuple [R; C])) = Ok (fm, fs') ∧
     get_rc zero astype fm (NameList names) [Sequence o; Sequence d] 4
       (AttachBool false) dtype = Ok expected) ∧
  (NoDup names →
   ∃ (pm : ParquetMatrix) fs',
     from_hdf5 pandas_json fs (SrcDataFrame df) to_filename overwrite
       (Some (PyTuple [R; C])) = Ok (pm, fs') ∧
     get_rc zero astype pm (NameList names) [Sequence o; Sequence d] 4
       (AttachBool false) dtype = Ok expected).
Proof.
  intros Hfree Hndc Hlen _ Hne Ho Hnames Hrange df expected. subst df.
  assert (length d = length o) as Hod by (symmetry; by eapply Forall2_length).
  assert (expected =
    PFrame (mkFrame (gathered picked (pair_offsets o d C))
                    (RangeIndex (length (pair_offsets o d C))))) as ->.
  { subst expected. by rewrite pair_offsets_length. }
  assert (0 ≤ R * C) as Hnn.
  { destruct Hrange as [|i j o d [Hi Hj] _]; [done|]. nia. }
  assert (picked ≠ []) as Hpicked by (by destruct Hnames).
  set (rows := Z.to_nat (R * C)) in *.
  assert (Z.of_nat rows = R * C) as Hrows by (subst rows; lia).
  split.
  - destruct (from_hdf5_feather fs cols rows to_filename overwrite (PyTuple [R; C]) Hfree)
      as (md & Hrun).
    cbv zeta in Hrun. eexists _, _. split; [exact Hrun|].
    pose proof (named_frame_columns cols rows md names picked Hndc Hnames) as Hnc.
    eapply (get_rc_method4 zero astype _ R C rows (Sequence o) (Sequence d)
              names picked dtype).
    + by left.
    + exact Hod.
    + exact (Feather_projects (mkFeather _ _ (mkTable md rows cols)) names picked Hnc).
    + by apply (named_columns_length (mkTable md rows cols) _ _ Hlen Hnc).
    + by eapply pair_offsets_valid.
    + done.
  - intros Hnd.
    destruct (from_hdf5_parquet fs cols rows to_filename overwrite (PyTuple [R; C]) Hfree)
      as (md & w & Hrun).
    cbv zeta in Hrun. eexists _, _. split; [exact Hrun|].
    pose proof (named_frame_columns cols rows md names picked Hndc Hnames) as Hnc.
    eapply (get_rc_method4 zero astype _ R C rows (Sequence o) (Sequence d)
              names picked dtype).
    + by left.
    + exact Hod.
    + exact (Parquet_projects (mkParquet _ (mkTable md rows cols) _) names picked
               Hnd Hnc).
    + by apply (named_columns_length (mkTable md rows cols) _ _ Hlen Hnc).
    + by eapply pair_offsets_valid.
    + done.
Qed.
End EndToEnd.


Lemma get_rc_reads_source_witness :
  ∃ (fm : FeatherMatrix) fs',
    from_hdf5 (fun _ => "{}") skims_fs
        (SrcDataFrame (mkFrame (columns skims_table) (RangeIndex 6))) "skims.fmx" false
        (Some (PyTuple [2; 3])) = Ok (fm, fs') ∧
    get_rc 0 (fun _ x => x) fm (NameList ["TIME"]) [Sequence [0; 1]; Sequence [2; 0]] 4
      (AttachBool false) "float64"
      = Ok (PFrame (mkFrame [("TIME", [22; 23])] (RangeIndex 2))).
Proof.
  destruct (get_rc_reads_source 0 (fun _ x => x) (fun _ => "{}") skims_fs
              (columns skims_table) 2 3 "skims.fmx" false ["TIME"]
              [("TIME", [20; 21; 22; 23; 24; 25])] [0; 1] [2; 0]
              "float64") as [Hfeather _].
  - left. reflexivity.
  - simpl. apply NoDup_cons. split; [|apply NoDup_singleton].
    intros Hin. apply list_elem_of_singleton in Hin. discriminate Hin.
  - repeat constructor.
  - lia.
  - discriminate.
  - discriminate.
  - constructor; [|constructor]. split; [reflexivity|]. right. left.
  - constructor; [lia|]. constructor; [lia|]. constructor.
  - exact Hfeather.
Defined.

(** ** The gather strategies outside the rows of the table *)

Section ResultListErrors.
Context {X Y : Type}.

Lemma mapM_Err (f : X → result Y) e l :
  Forall (fun x => f x = Err e ∨ ∃ y, f x = Ok y) l →
  Exists (fun x => f x = Err e) l →
  mapM f l = Err e.
Proof.
  induction 1 as [|x l Hx _ IH]; intros Hex; [by inversion Hex|].
  cbn [mapM]. destruct Hx as [-> | [y Hy]]; [done|].
  rewrite Hy, bind_Ok.
  apply Exists_cons in Hex as [Hx | Hex]; [congruence|].
  by rewrite (IH Hex).
Qed.

Lemma mapM_raises (f : X → result Y) cls l :
  (∀ x e, f x = Err e → class_name e = cls) →
  Exists (fun x => ∃ e, f x = Err e) l →
  raises (mapM f l) cls.
Proof.
  intros Hcls. induction 1 as [x l [e He] | x l _ IH]; cbn [mapM].
  - rewrite He. exists e. split; [done|]. by eapply Hcls.
  - destruct (f x) as [y|e] eqn:Hx.
    + rewrite bind_Ok. destruct IH as (e & -> & He). by exists e.
    + exists e. split; [done|]. by eapply Hcls.
Qed.


End ResultListErrors.

Section OutsideRows.
Context {A : Type}.
Implicit Types (col : list A) (offsets : list Z) (t : Table A).

Lemma take_column_outside col offsets :
  some_offset_outside (length col) offsets →
  take_column col offsets = Err take_error.
Proof.
  intros Hex. apply mapM_Err.
  - apply Forall_forall. intros o _. simpl.
    case_decide; [|by left].
    destruct (col !! Z.to_nat o); [right; by eexists | by left].
  - eapply Exists_impl; [exact Hex|]. intros o Ho. simpl in Ho |- *.
    case_decide; [|done].
    rewrite lookup_ge_None_2 by lia. done.
Qed.

Lemma Table_take_outside t offsets :
  table_wf t →
  columns t ≠ [] →
  some_offset_outside (num_rows t) offsets →
  Table_take t offsets = Err take_error.
Proof.
  intros Hwf Hne Hex. unfold Table_take. unfold table_wf in Hwf.
  destruct (columns t) as [|c cs]; [done|].
  rewrite (mapM_Err _ take_error); [done| |].
  - eapply Forall_impl; [exact Hwf|]. intros c' Hc. simpl. left.
    rewrite take_column_outside by (by rewrite Hc). done.
  - left. apply Forall_cons in Hwf as [Hc _].
    rewrite take_column_outside by (by rewrite Hc). done.
Qed.





End OutsideRows.

Section GatherEdges.
Context {A M : Type} `{!@ArrowMatrix A M} (zero : A) (astype : string → A → A).
Variables (self : M) (rows : nat) (offsets : list Z) (dtype : string).
Variables (names : list string) (cols : list (string * list A)).
Hypothesis Hproj : projects self rows names cols.
Hypothesis Hlen : Forall (fun c => length c.2 = rows) cols.


End GatherEdges.



(** ** Names that the file does not hold *)

Section MissingName.
Context {A : Type} (zero : A) (astype : string → A → A).

Lemma field_KeyError (t : Table A) n e : field t n = Err e → class_name e = "KeyError".
Proof.
  unfold field. destruct (filter _ (columns t)) as [|c [|c' l]]; intros [= <-]; done.
Qed.

Lemma field_missing (t : Table A) n :
  n ∉ map fst (columns t) → ∃ e, field t n = Err e.
Proof.
  intros Hn. unfold field. rewrite filter_none; [by eexists|].
  intros c Hc Heq. apply Hn. apply list_elem_of_fmap. by exists c.
Qed.

Lemma Table_select_missing (t : Table A) names n :
  n ∈ names → n ∉ map fst (columns t) → raises (Table_select t names) "KeyError".
Proof.
  intros Hin Hn. unfold Table_select.
  destruct (mapM_raises (field t) "KeyError" names) as (e & He & Hcls).
  - apply field_KeyError.
  - apply Exists_exists. exists n. split; [done|]. by apply field_missing.
  - rewrite He. by exists e.
Qed.

(** X8 -- A name that the Feather file does not hold is a [KeyError].  On
    the Feather backend, when a requested name is not a column of the
    table, [get_matrix], [get_raw], the single-name fast path of the
    gather engine and its methods 1 and 4 (whatever the offsets) all fail
    with a [KeyError]. *)
Theorem feather_missing_name (self : FeatherMatrix) names n :
  n ∈ names →
  n ∉ map fst (columns (_table self)) →
  raises (get_matrix self n) "KeyError" ∧
  raises (get_raw self (Some names)) "KeyError" ∧
  ∀ offsets dtype,
    (∀ method,
       raises (_get_rc_by_takers zero astype self (NameStr n) offsets method dtype)
              "KeyError") ∧
    raises (_get_rc_by_takers zero astype self (NameList names) offsets 1 dtype)
           "KeyError" ∧
    raises (_get_rc_by_takers zero astype self (NameList names) offsets 4 dtype)
           "KeyError".
Proof.
  intros Hin Hn.
  destruct (Table_select_missing (_table self) names n Hin Hn) as (e & He & Hcls).
  destruct (Table_select_missing (_table self) [n] n) as (e1 & He1 & Hcls1);
    [by left|done|].
  split_and!.
  - unfold get_matrix.
    cbn [_get_arrow_table FeatherMatrix_ArrowMatrix Feather_get_arrow_table].
    rewrite He1. by exists e1.
  - unfold get_raw.
    cbn [_get_arrow_table FeatherMatrix_ArrowMatrix Feather_get_arrow_table].
    rewrite He. by exists e.
  - intros offsets dtype. split_and!.
    + intros method. unfold _get_rc_by_takers.
      cbn [_get_arrow_table FeatherMatrix_ArrowMatrix Feather_get_arrow_table].
      rewrite He1. by exists e1.
    + unfold _get_rc_by_takers. rewrite decide_True by done.
      cbn [names_list _get_arrow_table FeatherMatrix_ArrowMatrix
           Feather_get_arrow_table].
      rewrite bind_Ok, He. by exists e.
    + unfold _get_rc_by_takers. rewrite !decide_False by lia.
      rewrite decide_True by done.
      cbn [names_list _get_arrow_table FeatherMatrix_ArrowMatrix
           Feather_get_arrow_table].
      rewrite bind_Ok, He. by exists e.
Qed.
End MissingName.

Lemma feather_missing_name_witness :
  raises (get_matrix skims_feather "COST") "KeyError".
Proof.
  destruct (feather_missing_name 0 (fun _ x => x) skims_feather ["TIME"; "COST"] "COST")
    as (Hget & _).
  - right. left.
  - intros Hin. simpl in Hin.
    apply elem_of_cons in Hin as [Hin | Hin]; [discriminate Hin|].
    apply list_elem_of_singleton in Hin. discriminate Hin.
  - exact Hget.
Defined.

(** ** A shape that disagrees with the number of rows *)

Section ShapeConsistency.
Context {A : Type}.

(** X9 -- Opening a Parquet file checks the shape against the rows but
    only warns.  For a stored table that carries both metadata entries,
    with a shape whose sizes and their product are in the int64 range (so
    that [np.prod] is the product), [ParquetMatrix] opens, with the shape
    read from the file; it issues no warning exactly when the product of
    the shape equals the number of rows of the file, and one warning
    otherwise. *)
Theorem parquet_open_warns (fs : gmap string (file A)) fname (t : Table A)
    (md : gmap string string) text shp v arg_version arg_shape :
  fs !! fname = Some (ParquetData t) →
  schema_metadata t = Some md →
  md !! "SHAPE" = Some text →
  literal_eval text = Some shp →
  prod_exact shp →
  md !! "OMX_VERSION" = Some v →
  ∃ pm,
    ParquetMatrix_init fs fname arg_version arg_shape = Ok pm ∧
    parquet_file pm = t ∧
    shape (pm_base pm) = Ok (stored_shape shp) ∧
    omx_version (pm_base pm) = Some v ∧
    (pm_warnings pm = [] ↔ np_prod_obj (Some shp) = Some (Z.of_nat (num_rows t))) ∧
    (length (pm_warnings pm) ≤ 1)%nat.
Proof.
  intros Hfile Hmd Hshape Hparse _ Hversion.
  eexists. split.
  - unfold ParquetMatrix_init, read_parquet. rewrite Hfile, bind_Ok, Hmd.
    unfold dict_getitem. rewrite Hshape, bind_Ok, Hparse, bind_Ok, Hversion, bind_Ok.
    reflexivity.
  - cbn [parquet_file pm_base pm_warnings].
    destruct (AbstractArrowMatrix_init_shape fname (Some v) shp) as [Hs Hv].
    unfold shape. rewrite Hs, Hv. split_and!; try done.
    + case_decide; [done|]. split; [discriminate|done].
    + case_decide; simpl; lia.
Qed.
End ShapeConsistency.

Lemma parquet_open_warns_witness :
  ∃ pm,
    ParquetMatrix_init {["skims.pqmx" := ParquetData skims_table]} "skims.pqmx"
      None None = Ok pm ∧
    pm_warnings pm = [].
Proof.
  destruct (parquet_open_warns {["skims.pqmx" := ParquetData skims_table]}
              "skims.pqmx" skims_table
              (<["SHAPE" := "(2, 3)"]> (<["OMX_VERSION" := OMX_VERSION]> ∅))
              "(2, 3)" (PyTuple [2; 3]) OMX_VERSION None None)
    as (pm & Hopen & _ & _ & _ & Hwarn & _); try reflexivity.
  - split; [repeat constructor; unfold int64; lia | unfold int64; simpl; lia].
  - exists pm. split; [exact Hopen|]. by apply Hwarn.
Defined.

Section ShapeMismatch.
Context {A M : Type} `{!@ArrowMatrix A M}.

(** X10 -- [get_matrix] needs a shape that fits the rows.  When the
    backend returns the single column of the name and the sizes of the
    stored shape are not negative, [get_matrix] returns that column under
    the stored shape if the sizes multiply to the number of rows, and
    fails with a [ValueError] (from the reshape) if they do not. *)
Theorem get_matrix_needs_fitting_shape (self : M) name shp md rows
    (c : string * list A) :
  has_shape (base self) shp →
  Forall (fun d => 0 ≤ d) shp →
  _get_arrow_table self (Some [name]) = Ok (mkTable md rows [c]) →
  length c.2 = rows →
  (np_prod shp = Z.of_nat rows → get_matrix self name = Ok (mkArray shp c.2)) ∧
  (np_prod shp ≠ Z.of_nat rows → raises (get_matrix self name) "ValueError").
Proof.
  intros Hshape Hpos Hget Hc.
  destruct (has_shape_shape _ _ Hshape) as (s & Hs & Hitems & _).
  assert (get_matrix self name = reshape c.2 shp) as ->.
  { unfold get_matrix. rewrite Hget, bind_Ok, Hs, bind_Ok, Hitems.
    unfold Table_to_pandas. cbn [columns num_rows].
    cbn [DataFrame_to_numpy nd_data df_index df_columns index_len].
    destruct c as [n col]. cbn [snd] in Hc |- *.
    pose proof (single_column_rows n [] col) as Hone.
    cbn [app length fst snd] in Hone. rewrite Hc in Hone.
    by rewrite Hone. }
  unfold reshape. rewrite bool_decide_true by done. split; intros Hprod.
  - by rewrite decide_True by congruence.
  - rewrite decide_False by congruence. eexists. split; reflexivity.
Qed.
End ShapeMismatch.

Lemma get_matrix_needs_fitting_shape_witness :
  get_matrix skims_feather "TIME" = Ok (mkArray [2; 3] [20; 21; 22; 23; 24; 25]).
Proof.
  destruct (get_matrix_needs_fitting_shape skims_feather "TIME" [2; 3]
              (schema_metadata skims_table) 6 ("TIME", [20; 21; 22; 23; 24; 25]))
    as [Hok _].
  - left. reflexivity.
  - repeat constructor; lia.
  - reflexivity.
  - reflexivity.
  - apply Hok. reflexivity.
Defined.

(** ** The slice materializer at the edges of the matrix *)

Lemma or_default_step_nonzero x : or_default x 1 ≠ 0.
Proof. unfold or_default. destruct x as [v|]; [case_decide|]; lia. Qed.

Lemma slice_range_total s size : ∃ r, _slice_to_range (int_to_slice s) size = Ok r.
Proof.
  assert (∀ a b x, ∃ r, np_arange a b (or_default x 1) = Ok r) as Hr.
  { intros a b x. unfold np_arange.
    rewrite decide_False by apply or_default_step_nonzero. by eexists. }
  destruct s as [i|s|values]; cbn [int_to_slice _slice_to_range].
  - cbn [sl_start sl_stop sl_step _cap]. apply Hr.
  - destruct (_cap (sl_stop s) (Some size)); apply Hr.
  - by eexists.
Qed.

Lemma slice_range_nonneg s size :
  nonneg_sel s →
  ∃ r, _slice_to_range (int_to_slice s) size = Ok r ∧
       Forall (fun x => 0 ≤ x < size) r.
Proof.
  assert (∀ start stop step, nonneg start → nonneg step →
            ∃ r, _slice_to_range (DSlice (mkSlice start stop step)) size = Ok r ∧
                 Forall (fun x => 0 ≤ x < size) r) as Hslice.
  { intros start stop step Hstart Hstep.
    unfold _slice_to_range. cbn [sl_start sl_stop sl_step].
    assert (∃ e, _cap stop (Some size) = Some e ∧ e ≤ size) as (e & -> & He).
    { destruct stop as [v|]; simpl; eexists; split; try reflexivity; lia. }
    destruct (np_arange_bound (or_default start 0) e (or_default step 1))
      as (r & -> & Hr); [by apply or_default_step_pos|].
    exists r. split; [done|].
    pose proof (or_default_nonneg start 0 Hstart ltac:(lia)).
    eapply Forall_impl; [exact Hr|]. simpl. lia. }
  destruct s as [i|[start stop step]|values]; cbn [nonneg_sel int_to_slice].
  - intros Hi. by apply Hslice.
  - cbn [sl_start sl_step]. intros [Hstart Hstep]. by apply Hslice.
  - done.
Qed.

Lemma slice_range_int_outside i size :
  size ≤ i → _slice_to_range (int_to_slice (DInt i)) size = Ok [].
Proof.
  intros Hi. cbn [int_to_slice _slice_to_range sl_start sl_stop sl_step _cap].
  unfold np_arange. rewrite decide_False by (simpl; lia).
  assert (or_default (Some i) 0 = i) as -> by (unfold or_default; case_decide; lia).
  change (or_default None 1) with 1. rewrite Z.div_1_r.
  by replace (Z.to_nat (Z.max 0 (- - (Z.min (i + 1) size - i)))) with 0%nat by lia.
Qed.

Lemma slice_range_int_negative i size :
  i < 0 → 0 ≤ size → _slice_to_range (int_to_slice (DInt i)) size = Ok [i].
Proof.
  intros Hi Hsize. cbn [int_to_slice _slice_to_range sl_start sl_stop sl_step _cap].
  unfold np_arange. rewrite decide_False by (simpl; lia).
  assert (or_default (Some i) 0 = i) as -> by (unfold or_default; case_decide; lia).
  change (or_default None 1) with 1. rewrite Z.div_1_r.
  replace (Z.to_nat (Z.max 0 (- - (Z.min (i + 1) size - i)))) with 1%nat by lia.
  cbn [seq map]. do 2 f_equal. lia.
Qed.

Lemma slice_range_full size :
  _slice_to_range (int_to_slice full_slice) size
    = Ok (map Z.of_nat (seq 0 (Z.to_nat size))).
Proof.
  cbn [full_slice int_to_slice _slice_to_range sl_start sl_stop sl_step _cap or_default].
  unfold np_arange. rewrite decide_False by lia. rewrite Z.div_1_r.
  replace (Z.to_nat (Z.max 0 (- - (size - 0)))) with (Z.to_nat size) by lia.
  f_equal. apply map_ext. intros k. lia.
Qed.

Lemma grid_offsets_snoc r1 a r2 dim1 :
  grid_offsets (r1 ++ [a]) r2 dim1
    = (grid_offsets r1 r2 dim1 ++ map (fun b => a * dim1 + b) r2)%list.
Proof.
  unfold grid_offsets. rewrite map_app, concat_app. cbn [map concat].
  by rewrite app_nil_r.
Qed.

Lemma grid_offsets_full (r c : nat) :
  grid_offsets (map Z.of_nat (seq 0 r)) (map Z.of_nat (seq 0 c)) (Z.of_nat c)
    = map Z.of_nat (seq 0 (r * c)).
Proof.
  induction r as [|r IH]; [done|].
  rewrite seq_S, map_app. cbn [map]. rewrite grid_offsets_snoc, IH.
  replace (S r * c)%nat with (r * c + c)%nat by lia.
  rewrite seq_app, map_app. f_equal. cbn [Nat.add].
  replace (seq (r * c) c) with (map (Nat.add (r * c)) (seq 0 c))
    by (rewrite <- (Nat.add_0_r (r * c)) at 2; apply fmap_add_seq).
  rewrite !map_map. apply map_ext. intros b. lia.
Qed.

Lemma grid_offsets_valid r1 r2 R C rows :
  Forall (fun x => 0 ≤ x < R) r1 →
  Forall (fun x => 0 ≤ x < C) r2 →
  Z.of_nat rows = R * C →
  valid_offsets rows (grid_offsets r1 r2 C).
Proof.
  intros H1 H2 Hrows. unfold valid_offsets, grid_offsets.
  apply Forall_concat, Forall_map.
  eapply Forall_impl; [exact H1|]. intros a Ha. simpl.
  apply Forall_map. eapply Forall_impl; [exact H2|]. intros b Hb.
  simpl in Ha, Hb |- *.
  assert ((a + 1) * C ≤ R * C) by (apply Z.mul_le_mono_nonneg_r; lia).
  nia.
Qed.

Section WholeColumn.
Context {A : Type}.

Lemma cells_from (pre col : list A) :
  cells (pre ++ col) (map Z.of_nat (seq (length pre) (length col))) = col.
Proof.
  revert pre. induction col as [|x col IH]; intros pre; [done|].
  cbn [length seq map].
  rewrite (cells_cons _ _ _ x) by (rewrite Nat2Z.id; apply list_lookup_middle; done).
  f_equal. specialize (IH (pre ++ [x])%list).
  rewrite <- app_assoc, length_app, Nat.add_1_r in IH. exact IH.
Qed.

Lemma cells_all (col : list A) :
  cells col (map Z.of_nat (seq 0 (length col))) = col.
Proof. exact (cells_from [] col). Qed.
End WholeColumn.

Section Slicing.
Context {A M : Type} `{!@ArrowMatrix A M} (zero : A) (astype : string → A → A).
Implicit Types (self : M) (names : list string) (sels : list dim_sel).

(** On a 2-d matrix the selectors that are not given are full slices. *)
Lemma getitem_pads self (sel : names_arg) sels R C :
  has_shape (base self) [R; C] →
  __getitem__ zero astype self sel sels =
  __getitem__ zero astype self sel
    (sels ++ repeat full_slice (2 - length sels))%list.
Proof.
  intros Hshape.
  destruct (has_shape_shape _ _ Hshape) as (s & Hs & Hitems & Hl).
  unfold __getitem__. rewrite Hs, !bind_Ok, Hl, !bind_Ok.
  cbn [length]. rewrite length_app, repeat_length.
  replace (2 + 1 - S (length sels + (2 - length sels)))%nat with 0%nat by lia.
  replace (2 + 1 - S (length sels))%nat with (2 - length sels)%nat by lia.
  cbn [repeat]. by rewrite app_nil_r.
Qed.

(** A failure of the gather is the failure of [__getitem__]. *)
Lemma getitem_gather_fails self (sel : names_arg) names sel1 sel2 R C r1 r2 e :
  has_shape (base self) [R; C] →
  _slice_to_range (int_to_slice sel1) R = Ok r1 →
  _slice_to_range (int_to_slice sel2) C = Ok r2 →
  selects sel names →
  _get_rc_by_takers zero astype self (NameList names) (grid_offsets r1 r2 C) 4
    "float64" = Err e →
  __getitem__ zero astype self sel [sel1; sel2] = Err e.
Proof.
  intros Hshape Hr1 Hr2 Hsel Hfail.
  destruct (has_shape_shape _ _ Hshape) as (s & Hs & Hitems & Hl).
  unfold __getitem__. rewrite Hs, bind_Ok, Hl, bind_Ok.
  cbn [length Nat.add Nat.sub repeat app].
  assert (match sel with
          | NameStr s0 => NameList [s0]
          | other => other
          end = NameList names) as ->.
  { by destruct Hsel as [-> | (n & -> & ->)]. }
  cbn [names_len]. rewrite bind_Ok.
  change (py_getitem [sel1; sel2] 0) with (Ok sel1).
  change (py_getitem [sel1; sel2] 1) with (Ok sel2).
  rewrite !fmap_Ok, !bind_Ok.
  rewrite (_take_array_ok _ _ s R C r1 r2 Hitems Hr1 Hr2), bind_Ok.
  by rewrite Hfail.
Qed.

Lemma get_matrix_reshape self name shp md rows n (col : list A) :
  has_shape (base self) shp →
  _get_arrow_table self (Some [name]) = Ok (mkTable md rows [(n, col)]) →
  length col = rows →
  get_matrix self name = reshape col shp.
Proof.
  intros Hshape Hget Hc.
  destruct (has_shape_shape _ _ Hshape) as (s & Hs & Hitems & _).
  unfold get_matrix. rewrite Hget, bind_Ok, Hs, bind_Ok, Hitems.
  unfold Table_to_pandas. cbn [columns num_rows].
  cbn [DataFrame_to_numpy nd_data df_index df_columns index_len].
  pose proof (single_column_rows n [] col) as Hone.
  cbn [app length fst snd] in Hone. rewrite Hc in Hone.
  by rewrite Hone.
Qed.

(** X11 -- The full range is the whole matrix.  On a 2-d matrix of shape
    [(R, C)] stored in [R*C] rows, with [R], [C] and [R*C] in the int64
    range, [__getitem__] with one [str] name (alone or in a list) and
    full slices for both dimensions, written out or left to the padding,
    returns the dense array that [get_matrix] returns for that name. *)
Theorem getitem_full_range self (sel : names_arg) sels name R C md rows n (col : list A) :
  has_shape (base self) [R; C] →
  0 ≤ R → 0 ≤ C →
  int64 R → int64 C → R * C < 2 ^ 63 →
  Z.of_nat rows = R * C →
  _get_arrow_table self (Some [name]) = Ok (mkTable md rows [(n, col)]) →
  length col = rows →
  selects sel [name] →
  sels = [] ∨ sels = [full_slice] ∨ sels = [full_slice; full_slice] →
  __getitem__ zero astype self sel sels = Dense <$> get_matrix self name ∧
  get_matrix self name = Ok (mkArray [R; C] col).
Proof.
  intros Hshape HR HC _ _ _ Hrows Hget Hc Hsel Hsels.
  rewrite (get_matrix_reshape self name [R; C] md rows n col Hshape Hget Hc).
  assert (reshape col [R; C] = Ok (mkArray [R; C] col)) as Hre.
  { unfold reshape. rewrite bool_decide_true by (repeat constructor; lia).
    rewrite decide_True; [done|]. unfold np_prod. simpl. lia. }
  split; [|exact Hre].
  rewrite (getitem_pads self sel sels R C Hshape).
  assert ((sels ++ repeat full_slice (2 - length sels))%list
          = [full_slice; full_slice]) as ->.
  { by destruct Hsels as [-> | [-> | ->]]. }
  assert (grid_offsets (map Z.of_nat (seq 0 (Z.to_nat R)))
            (map Z.of_nat (seq 0 (Z.to_nat C))) C
          = map Z.of_nat (seq 0 (length col))) as Hgrid.
  { rewrite <- (Z2Nat.id C) at 2 by done. rewrite grid_offsets_full.
    do 2 f_equal. lia. }
  rewrite (getitem_gathers zero astype self R C full_slice full_slice
             (map Z.of_nat (seq 0 (Z.to_nat R))) (map Z.of_nat (seq 0 (Z.to_nat C)))
             [name] [(n, col)] rows Hshape (slice_range_full R) (slice_range_full C)
             (ex_intro _ md Hget)); [| by repeat constructor | | done | done].
  - cbn [length]. rewrite bool_decide_false by lia. cbv zeta.
    rewrite Hgrid. unfold gathered. cbn [map fst snd]. rewrite cells_all.
    rewrite length_map, length_seq.
    cbn [to_numpy DataFrame_to_numpy nd_data df_index df_columns index_len].
    pose proof (single_column_rows n [] col) as Hone.
    cbn [app length fst snd] in Hone. rewrite Hone.
    rewrite !length_map, !length_seq, !Z2Nat.id by done. by rewrite Hre.
  - rewrite Hgrid, <- Hc. apply Forall_map, Forall_forall.
    intros k Hk%elem_of_seq. simpl. lia.
Qed.

(** X12 -- Selectors without negative parts never leave the matrix.  On a
    2-d matrix of shape [(R, C)] stored in [R*C] rows, with [R], [C] and
    [R*C] in the int64 range, [__getitem__] with [str] names and [int]
    and slice selectors in the int64 range that have no negative start,
    step or position returns a block, also for positions and stops beyond
    the sizes; an [int] at or beyond the number of rows selects nothing,
    and with one name the block is then an array without elements. *)
Theorem getitem_nonneg_selectors self (sel : names_arg) names (cols : list (string * list A))
    sel1 sel2 R C rows :
  has_shape (base self) [R; C] →
  int64 R → int64 C → R * C < 2 ^ 63 →
  Z.of_nat rows = R * C →
  (∃ md, _get_arrow_table self (Some names) = Ok (mkTable md rows cols)) →
  Forall (fun c => length c.2 = rows) cols →
  length cols = length names →
  names ≠ [] →
  selects sel names →
  nonneg_sel sel1 → int64_sel sel1 →
  nonneg_sel sel2 → int64_sel sel2 →
  ∃ b, __getitem__ zero astype self sel [sel1; sel2] = Ok b ∧
       (∀ i, sel1 = DInt i → R ≤ i → length names = 1%nat →
          ∃ k, b = Dense (mkArray [0; k] [])).
Proof.
  intros Hshape _ _ _ Hrows Hget Hlen Hcols Hne Hsel Hs1 _ Hs2 _.
  destruct (slice_range_nonneg sel1 R Hs1) as (r1 & Hr1 & Hin1).
  destruct (slice_range_nonneg sel2 C Hs2) as (r2 & Hr2 & Hin2).
  pose proof (grid_offsets_valid r1 r2 R C rows Hin1 Hin2 Hrows) as Hvalid.
  rewrite (getitem_gathers zero astype self R C sel1 sel2 r1 r2 names cols rows
             Hshape Hr1 Hr2 Hget Hlen Hvalid sel Hsel)
    by (intros ->; by destruct names).
  cbv zeta. case_bool_decide as Hmany.
  - unfold set_index. destruct (grid_labels_lengths r1 r2) as [L1 _].
    cbn [index_len grid_labels mi_levels head fmap option_fmap option_map default
         obj_len df_index].
    rewrite decide_True by (by rewrite L1, grid_offsets_length).
    rewrite fmap_Ok. eexists. split; [reflexivity|]. intros i _ _ Hone. lia.
  - destruct names as [|name [|name' names]]; [done| |simpl in Hmany; lia].
    destruct cols as [|[n col] [|c cols]]; try discriminate Hcols.
    apply Forall_cons in Hlen as [Hc _]. cbn [snd] in Hc.
    unfold gathered. cbn [map fst snd].
    cbn [to_numpy DataFrame_to_numpy nd_data df_index df_columns index_len].
    assert (length (cells col (grid_offsets r1 r2 C))
            = length (grid_offsets r1 r2 C)) as Hcells.
    { apply cells_length. by rewrite Hc. }
    pose proof (single_column_rows n [] (cells col (grid_offsets r1 r2 C))) as Hone.
    cbn [app length fst snd] in Hone. rewrite Hcells in Hone. rewrite Hone.
    unfold reshape. rewrite bool_decide_true by (repeat constructor; lia).
    rewrite decide_True
      by (rewrite Hcells, grid_offsets_length; unfold np_prod; simpl; lia).
    rewrite fmap_Ok. eexists. split; [reflexivity|].
    intros i -> Hi _. rewrite (slice_range_int_outside i R Hi) in Hr1.
    injection Hr1 as <-. by eexists.
Qed.

(** X13 -- [__getitem__] is for 2-d matrices only.  On a 1-d matrix it
    fails with an [IndexError] for every name or list of names and every
    tuple of selectors: with fewer than two selectors the tuple has no
    third item, and with two or more the shape has no second size. *)
Theorem getitem_one_dimensional self (sel : names_arg) sels d :
  has_shape (base self) [d] →
  (∀ s, sel ≠ NameSlice s) →
  raises (__getitem__ zero astype self sel sels) "IndexError".
Proof.
  intros Hshape Hsel.
  destruct (has_shape_shape _ _ Hshape) as (s & Hs & Hitems & Hl).
  unfold __getitem__. rewrite Hs, bind_Ok, Hl, bind_Ok. cbv zeta.
  assert (∃ n, names_len match sel with
                         | NameStr s0 => NameList [s0]
                         | other => other
                         end = Ok n) as [n ->].
  { destruct sel; try (by eexists). by destruct (Hsel s0). }
  rewrite bind_Ok.
  destruct sels as [|a [|b sels]]; cbn [length Nat.add Nat.sub repeat app].
  - change (py_getitem [DSlice (mkSlice None None None)] 0)
      with (Ok (DSlice (mkSlice None None None))).
    rewrite fmap_Ok, bind_Ok. eexists. split; reflexivity.
  - change (py_getitem [a] 0) with (Ok a).
    rewrite fmap_Ok, bind_Ok. eexists. split; reflexivity.
  - replace (1 + 1 - S (S (S (length sels))))%nat with 0%nat by lia.
    cbn [repeat]. rewrite app_nil_r.
    change (py_getitem (a :: b :: sels) 0) with (Ok a).
    change (py_getitem (a :: b :: sels) 1) with (Ok b).
    rewrite !fmap_Ok, !bind_Ok.
    unfold _take_array. rewrite Hitems.
    change (py_getitem [d] 0) with (Ok d).
    rewrite bind_Ok. destruct (slice_range_total a d) as [r ->].
    rewrite bind_Ok. eexists. split; reflexivity.
Qed.

(** X14 -- A negative [int] selector does not count from the end.  On a
    2-d matrix of shape [(R, C)] with sizes in the int64 range,
    [__getitem__] with [str] names, a negative [int] [i] for the first
    dimension, with [i*C] in the int64 range, and a second selector in
    that range that realizes at least one position of the matrix fails
    with pyarrow's index error, because the offsets it computes are
    negative. *)
Theorem getitem_negative_int self (sel : names_arg) names (cols : list (string * list A))
    i sel2 r2 R C rows :
  has_shape (base self) [R; C] →
  0 ≤ R →
  int64 R → int64 C → int64 (i * C) → int64_sel sel2 →
  (∃ md, _get_arrow_table self (Some names) = Ok (mkTable md rows cols)) →
  Forall (fun c => length c.2 = rows) cols →
  cols ≠ [] →
  selects sel names →
  i < 0 →
  _slice_to_range (int_to_slice sel2) C = Ok r2 →
  r2 ≠ [] →
  Forall (fun x => 0 ≤ x < C) r2 →
  __getitem__ zero astype self sel [DInt i; sel2] = Err take_error.
Proof.
  intros Hshape HR _ _ _ _ [md Hget] Hlen Hcols Hsel Hi Hr2 Hne Hin.
  apply (getitem_gather_fails self sel names (DInt i) sel2 R C [i] r2);
    [done | by apply slice_range_int_negative | done | done |].
  unfold _get_rc_by_takers. rewrite !decide_False by lia.
  rewrite decide_True by done. cbn [names_list].
  rewrite bind_Ok, Hget, bind_Ok.
  rewrite Table_take_outside; [done|done|done|].
  cbn [num_rows]. destruct r2 as [|x r2]; [done|].
  apply Forall_cons in Hin as [Hx _].
  unfold some_offset_outside, grid_offsets. cbn [map concat app].
  left. left. nia.
Qed.
End Slicing.

Lemma getitem_full_range_witness :
  __getitem__ 0 (fun _ x => x) skims_feather (NameStr "TIME") [full_slice]
    = Ok (Dense (mkArray [2; 3] [20; 21; 22; 23; 24; 25])).
Proof.
  destruct (getitem_full_range 0 (fun _ x => x) skims_feather (NameStr "TIME")
              [full_slice] "TIME" 2 3 (schema_metadata skims_table) 6 "TIME"
              [20; 21; 22; 23; 24; 25]) as [Hitem Hget].
  - left. reflexivity.
  - lia.
  - lia.
  - unfold int64; lia.
  - unfold int64; lia.
  - lia.
  - reflexivity.
  - reflexivity.
  - reflexivity.
  - right. exists "TIME". by split.
  - right. by left.
  - rewrite Hitem, Hget. reflexivity.
Defined.

Lemma getitem_nonneg_selectors_witness :
  ∃ b, __getitem__ 0 (fun _ x => x) skims_feather (NameStr "TIME")
         [DInt 7; DSlice (mkSlice (Some 1) (Some 100) None)] = Ok b.
Proof.
  destruct (getitem_nonneg_selectors 0 (fun _ x => x) skims_feather (NameStr "TIME")
              ["TIME"] [("TIME", [20; 21; 22; 23; 24; 25])]
              (DInt 7) (DSlice (mkSlice (Some 1) (Some 100) None)) 2 3 6)
    as (b & Hb & _).
  - left. reflexivity.
  - unfold int64; lia.
  - unfold int64; lia.
  - lia.
  - reflexivity.
  - by eexists.
  - repeat constructor.
  - reflexivity.
  - discriminate.
  - right. exists "TIME". by split.
  - simpl. lia.
  - simpl. unfold int64. lia.
  - simpl. lia.
  - simpl. unfold int64. lia.
  - by exists b.
Defined.

Lemma getitem_one_dimensional_witness :
  raises (__getitem__ 0 (fun _ x => x)
            (mkFeather (AbstractArrowMatrix_init "zones.fmx" (Some OMX_VERSION)
                          (Some (PyInt 6)))
                       ["DIST"; "TIME"] skims_table)
            (NameStr "TIME") [full_slice])
         "IndexError".
Proof.
  apply (getitem_one_dimensional 0 (fun _ x => x) _ (NameStr "TIME") [full_slice] 6).
  - left. reflexivity.
  - discriminate.
Defined.

Lemma getitem_negative_int_witness :
  __getitem__ 0 (fun _ x => x) skims_feather (NameStr "TIME") [DInt (-1); full_slice]
    = Err take_error.
Proof.
  apply (getitem_negative_int 0 (fun _ x => x) skims_feather (NameStr "TIME")
           ["TIME"] [("TIME", [20; 21; 22; 23; 24; 25])] (-1) full_slice
           [0; 1; 2] 2 3 6).
  - left. reflexivity.
  - lia.
  - unfold int64; lia.
  - unfold int64; lia.
  - unfold int64; lia.
  - by split_and!.
  - by eexists.
  - repeat constructor.
  - discriminate.
  - right. exists "TIME". by split.
  - lia.
  - reflexivity.
  - discriminate.
  - repeat constructor; lia.
Defined.

(** ** The constructors *)

Section Constructors.
Context {A : Type} (pandas_json : DataFrame A → string).
Implicit Types (fs : gmap string (file A)) (t : Table A).

Lemma Feather_open_table fs fname t chunks (md : gmap string string) text shp v :
  fs !! fname = Some (FeatherData t chunks) →
  schema_metadata t = Some md →
  md !! "SHAPE" = Some text →
  literal_eval text = Some shp →
  md !! "OMX_VERSION" = Some v →
  FeatherMatrix_init fs fname =
    Ok (mkFeather (AbstractArrowMatrix_init fname (Some v) (Some shp))
                  (map fst (columns t)) t).
Proof.
  intros Hf Hmd Hs Hp Hv. unfold FeatherMatrix_init, read_feather.
  rewrite Hf, !bind_Ok, Hmd. unfold dict_getitem.
  by rewrite Hv, bind_Ok, Hs, bind_Ok, Hp.
Qed.

Lemma Parquet_open_table fs fname t (md : gmap string string) text shp v a b :
  fs !! fname = Some (ParquetData t) →
  schema_metadata t = Some md →
  md !! "SHAPE" = Some text →
  literal_eval text = Some shp →
  md !! "OMX_VERSION" = Some v →
  ∃ w, ParquetMatrix_init fs fname a b =
         Ok (mkParquet (AbstractArrowMatrix_init fname (Some v) (Some shp)) t w) ∧
       (w = [] ↔ np_prod_obj (Some shp) = Some (Z.of_nat (num_rows t))).
Proof.
  intros Hf Hmd Hs Hp Hv. unfold ParquetMatrix_init, read_parquet.
  rewrite Hf, !bind_Ok, Hmd. unfold dict_getitem.
  rewrite Hs, bind_Ok, Hp, bind_Ok, Hv, bind_Ok.
  eexists. split; [reflexivity|].
  case_decide; [done|]. split; [discriminate|done].
Qed.

Lemma Feather_open_inv fs fname (fm : FeatherMatrix) :
  FeatherMatrix_init fs fname = Ok fm →
  ∃ t chunks (md : gmap string string) text shp v,
    fs !! fname = Some (FeatherData t chunks) ∧
    schema_metadata t = Some md ∧
    md !! "SHAPE" = Some text ∧
    literal_eval text = Some shp ∧
    md !! "OMX_VERSION" = Some v ∧
    fm = mkFeather (AbstractArrowMatrix_init fname (Some v) (Some shp))
                   (map fst (columns t)) t.
Proof.
  unfold FeatherMatrix_init, read_feather. intros H.
  destruct (fs !! fname) as [[t chunks| |]|]; try discriminate H.
  rewrite !bind_Ok in H. unfold dict_getitem in H.
  destruct (schema_metadata t) as [md|] eqn:Hmd; [|discriminate H].
  destruct (md !! "OMX_VERSION") as [v|] eqn:Hv; [|discriminate H].
  rewrite bind_Ok in H.
  destruct (md !! "SHAPE") as [text|] eqn:Hs; [|discriminate H].
  rewrite bind_Ok in H.
  destruct (literal_eval text) as [shp|] eqn:Hp; [|discriminate H].
  rewrite !bind_Ok in H. injection H as <-.
  by exists t, chunks, md, text, shp, v.
Qed.

Lemma Parquet_open_inv fs fname a b (pm : ParquetMatrix) :
  ParquetMatrix_init fs fname a b = Ok pm →
  ∃ t (md : gmap string string) text shp v w,
    fs !! fname = Some (ParquetData t) ∧
    schema_metadata t = Some md ∧
    md !! "SHAPE" = Some text ∧
    literal_eval text = Some shp ∧
    md !! "OMX_VERSION" = Some v ∧
    pm = mkParquet (AbstractArrowMatrix_init fname (Some v) (Some shp)) t w.
Proof.
  unfold ParquetMatrix_init, read_parquet. intros H.
  destruct (fs !! fname) as [[|t|]|]; try discriminate H.
  rewrite !bind_Ok in H. unfold dict_getitem in H.
  destruct (schema_metadata t) as [md|] eqn:Hmd; [|discriminate H].
  destruct (md !! "SHAPE") as [text|] eqn:Hs; [|discriminate H].
  rewrite bind_Ok in H.
  destruct (literal_eval text) as [shp|] eqn:Hp; [|discriminate H].
  rewrite bind_Ok in H.
  destruct (md !! "OMX_VERSION") as [v|] eqn:Hv; [|discriminate H].
  rewrite bind_Ok in H. injection H as <-.
  by eexists t, md, text, shp, v, _.
Qed.

Lemma check_write_file_refuses fs fname :
  is_Some (fs !! fname) →
  check_write_file fs fname false = Err (FileExistsError fname).
Proof.
  intros H. unfold check_write_file. by rewrite bool_decide_true.
Qed.

(** X15 -- No constructor overwrites a file unasked.  When the target
    exists and [overwrite] is false, [from_hdf5], [from_dataframe] and
    [from_arrow] fail with [FileExistsError], on every backend and
    whatever the source and the shape are: the check comes first. *)
Theorem constructors_refuse_overwrite {M S : Type} `{!@ArrowMatrix A M}
    `{!@ArrowMatrix A S} fs to_filename :
  is_Some (fs !! to_filename) →
  (∀ src shape,
     raises (from_hdf5 (M := M) pandas_json fs src to_filename false shape)
            "FileExistsError") ∧
  (∀ df shape,
     raises (from_dataframe (M := M) pandas_json fs df to_filename false shape)
            "FileExistsError") ∧
  (∀ (source : S) names,
     raises (from_arrow (M := M) fs source to_filename names false)
            "FileExistsError").
Proof.
  intros Hex. split_and!; intros; eexists;
    unfold from_hdf5, from_dataframe, from_arrow;
    rewrite (check_write_file_refuses _ _ Hex); split; reflexivity.
Qed.

(** X16 -- A conversion between the backends keeps the matrix.  For a
    writable target, [from_arrow] on a Feather file opened by
    [FeatherMatrix] writes its table to a Parquet file and returns a
    [ParquetMatrix] on that table with the same shape, version and list
    of matrices; and likewise from a [ParquetMatrix] to a Feather file. *)
Theorem from_arrow_keeps_matrix fs src to_filename overwrite :
  fs !! to_filename = None ∨ overwrite = true →
  (∀ source : FeatherMatrix,
     FeatherMatrix_init fs src = Ok source →
     ∃ (pm : ParquetMatrix),
       from_arrow fs source to_filename None overwrite
         = Ok (pm, <[to_filename := ParquetData (_table source)]> fs) ∧
       parquet_file pm = _table source ∧
       shape (base pm) = shape (base source) ∧
       omx_version (base pm) = omx_version (base source) ∧
       list_matrices pm = list_matrices source) ∧
  (∀ source : ParquetMatrix,
     ParquetMatrix_init fs src None None = Ok source →
     ∃ (fm : FeatherMatrix) chunks,
       from_arrow fs source to_filename None overwrite
         = Ok (fm, <[to_filename := FeatherData (parquet_file source) chunks]> fs) ∧
       _table fm = parquet_file source ∧
       shape (base fm) = shape (base source) ∧
       omx_version (base fm) = omx_version (base source) ∧
       list_matrices fm = list_matrices source).
Proof.
  intros Hfree. split.
  - intros source Hopen.
    apply Feather_open_inv in Hopen
      as (t & chunks & md & text & shp & v & _ & Hmd & Hs & Hp & Hv & ->).
    destruct (Parquet_open_table (<[to_filename := ParquetData t]> fs) to_filename t
                md text shp v None None) as (w & Hnew & _);
      [by rewrite lookup_insert_eq | done..|].
    exists (mkParquet (AbstractArrowMatrix_init to_filename (Some v) (Some shp)) t w).
    split; [|by destruct shp].
    unfold from_arrow. rewrite (check_write_file_ok _ _ _ Hfree), bind_Ok.
    cbn [_get_arrow_table FeatherMatrix_ArrowMatrix base fm_base].
    unfold Feather_get_arrow_table. cbn [_table].
    rewrite bind_Ok.
    destruct (AbstractArrowMatrix_init_shape src (Some v) shp) as [Hshape _].
    unfold shape. rewrite Hshape, bind_Ok.
    cbn [_write_arrow_table open ParquetMatrix_ArrowMatrix].
    unfold Parquet_write_arrow_table.
    by rewrite Hnew.
  - intros source Hopen.
    apply Parquet_open_inv in Hopen
      as (t & md & text & shp & v & w & _ & Hmd & Hs & Hp & Hv & ->).
    eexists (mkFeather (AbstractArrowMatrix_init to_filename (Some v) (Some shp))
               (map fst (columns t)) t), _.
    split; [|by destruct shp].
    unfold from_arrow. rewrite (check_write_file_ok _ _ _ Hfree), bind_Ok.
    cbn [_get_arrow_table ParquetMatrix_ArrowMatrix base pm_base].
    unfold Parquet_get_arrow_table. cbn [ParquetFile_read parquet_file].
    rewrite bind_Ok.
    destruct (AbstractArrowMatrix_init_shape src (Some v) shp) as [Hshape _].
    unfold shape. rewrite Hshape, bind_Ok.
    cbn [_write_arrow_table open FeatherMatrix_ArrowMatrix].
    unfold Feather_write_arrow_table.
    erewrite Feather_open_table; [reflexivity | by rewrite lookup_insert_eq | done..].
Qed.




End Constructors.

Lemma constructors_refuse_overwrite_witness :
  raises (from_hdf5 (M := FeatherMatrix) (fun _ => "{}") skims_fs
            (SrcPath "skims.omx") "skims.omx" false None) "FileExistsError".
Proof.
  destruct (constructors_refuse_overwrite (M := FeatherMatrix) (S := ParquetMatrix)
              (fun _ => "{}") skims_fs "skims.omx") as (Hhdf5 & _ & _).
  - by eexists.
  - apply Hhdf5.
Defined.

Lemma from_arrow_keeps_matrix_witness :
  ∃ pm : ParquetMatrix,
    from_arrow {["skims.fmx" := FeatherData skims_table None]} skims_feather
      "skims.pqmx" None false
      = Ok (pm, <["skims.pqmx" := ParquetData skims_table]>
                  {["skims.fmx" := FeatherData skims_table None]}) ∧
    shape (base pm) = Ok (PyTuple [2; 3]).
Proof.
  destruct (from_arrow_keeps_matrix {["skims.fmx" := FeatherData skims_table None]}
              "skims.fmx" "skims.pqmx" false) as [Hfeather _].
  - left. reflexivity.
  - destruct (Hfeather skims_feather) as (pm & Hrun & _ & Hshape & _).
    + reflexivity.
    + exists pm. split; [exact Hrun | exact Hshape].
Defined.




(** ** The ingest of the lookups *)

Section LookupIngest.
Context {A : Type} (pandas_json : DataFrame A → string).
Implicit Types (lookup : list (string * ndarray A)) (size : Z).

(** The dict that the loop over the nodes under [/lookup] builds. *)
Lemma lookup_loop lookup size post : ∀ pre,
  lookup = (pre ++ post)%list →
  NoDup (map fst lookup) →
  for_each (fun d k =>
              match filter (fun nd : string * ndarray A => nd.1 = k) lookup with
              | nd :: _ =>
                  let v := ravel nd.2 in
                  if py_eq_int (PyInt size) (Z.of_nat (length v))
                  then Ok (dict_set d k v) else Ok d
              | [] => Err (KeyError k)
              end)
    (map fst post)
    (flat_columns (filter (fun nd => size = Z.of_nat (length (ravel nd.2))) pre))
  = Ok (flat_columns
          (filter (fun nd => size = Z.of_nat (length (ravel nd.2))) lookup)).
Proof.
  induction post as [|nd post IH]; intros pre Hsplit Hnd.
  - rewrite app_nil_r in Hsplit. by rewrite Hsplit.
  - cbn [map for_each].
    assert (nd ∈ lookup) as Hin by (rewrite Hsplit; set_solver).
    rewrite (filter_unique _ _ Hnd Hin). cbv zeta. cbn [py_eq_int].
    assert (lookup = ((pre ++ [nd]) ++ post)%list) as Hsplit'
      by (by rewrite <- app_assoc).
    specialize (IH _ Hsplit' Hnd). rewrite filter_app in IH.
    case_bool_decide as Hsize.
    + rewrite dict_set_fresh.
      * rewrite filter_cons_True, filter_nil in IH by done.
        unfold flat_columns in IH |- *. rewrite map_app in IH. exact IH.
      * unfold flat_columns. rewrite map_map. cbn [fst].
        rewrite Hsplit, map_app in Hnd. apply NoDup_app in Hnd as (_ & Hdisj & _).
        intros Hpre. apply (Hdisj nd.1); [|by left].
        apply list_elem_of_fmap in Hpre as (x & Hx & Hxin).
        apply list_elem_of_fmap. exists x. split; [done|].
        by apply list_elem_of_filter in Hxin as [_ ?].
    + rewrite filter_cons_False, filter_nil, app_nil_r in IH by done. exact IH.
Qed.

Lemma lookup_ingest_ok lookup R C size shape_arg :
  NoDup (map fst lookup) →
  (R = C ∧ size = R ∧ (∀ xs, shape_arg = Some (PyTuple xs) → length xs = 1%nat)) ∨
  (R ≠ C ∧ (size = R ∨ size = C) ∧
   (shape_arg = Some (PyInt size) ∨ shape_arg = Some (PyTuple [size]))) →
  ∃ rows,
    omx_hdf5_1_to_arrow pandas_json (LkFile [R; C] lookup) shape_arg =
      Ok (mkTable
            (Some (<["SHAPE" := str_int size]>
                     (<["OMX_VERSION" := OMX_VERSION]>
                        {["pandas" := pandas_json
                            (mkFrame
                               (flat_columns
                                  (filter (fun nd => size = Z.of_nat (length (ravel nd.2)))
                                          lookup))
                               (RangeIndex rows))]})))
            rows
            (flat_columns
               (filter (fun nd => size = Z.of_nat (length (ravel nd.2))) lookup))) ∧
    Forall (fun c => length c.2 = rows)
      (flat_columns (filter (fun nd => size = Z.of_nat (length (ravel nd.2))) lookup)).
Proof.
  intros Hnd Hcase.
  pose proof (lookup_loop lookup size lookup [] eq_refl Hnd) as Hloop.
  rewrite filter_nil in Hloop. change (flat_columns []) with (@nil (string * list A)) in Hloop.
  destruct (DataFrame_from_dict_ok
              (flat_columns (filter (fun nd => size = Z.of_nat (length (ravel nd.2)))
                                    lookup)) size) as (rows & Hdf & Hrows).
  { unfold flat_columns. apply Forall_map, Forall_forall.
    intros nd Hin%list_elem_of_filter. simpl. by destruct Hin as [-> _]. }
  exists rows. split; [|exact Hrows]. unfold omx_hdf5_1_to_arrow.
  assert (∃ s', match shape_arg with
                | Some (PyTuple [n]) => Ok (Some (PyInt n))
                | Some (PyTuple _) => Err (ValueError "must give one dimensional shape")
                | other => Ok other
                end = Ok s' ∧
                (R ≠ C → s' = Some (PyInt size))) as (s' & -> & Hs').
  { destruct Hcase as [(HRC & _ & Htuple) | (_ & _ & [-> | ->])].
    - destruct shape_arg as [[k|xs|xs]|]; try (eexists; split; [reflexivity|done]).
      specialize (Htuple xs eq_refl).
      destruct xs as [|x [|y xs]]; try discriminate Htuple.
      eexists; split; [reflexivity|done].
    - eexists; split; [reflexivity|done].
    - eexists; split; [reflexivity|done]. }
  rewrite bind_Ok.
  change (py_getitem [R; C] 0) with (Ok R).
  change (py_getitem [R; C] 1) with (Ok C).
  rewrite !bind_Ok.
  cbv zeta in Hloop.
  destruct Hcase as [(HRC & -> & _) | (HRC & Hsize & _)].
  - rewrite decide_True by done.
    rewrite !bind_Ok, Hloop, bind_Ok, Hdf, !bind_Ok. reflexivity.
  - rewrite decide_False by done. rewrite (Hs' HRC). cbn [np_eq_truth].
    rewrite bind_Ok.
    assert ((if bool_decide (size = R) then Ok true
             else Ok (bool_decide (size = C))) = (Ok true : result bool)) as ->.
    { destruct Hsize as [-> | ->]; [by rewrite bool_decide_true|].
      case_bool_decide; [done|]. by rewrite bool_decide_true. }
    rewrite !bind_Ok, Hloop, bind_Ok, Hdf, !bind_Ok. reflexivity.
Qed.

(** X20 -- The 1-d ingest keeps the lookups of the length of the matrix.
    For an open file of shape [(R, C)] with distinctly named lookups,
    [omx_hdf5_1_to_arrow] returns, for a square file, the lookups that
    have [R] elements, in the order of the file, under the shape text of
    [R], whatever shape is given; for a file that is not square and a
    shape equal to one of the two sizes, the lookups of that many
    elements under that shape. *)
Theorem lookup_ingest_keeps_matching lookup R C size shape_arg :
  NoDup (map fst lookup) →
  (R = C ∧ size = R ∧ (∀ xs, shape_arg = Some (PyTuple xs) → length xs = 1%nat)) ∨
  (R ≠ C ∧ (size = R ∨ size = C) ∧
   (shape_arg = Some (PyInt size) ∨ shape_arg = Some (PyTuple [size]))) →
  ∃ t (md : gmap string string),
    omx_hdf5_1_to_arrow pandas_json (LkFile [R; C] lookup) shape_arg = Ok t ∧
    schema_metadata t = Some md ∧
    md !! "SHAPE" = Some (str_int size) ∧
    md !! "OMX_VERSION" = Some "0.3.0a" ∧
    columns t =
      flat_columns (filter (fun nd => size = Z.of_nat (length (ravel nd.2))) lookup) ∧
    table_wf t.
Proof.
  intros Hnd Hcase.
  destruct (lookup_ingest_ok lookup R C size shape_arg Hnd Hcase)
    as (rows & Hrun & Hrows).
  eexists _, _. split; [exact Hrun|]. cbn [schema_metadata columns].
  split_and!; [reflexivity | by rewrite lookup_insert_eq
              | by rewrite lookup_insert_ne, lookup_insert_eq | reflexivity
              | exact Hrows].
Qed.
End LookupIngest.

Section LookupErrors.
Context {A : Type} (pandas_json : DataFrame A → string).

Lemma lookup_loop_list (lookup post : list (string * ndarray A)) xs :
  (∀ nd, nd ∈ post → nd ∈ lookup) →
  for_each (fun d k =>
              match filter (fun nd => nd.1 = k) lookup with
              | nd :: _ =>
                  let v := ravel nd.2 in
                  if py_eq_int (PyList xs) (Z.of_nat (length v))
                  then Ok (dict_set d k v) else Ok d
              | [] => Err (KeyError k)
              end)
    (map fst post) [] = Ok [].
Proof.
  induction post as [|nd post IH]; intros Hsub; [done|].
  cbn [map for_each].
  destruct (filter (fun nd' => nd'.1 = nd.1) lookup) as [|nd' l] eqn:Hf.
  - assert (nd ∈ filter (fun nd' => nd'.1 = nd.1) lookup) as Hin
      by (apply list_elem_of_filter; split; [done | apply Hsub; left]).
    rewrite Hf in Hin. inversion Hin.
  - cbv zeta. cbn [py_eq_int]. rewrite bind_Ok. apply IH.
    intros x Hx. apply Hsub. by right.
Qed.

(** X21 -- The shape of a file that is not square must be said, and
    must be one of its sizes.  For an open file of shape [(R, C)] with
    [R] different from [C], [omx_hdf5_1_to_arrow] fails with
    [MissingShapeError] without a shape, and with [AssertionError] for an
    [int] shape, a 1-tuple or a one-item list whose size is neither [R]
    nor [C]; a list of two or more sizes fails with the [ValueError] of
    the truth value of an array; and a one-item list holding [R] or [C]
    passes the check (it is compared item by item) but equals the length
    of no lookup, so the table returned has no columns, under the shape
    text of the list. *)
Theorem lookup_ingest_shape_errors (lookup : list (string * ndarray A)) R C :
  R ≠ C →
  raises (omx_hdf5_1_to_arrow pandas_json (LkFile [R; C] lookup) None)
         "MissingShapeError" ∧
  (∀ k, k ≠ R → k ≠ C →
     raises (omx_hdf5_1_to_arrow pandas_json (LkFile [R; C] lookup) (Some (PyInt k)))
            "AssertionError" ∧
     raises (omx_hdf5_1_to_arrow pandas_json (LkFile [R; C] lookup)
               (Some (PyTuple [k]))) "AssertionError" ∧
     raises (omx_hdf5_1_to_arrow pandas_json (LkFile [R; C] lookup)
               (Some (PyList [k]))) "AssertionError") ∧
  (∀ x y xs,
     raises (omx_hdf5_1_to_arrow pandas_json (LkFile [R; C] lookup)
               (Some (PyList (x :: y :: xs)))) "ValueError") ∧
  (∀ k, k = R ∨ k = C →
     ∃ t (md : gmap string string),
       omx_hdf5_1_to_arrow pandas_json (LkFile [R; C] lookup) (Some (PyList [k]))
         = Ok t ∧
       schema_metadata t = Some md ∧
       md !! "SHAPE" = Some (py_str (PyList [k])) ∧
       columns t = [] ∧ num_rows t = 0%nat).
Proof.
  intros HRC. split_and!.
  - unfold omx_hdf5_1_to_arrow. rewrite bind_Ok.
    change (py_getitem [R; C] 0) with (Ok R).
    change (py_getitem [R; C] 1) with (Ok C).
    rewrite !bind_Ok, decide_False by done. eexists. split; reflexivity.
  - intros k HkR HkC. split_and!; unfold omx_hdf5_1_to_arrow; rewrite bind_Ok;
      change (py_getitem [R; C] 0) with (Ok R);
      change (py_getitem [R; C] 1) with (Ok C);
      rewrite !bind_Ok, decide_False by done; cbn [np_eq_truth];
      rewrite bind_Ok, (bool_decide_false (k = R)) by done;
      rewrite bind_Ok, (bool_decide_false (k = C)) by done;
      eexists; split; reflexivity.
  - intros x y xs. unfold omx_hdf5_1_to_arrow. rewrite bind_Ok.
    change (py_getitem [R; C] 0) with (Ok R).
    change (py_getitem [R; C] 1) with (Ok C).
    rewrite !bind_Ok, decide_False by done. eexists. split; reflexivity.
  - intros k Hk. unfold omx_hdf5_1_to_arrow. rewrite bind_Ok.
    change (py_getitem [R; C] 0) with (Ok R).
    change (py_getitem [R; C] 1) with (Ok C).
    rewrite !bind_Ok, decide_False by done. cbn [np_eq_truth]. rewrite bind_Ok.
    assert ((if bool_decide (k = R) then Ok true
             else Ok (bool_decide (k = C))) = (Ok true : result bool)) as ->.
    { destruct Hk as [-> | ->]; [by rewrite bool_decide_true|].
      case_bool_decide; [done|]. by rewrite bool_decide_true. }
    rewrite !bind_Ok.
    pose proof (lookup_loop_list lookup lookup [k] (fun _ H => H)) as Hloop.
    cbv zeta in Hloop. rewrite Hloop, !bind_Ok.
    eexists _, _. split; [reflexivity|]. cbn [schema_metadata columns num_rows].
    split_and!; [reflexivity | by rewrite lookup_insert_eq | reflexivity..].
Qed.
End LookupErrors.

Lemma lookup_ingest_keeps_matching_witness :
  ∃ t (md : gmap string string),
    omx_hdf5_1_to_arrow (fun _ => "{}") (LkFile [2; 3] zone_lookups) (Some (PyInt 3))
      = Ok t ∧
    md !! "SHAPE" = Some "3" ∧
    columns t = [("STOP", [7; 8; 9])].
Proof.
  destruct (lookup_ingest_keeps_matching (fun _ => "{}") zone_lookups 2 3 3
              (Some (PyInt 3))) as (t & md & Hrun & _ & Hshape & _ & Hcols & _).
  - constructor; [|constructor; [|constructor]].
    + intros Hin. apply list_elem_of_singleton in Hin. discriminate Hin.
    + intros Hin. inversion Hin.
  - right. split_and!; [lia | by right | by left].
  - exists t, md. split_and!; [exact Hrun | exact Hshape | exact Hcols].
Defined.

Lemma lookup_ingest_shape_errors_witness :
  raises (omx_hdf5_1_to_arrow (fun _ => "{}") (LkFile [2; 3] zone_lookups) None)
         "MissingShapeError" ∧
  ∃ t, omx_hdf5_1_to_arrow (fun _ => "{}") (LkFile [2; 3] zone_lookups)
         (Some (PyList [3])) = Ok t ∧ columns t = [].
Proof.
  destruct (lookup_ingest_shape_errors (fun _ => "{}") zone_lookups 2 3)
    as (Hnone & _ & _ & Hlist).
  - lia.
  - split; [exact Hnone|].
    destruct (Hlist 3) as (t & md & Hrun & _ & _ & Hcols & _); [by right|].
    by exists t.
Defined.

(** ** The labels of a long-format block *)

Lemma zip_with_repeat_l (a C : Z) (r2 : list Z) :
  zip_with (fun i j => i * C + j) (repeat a (length r2)) r2
    = map (fun b => a * C + b) r2.
Proof. induction r2 as [|b r2 IH]; [done|]. cbn. by rewrite IH. Qed.

Lemma grid_labels_pair_offsets (r1 r2 : list Z) C :
  pair_offsets (concat (map (fun a => repeat a (length r2)) r1))
               (concat (repeat r2 (length r1))) C
    = grid_offsets r1 r2 C.
Proof.
  unfold pair_offsets, grid_offsets.
  induction r1 as [|a r1 IH]; [done|].
  cbn [map concat length repeat].
  rewrite zip_with_app by (by rewrite repeat_length).
  by rewrite zip_with_repeat_l, IH.
Qed.

Section LongBlock.
Context {A M : Type} `{!@ArrowMatrix A M} (zero : A) (astype : string → A → A).

(** X22 -- The row labels of a long-format block are the coordinates of
    its rows.  On a 2-d matrix of shape [(R, C)] stored in [R*C] rows,
    with [R], [C] and [R*C] in the int64 range, when [__getitem__] with
    several names and two selectors in that range realizes positions of
    the matrix, at least one in each dimension, it returns a frame
    labelled by two arrays, and [get_rc] with these two arrays as the row
    and column indexes returns the columns of that frame. *)
Theorem long_block_labels_are_coordinates (self : M) names
    (cols : list (string * list A)) sel1 sel2 r1 r2 R C rows :
  has_shape (base self) [R; C] →
  int64 R → int64 C → R * C < 2 ^ 63 →
  Z.of_nat rows = R * C →
  (∃ md, _get_arrow_table self (Some names) = Ok (mkTable md rows cols)) →
  Forall (fun c => length c.2 = rows) cols →
  length cols = length names →
  (1 < length names)%nat →
  int64_sel sel1 → int64_sel sel2 →
  _slice_to_range (int_to_slice sel1) R = Ok r1 →
  _slice_to_range (int_to_slice sel2) C = Ok r2 →
  r1 ≠ [] → r2 ≠ [] →
  Forall (fun x => 0 ≤ x < R) r1 →
  Forall (fun x => 0 ≤ x < C) r2 →
  ∃ df l0 l1,
    __getitem__ zero astype self (NameList names) [sel1; sel2]
      = Ok (Long (PFrame df)) ∧
    df_index df = MultiLabels (mkMultiIndex [None; None] [l0; l1]) ∧
    get_rc zero astype self (NameList names) [Sequence l0; Sequence l1] 4
      (AttachBool false) "float64"
      = Ok (PFrame (mkFrame (df_columns df) (RangeIndex (length l0)))).
Proof.
  intros Hshape _ _ _ Hrows Hget Hlen Hcols Hmany _ _ Hr1 Hr2 _ _ Hin1 Hin2.
  assert (cols ≠ []) as Hne by (intros ->; simpl in Hcols; lia).
  pose proof (grid_offsets_valid r1 r2 R C rows Hin1 Hin2 Hrows) as Hvalid.
  destruct (grid_labels_lengths r1 r2) as [L1 L2].
  set (l0 := concat (map (fun a => repeat a (length r2)) r1)) in *.
  set (l1 := concat (repeat r2 (length r1))) in *.
  exists (mkFrame (gathered cols (grid_offsets r1 r2 C))
                  (MultiLabels (grid_labels r1 r2))), l0, l1.
  split_and!.
  - rewrite (getitem_gathers zero astype self R C sel1 sel2 r1 r2 names cols rows
               Hshape Hr1 Hr2 Hget Hlen Hvalid (NameList names)); [|by left|done].
    cbv zeta. rewrite bool_decide_true by done.
    unfold set_index.
    cbn [index_len grid_labels mi_levels head fmap option_fmap option_map default
         obj_len df_index].
    fold l0. rewrite decide_True by (by rewrite L1, grid_offsets_length).
    by rewrite fmap_Ok.
  - reflexivity.
  - cbn [df_columns]. destruct Hget as [md Hget].
    assert (length (asarray_flat (Sequence l1)) = length (asarray_flat (Sequence l0)))
      as Hsame by (cbn [asarray_flat]; by rewrite L1, L2).
    rewrite (get_rc_unlabelled zero astype self R C (Sequence l0) (Sequence l1) names
               "float64" Hshape Hsame 4
               (PFrame (mkFrame (gathered cols (grid_offsets r1 r2 C))
                                (RangeIndex (length (grid_offsets r1 r2 C)))))).
    + cbn [reset_index obj_len df_index index_len df_columns].
      by rewrite L1, grid_offsets_length.
    + cbn [asarray_flat]. subst l0 l1. rewrite grid_labels_pair_offsets.
      by apply (method4_ok zero astype self rows _ "float64" Hvalid names cols md).
Qed.
End LongBlock.

Lemma long_block_labels_are_coordinates_witness :
  ∃ df l0 l1,
    __getitem__ 0 (fun _ x => x) skims_feather (NameList ["DIST"; "TIME"])
      [DInt 1; DSlice (mkSlice (Some 1) None None)] = Ok (Long (PFrame df)) ∧
    df_index df = MultiLabels (mkMultiIndex [None; None] [l0; l1]) ∧
    get_rc 0 (fun _ x => x) skims_feather (NameList ["DIST"; "TIME"])
      [Sequence l0; Sequence l1] 4 (AttachBool false) "float64"
      = Ok (PFrame (mkFrame (df_columns df) (RangeIndex (length l0)))).
Proof.
  apply (long_block_labels_are_coordinates 0 (fun _ x => x) skims_feather
           ["DIST"; "TIME"]
           [("DIST", [10; 11; 12; 13; 14; 15]); ("TIME", [20; 21; 22; 23; 24; 25])]
           (DInt 1) (DSlice (mkSlice (Some 1) None None)) [1] [1; 2] 2 3 6).
  - left. reflexivity.
  - unfold int64; lia.
  - unfold int64; lia.
  - lia.
  - reflexivity.
  - by eexists.
  - repeat constructor.
  - reflexivity.
  - simpl. lia.
  - simpl. unfold int64. lia.
  - split_and!; [|done..]. simpl. unfold int64. lia.
  - reflexivity.
  - reflexivity.
  - discriminate.
  - discriminate.
  - repeat constructor; lia.
  - repeat constructor; lia.
Defined.

(** ** Coordinates beyond a dimension *)

Lemma pair_offsets_carry (o d : list Z) C :
  pair_offsets o (map (fun j => j + C) d) C
    = pair_offsets (map (fun i => i + 1) o) d C.
Proof.
  unfold pair_offsets. revert d.
  induction o as [|i o IH]; intros [|j d]; try done.
  cbn [map zip_with]. rewrite IH. f_equal. lia.
Qed.

Section Carry.
Context {A M : Type} `{!@ArrowMatrix A M} (zero : A) (astype : string → A → A).

(** X23 -- No index is checked against its own dimension.  On a 2-d
    matrix with [C] columns, column indexes raised by [C] read what the
    next rows hold: [get_rc] and [get_rc_table] at the pairs
    [(o[k], d[k] + C)] return what they return at [(o[k] + 1, d[k])],
    for every name argument and method. *)
Theorem get_rc_no_range_check (self : M) R C (o d : list Z) names method dtype :
  has_shape (base self) [R; C] →
  length d = length o →
  get_rc zero astype self names [Sequence o; Sequence (map (fun j => j + C) d)]
    method (AttachBool false) dtype
  = get_rc zero astype self names [Sequence (map (fun i => i + 1) o); Sequence d]
      method (AttachBool false) dtype ∧
  get_rc_table self names [Sequence o; Sequence (map (fun j => j + C) d)]
  = get_rc_table self names [Sequence (map (fun i => i + 1) o); Sequence d].
Proof.
  intros Hshape Hlen.
  assert (_takers (base self) [Sequence o; Sequence (map (fun j => j + C) d)]
            (AttachBool false)
          = _takers (base self) [Sequence (map (fun i => i + 1) o); Sequence d]
              (AttachBool false)) as Htakers.
  { rewrite !(_takers_2d _ R C) by (cbn [asarray_flat]; rewrite ?length_map; done).
    cbn [asarray_flat]. by rewrite pair_offsets_carry. }
  unfold get_rc, get_rc_table. by rewrite Htakers.
Qed.
End Carry.

Lemma get_rc_no_range_check_witness :
  get_rc 0 (fun _ x => x) skims_feather (NameStr "TIME")
    [Sequence [0]; Sequence (map (fun j => j + 3) [1])] 4 (AttachBool false) "float64"
  = get_rc 0 (fun _ x => x) skims_feather (NameStr "TIME")
      [Sequence (map (fun i => i + 1) [0]); Sequence [1]] 4 (AttachBool false)
      "float64".
Proof.
  destruct (get_rc_no_range_check 0 (fun _ x => x) skims_feather 2 3 [0] [1]
              (NameStr "TIME") 4 "float64") as [Hrc _].
  - left. reflexivity.
  - reflexivity.
  - exact Hrc.
Defined.
